(** * The vnode operations of the fuse4x kernel extension (fuse_vnops.c)

    A shallow embedding of the VFS entry points of [fuse_vnops.c] and of the
    inline helpers of [fuse_file.h].  A vnode operation is a computation over
    a [world]: the session of the mount ([fuse_data]), the per-vnode node
    data ([fuse_vnode_data], with its three file-handle slots), the memory of
    the caller that the argument block points to, and the trace of what the
    operation did to the outside (requests handed to the daemon, name-cache
    and page-cache calls).  The daemon and the host kernel are an oracle, the
    [kernel] record.

    The optional big lock ([FUSE4X_ENABLE_BIGLOCK]) and the statistics
    counters ([OSIncrementAtomic] on [fuse_fh_reuse_count] and the like) are
    left out: no operation reads them. *)

From Stdlib Require Import ZArith Lia Bool List Ascii String.
From stdpp Require Import base option gmap strings.
Import ListNotations.

Local Open Scope Z_scope.

(** ** Platform constants (Darwin headers) *)

Definition errno := Z.

Definition EPERM        : errno := 1.
Definition ENOENT       : errno := 2.
Definition EIO          : errno := 5.
Definition ENXIO        : errno := 6.
Definition E2BIG        : errno := 7.
Definition EBADF        : errno := 9.
Definition EACCES       : errno := 13.
Definition EBUSY        : errno := 16.
Definition EXDEV        : errno := 18.
Definition ENODEV       : errno := 19.
Definition ENOTDIR      : errno := 20.
Definition EISDIR       : errno := 21.
Definition EINVAL       : errno := 22.
Definition EFBIG        : errno := 27.
Definition EROFS        : errno := 30.
Definition EMLINK       : errno := 31.
Definition ERANGE       : errno := 34.
Definition EAGAIN       : errno := 35.
Definition ENOTSUP      : errno := 45.
Definition ENOTCONN     : errno := 57.
Definition ENAMETOOLONG : errno := 63.
Definition ENOSYS       : errno := 78.
Definition EJUSTRETURN  : errno := -2.

(* <sys/mman.h>, <sys/fcntl.h> *)
Definition PROT_READ  : Z := 1.
Definition PROT_WRITE : Z := 2.
Definition PROT_EXEC  : Z := 4.
Definition FREAD      : Z := 1.
Definition FWRITE     : Z := 2.
Definition O_RDONLY   : Z := 0.
Definition O_WRONLY   : Z := 1.
Definition O_RDWR     : Z := 2.
Definition O_CREAT    : Z := 512.

(* <sys/vnode.h> *)
Definition IO_UNIT        : Z := 1.
Definition IO_APPEND      : Z := 2.
Definition IO_SYNC        : Z := 4.
Definition IO_NDELAY      : Z := 16.
Definition IO_HEADZEROFILL : Z := 128.
Definition IO_CLOSE       : Z := 1024.
Definition IO_NOCACHE     : Z := 2048.

(* <sys/stat.h> *)
Definition S_IFMT  : Z := 61440.   (* 0170000 *)
Definition S_IFIFO : Z := 4096.    (* 0010000 *)
Definition S_IFCHR : Z := 8192.    (* 0020000 *)
Definition S_IFDIR : Z := 16384.   (* 0040000 *)
Definition S_IFBLK : Z := 24576.   (* 0060000 *)
Definition S_IFREG : Z := 32768.   (* 0100000 *)
Definition S_IFLNK : Z := 40960.   (* 0120000 *)
Definition S_IFSOCK : Z := 49152.  (* 0140000 *)
Definition S_IRWXU : Z := 448.     (* 0000700 *)

(* <sys/ioccom.h> *)
Definition IOCPARM_MASK : Z := 8191.          (* 0x1fff *)
Definition IOC_OUT      : Z := 1073741824.    (* 0x40000000 *)
Definition IOC_IN       : Z := 2147483648.    (* 0x80000000 *)
Definition IOCPARM_LEN (x : Z) : Z := Z.land (Z.shiftr x 16) IOCPARM_MASK.

(* <sys/namei.h> *)
Inductive nameiop := LOOKUP | CREATE | DELETE | RENAME.
Definition ISDOTDOT   : Z := 8192.     (* 0x00002000 *)
Definition MAKEENTRY  : Z := 16384.    (* 0x00004000 *)
Definition ISLASTCN   : Z := 32768.    (* 0x00008000 *)
Definition LOCKPARENT : Z := 8.
Definition WANTPARENT : Z := 16.

(* common/fuse_param.h *)
Definition FUSE_MAXNAMLEN : Z := 255.
Definition FUSE_MIN_USERKERNEL_BUFSIZE : Z := 128 * 1024.
Definition FUSE_REASONABLE_XATTRSIZE : Z := FUSE_MIN_USERKERNEL_BUFSIZE.
Definition FUSE_UIO_BACKUP_MAX : Z := 8.

(** A C condition: an integer is true when it is not zero. *)
Definition nz (x : Z) : bool := negb (x =? 0).

(** Truncation to a 32-bit unsigned field ([(uint32_t)x]) and to an [int]
    ([(int)x]). *)
Definition u32 (x : Z) : Z := x mod 2 ^ 32.
Definition i32 (x : Z) : Z := (x + 2 ^ 31) mod 2 ^ 32 - 2 ^ 31.

(** The same for the 64-bit types: [(size_t)x], and [(off_t)x] or
    [(daddr64_t)x]. *)
Definition u64 (x : Z) : Z := x mod 2 ^ 64.
Definition i64 (x : Z) : Z := (x + 2 ^ 63) mod 2 ^ 64 - 2 ^ 63.

(** ** fuse_file.h *)

Inductive fufh_type := FUFH_RDONLY | FUFH_WRONLY | FUFH_RDWR.

Definition FUFH_MAXTYPE : list fufh_type := [FUFH_RDONLY; FUFH_WRONLY; FUFH_RDWR].

Definition fufh_type_eqb (a b : fufh_type) : bool :=
  match a, b with
  | FUFH_RDONLY, FUFH_RDONLY | FUFH_WRONLY, FUFH_WRONLY | FUFH_RDWR, FUFH_RDWR => true
  | _, _ => false
  end.

Record fuse_filehandle := {
  fh_id : Z;
  open_count : Z;
  open_flags : Z;
  fuse_open_flags : Z
}.

Definition FUFH_IS_VALID (f : fuse_filehandle) : bool := 0 <? open_count f.

(** [open_count] is an [int32_t]: the count goes round at 2^31. *)
Definition FUFH_USE_INC (f : fuse_filehandle) : fuse_filehandle :=
  {| fh_id := fh_id f; open_count := i32 (open_count f + 1);
     open_flags := open_flags f; fuse_open_flags := fuse_open_flags f |}.

Definition FUFH_USE_DEC (f : fuse_filehandle) : fuse_filehandle :=
  {| fh_id := fh_id f; open_count := i32 (open_count f - 1);
     open_flags := open_flags f; fuse_open_flags := fuse_open_flags f |}.

Definition FUFH_USE_RESET (f : fuse_filehandle) : fuse_filehandle :=
  {| fh_id := fh_id f; open_count := 0;
     open_flags := open_flags f; fuse_open_flags := fuse_open_flags f |}.

(** [None] is the [panic] at the end of the translation functions. *)
Definition fuse_filehandle_xlate_from_mmap (fflags : Z) : option fufh_type :=
  if nz (Z.land fflags PROT_WRITE) then
    if nz (Z.land fflags (Z.lor PROT_READ PROT_EXEC)) then Some FUFH_RDWR
    else Some FUFH_WRONLY
  else if nz (Z.land fflags (Z.lor PROT_READ PROT_EXEC)) then Some FUFH_RDONLY
  else None.

Definition fuse_filehandle_xlate_from_fflags (fflags : Z) : option fufh_type :=
  if nz (Z.land fflags FREAD) && nz (Z.land fflags FWRITE) then Some FUFH_RDWR
  else if nz (Z.land fflags FWRITE) then Some FUFH_WRONLY
  else if nz (Z.land fflags FREAD) then Some FUFH_RDONLY
  else if fflags =? 0 then Some FUFH_RDONLY
  else None.

Definition fuse_filehandle_xlate_to_oflags (t : fufh_type) : Z :=
  match t with
  | FUFH_RDONLY => O_RDONLY
  | FUFH_WRONLY => O_WRONLY
  | FUFH_RDWR => O_RDWR
  end.

(** ** Host kernel objects *)

Inductive vtype :=
  VNON | VREG | VDIR | VBLK | VCHR | VLNK | VSOCK | VFIFO | VBAD | VSTR | VCPLX.

Definition vtype_eqb (a b : vtype) : bool :=
  match a, b with
  | VNON, VNON | VREG, VREG | VDIR, VDIR | VBLK, VBLK | VCHR, VCHR
  | VLNK, VLNK | VSOCK, VSOCK | VFIFO, VFIFO | VBAD, VBAD | VSTR, VSTR
  | VCPLX, VCPLX => true
  | _, _ => false
  end.

(** [IFTOVT] and [VTTOIF] of <sys/vnode.h>. *)
Definition IFTOVT (mode : Z) : vtype :=
  let t := Z.land mode S_IFMT in
  if t =? S_IFIFO then VFIFO else if t =? S_IFCHR then VCHR
  else if t =? S_IFDIR then VDIR else if t =? S_IFBLK then VBLK
  else if t =? S_IFREG then VREG else if t =? S_IFLNK then VLNK
  else if t =? S_IFSOCK then VSOCK else VNON.

Definition VTTOIF (t : vtype) : Z :=
  match t with
  | VREG => S_IFREG | VDIR => S_IFDIR | VBLK => S_IFBLK | VCHR => S_IFCHR
  | VLNK => S_IFLNK | VSOCK => S_IFSOCK | VFIFO => S_IFIFO
  | _ => 0
  end.

Definition MAKEIMODE (t : vtype) (mode : Z) : Z := Z.lor (VTTOIF t) mode.

Record mount := {
  mnt_ptr : N;
  mnt_rdonly : bool;        (* vfs_isrdonly *)
  mnt_force : bool;         (* vfs_isforce *)
  mnt_synchronous : bool;   (* vfs_issynchronous *)
  mnt_authopaque : bool     (* vfs_authopaque *)
}.

(** A [vnode_t].  [v_fsnode] is what [VTOFUD] returns: the address of the
    node data, a key of the node store of the [world]. *)
Record vnode := {
  v_ptr : N;
  v_fsnode : N;
  v_type : vtype;
  v_isvroot : bool;
  v_mount : mount;
  v_hasdirtyblks : bool;
  v_isinuse : bool
}.

Definition vnode_eqb (a b : vnode) : bool := (v_ptr a =? v_ptr b)%N.
Definition mount_eqb (a b : mount) : bool := (mnt_ptr a =? mnt_ptr b)%N.

Definition vnode_isreg (vp : vnode) := vtype_eqb (v_type vp) VREG.
Definition vnode_isdir (vp : vnode) := vtype_eqb (v_type vp) VDIR.
Definition vnode_islnk (vp : vnode) := vtype_eqb (v_type vp) VLNK.
Definition vnode_ischr (vp : vnode) := vtype_eqb (v_type vp) VCHR.
Definition vnode_isfifo (vp : vnode) := vtype_eqb (v_type vp) VFIFO.

Record ucred := { cr_uid : Z; cr_gid : Z }.

Record vfs_context := {
  ctx_issuser : bool;     (* fuse_vfs_context_issuser *)
  ctx_ucred : ucred       (* vfs_context_ucred *)
}.

Record componentname := {
  cn_nameiop : nameiop;
  cn_flags : Z;
  cn_nameptr : string;
  cn_namelen : Z
}.

Definition nameiop_eqb (a b : nameiop) : bool :=
  match a, b with
  | LOOKUP, LOOKUP | CREATE, CREATE | DELETE, DELETE | RENAME, RENAME => true
  | _, _ => false
  end.

(** The fields of [struct vnode_attr] the operations touch, with the bitmap
    of supported attributes that [VATTR_RETURN] maintains. *)
Inductive va_field := F_va_type | F_va_uid | F_va_gid | F_va_mode.

Definition va_bit (f : va_field) : Z :=
  match f with
  | F_va_uid => 2 ^ 7 | F_va_gid => 2 ^ 8 | F_va_mode => 2 ^ 9
  | F_va_type => 2 ^ 24
  end.

Record vnode_attr := {
  va_supported : Z;
  va_type : vtype;
  va_mode : Z;
  va_uid : Z;
  va_gid : Z;
  va_nlink : Z;
  va_rdev : Z;
  va_data_size : Z
}.

(** [bzero(vap, sizeof( *vap))]. *)
Definition vattr_zero : vnode_attr :=
  {| va_supported := 0; va_type := VNON; va_mode := 0; va_uid := 0;
     va_gid := 0; va_nlink := 0; va_rdev := 0; va_data_size := 0 |}.

Definition VATTR_RETURN_type (v : vnode_attr) (t : vtype) : vnode_attr :=
  {| va_supported := Z.lor (va_supported v) (va_bit F_va_type); va_type := t;
     va_mode := va_mode v; va_uid := va_uid v; va_gid := va_gid v;
     va_nlink := va_nlink v; va_rdev := va_rdev v;
     va_data_size := va_data_size v |}.

Definition VATTR_RETURN_uid (v : vnode_attr) (x : Z) : vnode_attr :=
  {| va_supported := Z.lor (va_supported v) (va_bit F_va_uid);
     va_type := va_type v; va_mode := va_mode v; va_uid := x;
     va_gid := va_gid v; va_nlink := va_nlink v; va_rdev := va_rdev v;
     va_data_size := va_data_size v |}.

Definition VATTR_RETURN_gid (v : vnode_attr) (x : Z) : vnode_attr :=
  {| va_supported := Z.lor (va_supported v) (va_bit F_va_gid);
     va_type := va_type v; va_mode := va_mode v; va_uid := va_uid v;
     va_gid := x; va_nlink := va_nlink v; va_rdev := va_rdev v;
     va_data_size := va_data_size v |}.

Definition VATTR_RETURN_mode (v : vnode_attr) (x : Z) : vnode_attr :=
  {| va_supported := Z.lor (va_supported v) (va_bit F_va_mode);
     va_type := va_type v; va_mode := x; va_uid := va_uid v;
     va_gid := va_gid v; va_nlink := va_nlink v; va_rdev := va_rdev v;
     va_data_size := va_data_size v |}.

Record uio := {
  uio_resid : Z;
  uio_offset : Z;
  uio_iovcnt : Z
}.

(** ** The wire protocol *)

Inductive fuse_opcode :=
  FUSE_LOOKUP | FUSE_FORGET | FUSE_GETATTR | FUSE_SETATTR | FUSE_READLINK
| FUSE_SYMLINK | FUSE_MKNOD | FUSE_MKDIR | FUSE_UNLINK | FUSE_RMDIR
| FUSE_RENAME | FUSE_LINK | FUSE_OPEN | FUSE_READ | FUSE_WRITE | FUSE_RELEASE
| FUSE_FSYNC | FUSE_SETXATTR | FUSE_GETXATTR | FUSE_LISTXATTR
| FUSE_REMOVEXATTR | FUSE_FLUSH | FUSE_OPENDIR | FUSE_READDIR
| FUSE_RELEASEDIR | FUSE_FSYNCDIR | FUSE_CREATE | FUSE_IOCTL | FUSE_EXCHANGE.

(** The opcode numbers of the protocol header ([enum fuse_opcode]). *)
Definition opcode_number (op : fuse_opcode) : Z :=
  match op with
  | FUSE_LOOKUP => 1 | FUSE_FORGET => 2 | FUSE_GETATTR => 3
  | FUSE_SETATTR => 4 | FUSE_READLINK => 5 | FUSE_SYMLINK => 6
  | FUSE_MKNOD => 8 | FUSE_MKDIR => 9 | FUSE_UNLINK => 10 | FUSE_RMDIR => 11
  | FUSE_RENAME => 12 | FUSE_LINK => 13 | FUSE_OPEN => 14 | FUSE_READ => 15
  | FUSE_WRITE => 16 | FUSE_RELEASE => 18 | FUSE_FSYNC => 20
  | FUSE_SETXATTR => 21 | FUSE_GETXATTR => 22 | FUSE_LISTXATTR => 23
  | FUSE_REMOVEXATTR => 24 | FUSE_FLUSH => 25 | FUSE_OPENDIR => 27
  | FUSE_READDIR => 28 | FUSE_RELEASEDIR => 29 | FUSE_FSYNCDIR => 30
  | FUSE_CREATE => 35 | FUSE_IOCTL => 39 | FUSE_EXCHANGE => 63
  end.

Definition fuse_opcode_eqb (a b : fuse_opcode) : bool :=
  opcode_number a =? opcode_number b.

Definition FUSE_ROOT_ID : Z := 1.

(** The typed payload that follows the request header. *)
Inductive fuse_in :=
| in_empty                                          (* bzero'ed or no payload *)
| in_name (name : string)                           (* a NUL-terminated name *)
| in_create (mode flags : Z) (name : string)        (* fuse_create_in, name *)
| in_mknod (mode rdev : Z) (name : string)          (* fuse_mknod_in, name *)
| in_link (oldnodeid : Z) (name : string)           (* fuse_link_in, name *)
| in_symlink (name target : string)
| in_open (flags : Z)                               (* fuse_open_in *)
| in_release (fh flags : Z)                         (* fuse_release_in *)
| in_flush (fh : Z)                                 (* fuse_flush_in *)
| in_forget (nlookup : Z)                           (* fuse_forget_in *)
| in_read (fh offset size : Z)                      (* fuse_read_in *)
| in_write (fh offset size : Z)                     (* fuse_write_in *)
| in_getxattr (size position : Z) (name : string)   (* fuse_getxattr_in, name *)
| in_listxattr (size : Z)
| in_setxattr (size flags position : Z) (name : string)
| in_setattr (valid : Z)                            (* fuse_setattr_in *)
| in_ioctl (fh cmd in_size out_size : Z) (data : list Z).  (* fuse_ioctl_in, data *)

Record request := {
  rq_op : fuse_opcode;
  rq_nodeid : Z;
  rq_in : fuse_in
}.

Record fuse_attr := {
  attr_mode : Z;
  attr_size : Z
}.

Record fuse_entry_out := {
  feo_nodeid : Z;
  feo_attr : fuse_attr
}.

Record fuse_open_out := {
  foo_fh : Z;
  foo_open_flags : Z
}.

(** What [fuse_dispatcher_wait_answer] leaves in the dispatcher: its return
    value, [fdi.answer_errno], [fdi.iosize], and the views of [fdi.answer]
    that the operations cast it to. *)
Record answer := {
  ans_err : errno;
  ans_errno : Z;
  ans_iosize : Z;
  ans_entry : fuse_entry_out;     (* (struct fuse_entry_out * )fdi.answer *)
  ans_open : fuse_open_out;       (* the fuse_open_out after the entry: feo + 1 *)
  ans_attr : fuse_attr;           (* ((struct fuse_attr_out * )fdi.answer)->attr *)
  ans_attr_valid : Z;             (* the validity the reply grants, as a deadline *)
  ans_size : Z;                   (* fuse_write_out.size, fuse_getxattr_out.size *)
  ans_data : list Z               (* the payload bytes *)
}.

(** ** Session and node state *)

(** [struct fuse_data], the session of a mount.

    Modelled from the spec: the declaration is in fuse_ipc.h, outside the
    sources at hand.  The capability map is a bitmap over the opcode set, a
    set bit meaning that the daemon supports the operation; the data flags
    are one boolean each. *)
Record fuse_data := {
  dead : bool;
  inited : bool;
  capmap : Z;
  no_applexattr : bool;      (* FSESS_NO_APPLEXATTR *)
  auto_xattr : bool;         (* FSESS_AUTO_XATTR *)
  jail_symlinks : bool;      (* FSESS_JAIL_SYMLINKS *)
  no_vncache : bool;         (* FSESS_NO_VNCACHE *)
  no_synconclose : bool;     (* FSESS_NO_SYNCONCLOSE *)
  no_syncwrites : bool;      (* FSESS_NO_SYNCWRITES *)
  no_readahead : bool;       (* FSESS_NO_READAHEAD *)
  blocksize : Z;
  iosize : Z;
  userkernel_bufsize : Z;
  daemoncred : ucred
}.

Definition set_capmap (d : fuse_data) (c : Z) : fuse_data :=
  {| dead := dead d; inited := inited d; capmap := c;
     no_applexattr := no_applexattr d; auto_xattr := auto_xattr d;
     jail_symlinks := jail_symlinks d; no_vncache := no_vncache d;
     no_synconclose := no_synconclose d; no_syncwrites := no_syncwrites d;
     no_readahead := no_readahead d; blocksize := blocksize d;
     iosize := iosize d; userkernel_bufsize := userkernel_bufsize d;
     daemoncred := daemoncred d |}.

Definition set_dead (d : fuse_data) (b : bool) : fuse_data :=
  {| dead := b; inited := inited d; capmap := capmap d;
     no_applexattr := no_applexattr d; auto_xattr := auto_xattr d;
     jail_symlinks := jail_symlinks d; no_vncache := no_vncache d;
     no_synconclose := no_synconclose d; no_syncwrites := no_syncwrites d;
     no_readahead := no_readahead d; blocksize := blocksize d;
     iosize := iosize d; userkernel_bufsize := userkernel_bufsize d;
     daemoncred := daemoncred d |}.

Definition set_no_syncwrites (d : fuse_data) (b : bool) : fuse_data :=
  {| dead := dead d; inited := inited d; capmap := capmap d;
     no_applexattr := no_applexattr d; auto_xattr := auto_xattr d;
     jail_symlinks := jail_symlinks d; no_vncache := no_vncache d;
     no_synconclose := no_synconclose d; no_syncwrites := b;
     no_readahead := no_readahead d; blocksize := blocksize d;
     iosize := iosize d; userkernel_bufsize := userkernel_bufsize d;
     daemoncred := daemoncred d |}.

(** Modelled from the spec: [FSESS_NOIMPLBIT], [fuse_implemented] and
    [fuse_clear_implemented] are macros and inline functions of fuse_ipc.h.
    The bit of an operation is the one at its opcode number; clearing is the
    only update there is. *)
Definition FSESS_NOIMPLBIT (op : fuse_opcode) : Z := opcode_number op.

Definition fuse_implemented (d : fuse_data) (which : Z) : bool :=
  Z.testbit (capmap d) which.

Definition fuse_clear_implemented (d : fuse_data) (which : Z) : fuse_data :=
  set_capmap d (Z.clearbit (capmap d) which).

(** [struct fuse_vnode_data].  The [flag] and [c_flag] words are one boolean
    for each bit the operations use. *)
Record fuse_vnode_data := {
  nodeid : Z;
  parent_nodeid : Z;
  parentvp : vnode;
  nlookup : Z;
  filesize : Z;
  attr_valid : Z;
  cached_attr : vnode_attr;         (* VTOVA *)
  fufh_rdonly : fuse_filehandle;    (* fufh[FUFH_RDONLY] *)
  fufh_wronly : fuse_filehandle;    (* fufh[FUFH_WRONLY] *)
  fufh_rdwr : fuse_filehandle;      (* fufh[FUFH_RDWR] *)
  direct_io : bool;                 (* flag & FN_DIRECT_IO *)
  c_touch_chgtime : bool;           (* c_flag & C_TOUCH_CHGTIME *)
  c_xtimes_valid : bool             (* c_flag & C_XTIMES_VALID *)
}.

Definition fufh (fv : fuse_vnode_data) (t : fufh_type) : fuse_filehandle :=
  match t with
  | FUFH_RDONLY => fufh_rdonly fv
  | FUFH_WRONLY => fufh_wronly fv
  | FUFH_RDWR => fufh_rdwr fv
  end.

Definition set_fufh (fv : fuse_vnode_data) (t : fufh_type) (f : fuse_filehandle)
  : fuse_vnode_data :=
  {| nodeid := nodeid fv; parent_nodeid := parent_nodeid fv;
     parentvp := parentvp fv; nlookup := nlookup fv; filesize := filesize fv;
     attr_valid := attr_valid fv; cached_attr := cached_attr fv;
     fufh_rdonly := if fufh_type_eqb t FUFH_RDONLY then f else fufh_rdonly fv;
     fufh_wronly := if fufh_type_eqb t FUFH_WRONLY then f else fufh_wronly fv;
     fufh_rdwr := if fufh_type_eqb t FUFH_RDWR then f else fufh_rdwr fv;
     direct_io := direct_io fv; c_touch_chgtime := c_touch_chgtime fv;
     c_xtimes_valid := c_xtimes_valid fv |}.

Definition set_attr_valid (fv : fuse_vnode_data) (t : Z) : fuse_vnode_data :=
  {| nodeid := nodeid fv; parent_nodeid := parent_nodeid fv;
     parentvp := parentvp fv; nlookup := nlookup fv; filesize := filesize fv;
     attr_valid := t; cached_attr := cached_attr fv;
     fufh_rdonly := fufh_rdonly fv; fufh_wronly := fufh_wronly fv;
     fufh_rdwr := fufh_rdwr fv; direct_io := direct_io fv;
     c_touch_chgtime := c_touch_chgtime fv;
     c_xtimes_valid := c_xtimes_valid fv |}.

Definition set_cached_attr (fv : fuse_vnode_data) (a : vnode_attr) : fuse_vnode_data :=
  {| nodeid := nodeid fv; parent_nodeid := parent_nodeid fv;
     parentvp := parentvp fv; nlookup := nlookup fv; filesize := filesize fv;
     attr_valid := attr_valid fv; cached_attr := a;
     fufh_rdonly := fufh_rdonly fv; fufh_wronly := fufh_wronly fv;
     fufh_rdwr := fufh_rdwr fv; direct_io := direct_io fv;
     c_touch_chgtime := c_touch_chgtime fv;
     c_xtimes_valid := c_xtimes_valid fv |}.

Definition set_filesize (fv : fuse_vnode_data) (s : Z) : fuse_vnode_data :=
  {| nodeid := nodeid fv; parent_nodeid := parent_nodeid fv;
     parentvp := parentvp fv; nlookup := nlookup fv; filesize := s;
     attr_valid := attr_valid fv; cached_attr := cached_attr fv;
     fufh_rdonly := fufh_rdonly fv; fufh_wronly := fufh_wronly fv;
     fufh_rdwr := fufh_rdwr fv; direct_io := direct_io fv;
     c_touch_chgtime := c_touch_chgtime fv;
     c_xtimes_valid := c_xtimes_valid fv |}.

Definition set_nlookup (fv : fuse_vnode_data) (n : Z) : fuse_vnode_data :=
  {| nodeid := nodeid fv; parent_nodeid := parent_nodeid fv;
     parentvp := parentvp fv; nlookup := n; filesize := filesize fv;
     attr_valid := attr_valid fv; cached_attr := cached_attr fv;
     fufh_rdonly := fufh_rdonly fv; fufh_wronly := fufh_wronly fv;
     fufh_rdwr := fufh_rdwr fv; direct_io := direct_io fv;
     c_touch_chgtime := c_touch_chgtime fv;
     c_xtimes_valid := c_xtimes_valid fv |}.

Definition set_direct_io (fv : fuse_vnode_data) (b : bool) : fuse_vnode_data :=
  {| nodeid := nodeid fv; parent_nodeid := parent_nodeid fv;
     parentvp := parentvp fv; nlookup := nlookup fv; filesize := filesize fv;
     attr_valid := attr_valid fv; cached_attr := cached_attr fv;
     fufh_rdonly := fufh_rdonly fv; fufh_wronly := fufh_wronly fv;
     fufh_rdwr := fufh_rdwr fv; direct_io := b;
     c_touch_chgtime := c_touch_chgtime fv;
     c_xtimes_valid := c_xtimes_valid fv |}.

Definition set_c_flags (fv : fuse_vnode_data) (touch xtimes : bool) : fuse_vnode_data :=
  {| nodeid := nodeid fv; parent_nodeid := parent_nodeid fv;
     parentvp := parentvp fv; nlookup := nlookup fv; filesize := filesize fv;
     attr_valid := attr_valid fv; cached_attr := cached_attr fv;
     fufh_rdonly := fufh_rdonly fv; fufh_wronly := fufh_wronly fv;
     fufh_rdwr := fufh_rdwr fv; direct_io := direct_io fv;
     c_touch_chgtime := touch; c_xtimes_valid := xtimes |}.

(** ** The world of a vnode operation *)

(** The functions of fuse_internal.c and of the cluster layer that the
    operations call and whose bodies are outside the sources at hand.  A call
    is recorded in the trace with its arguments. *)
Inductive helper :=
| fuse_internal_access (vp : vnode) (action : Z)
| fuse_internal_newentry (dvp : vnode) (cnp : componentname)
    (op : fuse_opcode) (payload : list Z) (vtyp : vtype)
| fuse_internal_newentry_core (dvp : vnode) (cnp : componentname)
    (vtyp : vtype) (r : request)
| fuse_internal_remove (dvp vp : vnode) (cnp : componentname) (op : fuse_opcode)
| fuse_internal_rename (fdvp fvp tdvp : vnode) (tvp : option vnode)
| fuse_internal_exchange (fvp tvp : vnode) (fname tname : string) (options : Z)
| fuse_internal_fsync (vp : vnode) (fh : Z)
| fuse_internal_readdir (vp : vnode) (fh : Z)
| fuse_internal_strategy_buf
| cluster_read (vp : vnode) (filesize ioflag : Z)
| cluster_write (vp : vnode) (oldEOF newEOF headOff lflag : Z)
| cluster_pagein (vp : vnode) (filesize flags : Z)
| cluster_pageout (vp : vnode) (filesize flags : Z).

(** What an operation does to the outside, in order. *)
Inductive event :=
| ev_wait_answer (r : request)       (* fuse_dispatcher_wait_answer: sent, reply awaited *)
| ev_insert_message (r : request)    (* fuse_insert_message: sent, no reply awaited *)
| ev_ticket_drop                     (* fuse_ticket_drop *)
| ev_ticket_killed                   (* fdi.ticket->killed = true *)
| ev_vncache_purge (vp : vnode)      (* fuse_vncache_purge *)
| ev_cache_purge (vp : vnode)        (* cache_purge *)
| ev_cache_purge_negatives (dvp : vnode)
| ev_vncache_enter (dvp : vnode) (name : string)
| ev_cluster_push (vp : vnode) (flags : Z)
| ev_ubc_msync (vp : vnode)
| ev_ubc_setsize (vp : vnode) (size : Z)
| ev_setnocache (vp : vnode)
| ev_setnoreadahead (vp : vnode)
| ev_upl_abort_range
| ev_buf_error (e : errno)           (* buf_seterror; buf_biodone *)
| ev_data_kill                       (* fuse_data_kill *)
| ev_vnode_put (vp : vnode)
| ev_uio_reset
| ev_node_destroy (vp : vnode)       (* RB_REMOVE, fuse_vnode_data_destroy, ... *)
| ev_call (h : helper).              (* a helper of fuse_internal.c or the cluster layer *)

(** The memory of the caller that the argument block points into. *)
Record caller_mem := {
  m_uio : uio;                 (* *a_uio *)
  m_vap : vnode_attr;          (* *a_vap *)
  m_vpp : option vnode;        (* *a_vpp, NULLVP as None *)
  m_size : Z;                  (* *a_size *)
  m_data : list Z;             (* the bytes at a_data *)
  m_out : list Z               (* scalar results: *a_offset, *a_lblkno, *a_retval, ... *)
}.

Definition mem_set_uio (m : caller_mem) (u : uio) : caller_mem :=
  {| m_uio := u; m_vap := m_vap m; m_vpp := m_vpp m; m_size := m_size m;
     m_data := m_data m; m_out := m_out m |}.
Definition mem_set_vap (m : caller_mem) (v : vnode_attr) : caller_mem :=
  {| m_uio := m_uio m; m_vap := v; m_vpp := m_vpp m; m_size := m_size m;
     m_data := m_data m; m_out := m_out m |}.
Definition mem_set_vpp (m : caller_mem) (v : option vnode) : caller_mem :=
  {| m_uio := m_uio m; m_vap := m_vap m; m_vpp := v; m_size := m_size m;
     m_data := m_data m; m_out := m_out m |}.
Definition mem_set_size (m : caller_mem) (s : Z) : caller_mem :=
  {| m_uio := m_uio m; m_vap := m_vap m; m_vpp := m_vpp m; m_size := s;
     m_data := m_data m; m_out := m_out m |}.
Definition mem_set_data (m : caller_mem) (d : list Z) : caller_mem :=
  {| m_uio := m_uio m; m_vap := m_vap m; m_vpp := m_vpp m; m_size := m_size m;
     m_data := d; m_out := m_out m |}.
Definition mem_set_out (m : caller_mem) (o : list Z) : caller_mem :=
  {| m_uio := m_uio m; m_vap := m_vap m; m_vpp := m_vpp m; m_size := m_size m;
     m_data := m_data m; m_out := o |}.

Record world := {
  w_data : fuse_data;
  w_nodes : gmap N fuse_vnode_data;
  w_mem : caller_mem;
  w_trace : list event
}.

Definition with_data (w : world) (d : fuse_data) : world :=
  {| w_data := d; w_nodes := w_nodes w; w_mem := w_mem w; w_trace := w_trace w |}.
Definition with_nodes (w : world) (n : gmap N fuse_vnode_data) : world :=
  {| w_data := w_data w; w_nodes := n; w_mem := w_mem w; w_trace := w_trace w |}.
Definition with_mem (w : world) (m : caller_mem) : world :=
  {| w_data := w_data w; w_nodes := w_nodes w; w_mem := m; w_trace := w_trace w |}.
Definition with_trace (w : world) (t : list event) : world :=
  {| w_data := w_data w; w_nodes := w_nodes w; w_mem := w_mem w; w_trace := t |}.

(** ** The monad of operation bodies

    A statement either falls through to the next one, or leaves the
    function with [return e], or brings the kernel down ([panic], or a
    dereference of a NULL node pointer), or never ends (a loop that ran out
    of the fuel given to it). *)
Inductive outcome (A : Type) : Type :=
| Next (a : A)
| Return (e : errno)
| Panic
| Hang.
Arguments Next {A} a.
Arguments Return {A} e.
Arguments Panic {A}.
Arguments Hang {A}.

Definition vnop (A : Type) : Type := world -> outcome A * world.

#[global] Instance vnop_ret : MRet vnop := fun A a w => (Next a, w).

#[global] Instance vnop_bind : MBind vnop := fun A B k m w =>
  match m w with
  | (Next a, w') => k a w'
  | (Return e, w') => (Return e, w')
  | (Panic, w') => (Panic, w')
  | (Hang, w') => (Hang, w')
  end.

Definition return_ {A} (e : errno) : vnop A := fun w => (Return e, w).
Definition panic {A} : vnop A := fun w => (Panic, w).
Definition hang {A} : vnop A := fun w => (Hang, w).
Definition skip : vnop unit := mret tt.

(** [if (c) return e;] *)
Definition return_if (c : bool) (e : errno) : vnop unit :=
  if c then return_ e else skip.

Definition get_world : vnop world := fun w => (Next w, w).
Definition emit (e : event) : vnop unit :=
  fun w => (Next tt, with_trace w (w_trace w ++ [e])).

(** How a whole operation ends. *)
Inductive result :=
| Returned (e : errno)
| Panicked
| Hung.

Definition run (m : vnop errno) (w : world) : result * world :=
  match m w with
  | (Next e, w') => (Returned e, w')
  | (Return e, w') => (Returned e, w')
  | (Panic, w') => (Panicked, w')
  | (Hang, w') => (Hung, w')
  end.

(** ** The host kernel and the daemon, as an oracle *)

(** What such a call hands back: its return value, the capability bits it
    cleared on the way (the spec: bits are only ever cleared), where it left
    the uio, the vnode it stored through its [vpp], and, for the dispatcher
    helper, the reply it left in the dispatcher. *)
Record helper_result := {
  h_err : errno;
  h_cleared : list Z;
  h_uio : uio;
  h_vpp : option vnode;
  h_answer : answer
}.

Record kernel := {
  (* the daemon's reply to a request, by the length of the trace so far *)
  k_daemon : nat -> request -> answer;
  (* the helpers above *)
  k_helper : nat -> helper -> uio -> helper_result;
  (* CHECK_BLANKET_DENIAL: the authorization hook says no *)
  k_blanket_deny : vnode -> vfs_context -> bool;
  (* fuse_skip_apple_double_mp *)
  k_skip_apple_double : mount -> string -> Z -> bool;
  (* fuse_match_cred *)
  k_match_cred : ucred -> ucred -> errno;
  (* nanouptime *)
  k_nanouptime : nat -> Z;
  (* uiomove of n bytes: 0 or the fault *)
  k_uiomove : nat -> Z -> errno;
  (* vnode_authorize *)
  k_vnode_authorize : vnode -> vnode -> Z -> errno;
  (* fuse_vncache_lookup: -1 and the vnode on a hit, 0 on a miss, or an errno *)
  k_vncache_lookup : vnode -> componentname -> Z * option vnode;
  (* FSNodeGetOrCreateFileVNodeByID and fuse_vget_i: the vnode for an entry
     with its fresh node data, or an errno *)
  k_vget : nat -> fuse_entry_out -> vnode -> errno * vnode * fuse_vnode_data;
  (* vnode_get *)
  k_vnode_get : vnode -> errno;
  (* vnode_getname *)
  k_vnode_getname : vnode -> option string;
  (* fuse_internal_attr_vat2fsai: (sizechanged, fsai->valid, newsize) *)
  k_vat2fsai : vnode -> vnode_attr -> Z * Z * Z;
  (* uio_getiov of the last iovec *)
  k_uio_getiov : nat -> errno;
  (* fuse_dispatcher_make_vp_canfail *)
  k_make_vp_canfail : nat -> Z -> errno;
  (* f_mntonname of the mount *)
  k_mntonname : mount -> string;
  (* fuse_internal_checkentry: the errno for an entry of another type *)
  k_checkentry_errno : fuse_entry_out -> vtype -> errno
}.

Section Vnops.

Variable K : kernel.

(** *** Access to the world *)

Definition get_data : vnop fuse_data := fun w => (Next (w_data w), w).
Definition modify_data (f : fuse_data -> fuse_data) : vnop unit :=
  fun w => (Next tt, with_data w (f (w_data w))).
Definition modify_mem (f : caller_mem -> caller_mem) : vnop unit :=
  fun w => (Next tt, with_mem w (f (w_mem w))).

(** [fuse_clear_implemented(data, which)] on the session of the mount. *)
Definition clear_implemented (which : Z) : vnop unit :=
  modify_data (fun d => fuse_clear_implemented d which).

Definition get_uio : vnop uio := fun w => (Next (m_uio (w_mem w)), w).
Definition put_uio (u : uio) : vnop unit := modify_mem (fun m => mem_set_uio m u).
Definition put_vpp (v : option vnode) : vnop unit :=
  modify_mem (fun m => mem_set_vpp m v).
Definition put_size (s : Z) : vnop unit := modify_mem (fun m => mem_set_size m s).
Definition put_out (o : list Z) : vnop unit := modify_mem (fun m => mem_set_out m o).

(** [VTOFUD(vp)], possibly NULL. *)
Definition VTOFUD_ptr (vp : vnode) : vnop (option fuse_vnode_data) :=
  fun w => (Next (w_nodes w !! v_fsnode vp), w).

(** [VTOFUD(vp)->...]: a NULL pointer brings the kernel down. *)
Definition VTOFUD (vp : vnode) : vnop fuse_vnode_data :=
  fun w => match w_nodes w !! v_fsnode vp with
           | Some fv => (Next fv, w)
           | None => (Panic, w)
           end.

Definition update_node (vp : vnode) (f : fuse_vnode_data -> fuse_vnode_data)
  : vnop unit :=
  fun w => match w_nodes w !! v_fsnode vp with
           | Some fv => (Next tt, with_nodes w (<[v_fsnode vp := f fv]> (w_nodes w)))
           | None => (Panic, w)
           end.

(** The end of a node: [RB_REMOVE], [fuse_vnode_data_destroy],
    [vnode_clearfsnode]. *)
Definition delete_node (vp : vnode) : vnop unit :=
  fun w => (Next tt, with_nodes w (delete (v_fsnode vp) (w_nodes w))).

Definition VTOI (vp : vnode) : vnop Z := fv ← VTOFUD vp; mret (nodeid fv).

(** [&(fvdat->fufh[type])] read and written through. *)
Definition get_fufh (vp : vnode) (t : fufh_type) : vnop fuse_filehandle :=
  fv ← VTOFUD vp; mret (fufh fv t).
Definition put_fufh (vp : vnode) (t : fufh_type) (f : fuse_filehandle) : vnop unit :=
  update_node vp (fun fv => set_fufh fv t f).

(** *** The inline helpers of fuse_ipc.h, fuse_node.h and fuse_internal.h

    Modelled from the spec: a session or vnode is dead when the dead flag of
    the session is set; a vnode is direct-I/O when its node says so; the
    data flags are read as they are. *)
Definition fuse_isdeadfs (d : fuse_data) (vp : vnode) : bool := dead d.

Definition fuse_isdirectio (vp : vnode) : vnop bool :=
  fv ← VTOFUD vp; mret (direct_io fv).

(** Modelled from the spec: invalidation brings the validity deadline of the
    cached attributes down to zero, so that no later time is within it. *)
Definition fuse_invalidate_attr (vp : vnode) : vnop unit :=
  update_node vp (fun fv => set_attr_valid fv 0).

Definition attr_to_vap (a : fuse_attr) : vnode_attr :=
  {| va_supported := 0; va_type := IFTOVT (attr_mode a);
     va_mode := Z.land (attr_mode a) (Z.lnot S_IFMT); va_uid := 0; va_gid := 0;
     va_nlink := 0; va_rdev := 0; va_data_size := attr_size a |}.

(** Modelled from the spec: [cache_attrs] stores the attributes of a reply
    in the node and sets the validity deadline the reply grants. *)
Definition cache_attrs (vp : vnode) (a : fuse_attr) (valid : Z) : vnop unit :=
  update_node vp (fun fv => set_attr_valid (set_cached_attr fv (attr_to_vap a)) valid).

(** The attribute buffer of a call: the caller's, or the node's own
    ([vap == VTOVA(vp)]). *)
Definition get_vap (own : bool) (vp : vnode) : vnop vnode_attr :=
  if own then fv ← VTOFUD vp; mret (cached_attr fv)
  else fun w => (Next (m_vap (w_mem w)), w).

Definition put_vap (own : bool) (vp : vnode) (v : vnode_attr) : vnop unit :=
  if own then update_node vp (fun fv => set_cached_attr fv v)
  else fun w => (Next tt, with_mem w (mem_set_vap (w_mem w) v)).

(** Modelled from the spec: [fuse_internal_attr_loadvap] copies the cached
    attributes into the attribute buffer. *)
Definition fuse_internal_attr_loadvap (own : bool) (vp : vnode) : vnop unit :=
  fv ← VTOFUD vp; put_vap own vp (cached_attr fv).

Definition CHECK_BLANKET_DENIAL (vp : vnode) (context : vfs_context) (e : errno)
  : vnop unit :=
  return_if (k_blanket_deny K vp context) e.

(** *** The dispatcher *)

Definition fuse_dispatcher_wait_answer (r : request) : vnop answer :=
  fun w => (Next (k_daemon K (List.length (w_trace w)) r),
            with_trace w (w_trace w ++ [ev_wait_answer r])).

Definition fuse_insert_message (r : request) : vnop unit :=
  emit (ev_insert_message r).

Definition fuse_ticket_drop : vnop unit := emit ev_ticket_drop.

Definition call (h : helper) : vnop helper_result :=
  fun w =>
    let r := k_helper K (List.length (w_trace w)) h (m_uio (w_mem w)) in
    (Next r,
     with_data (with_trace w (w_trace w ++ [ev_call h]))
       (fold_left fuse_clear_implemented (h_cleared r) (w_data w))).

(** [uiomove(buf, n, uio)]: on success the uio moves on by the bytes
    copied, at most what it has room for. *)
Definition uiomove (n : Z) : vnop errno :=
  fun w =>
    let e := k_uiomove K (List.length (w_trace w)) n in
    if nz e then (Next e, w)
    else
      let u := m_uio (w_mem w) in
      let c := Z.max 0 (Z.min n (uio_resid u)) in
      (Next 0, with_mem w (mem_set_uio (w_mem w)
                  {| uio_resid := uio_resid u - c; uio_offset := uio_offset u + c;
                     uio_iovcnt := uio_iovcnt u |})).

(** Modelled from the spec: [fuse_internal_forget_send] hands a [FORGET]
    with the count to the daemon and waits for no reply. *)
Definition fuse_internal_forget_send (nid : Z) (n : Z) : vnop unit :=
  fuse_insert_message {| rq_op := FUSE_FORGET; rq_nodeid := nid; rq_in := in_forget n |}.

(** Modelled from the spec: [fuse_internal_checkentry] validates that the
    returned entry has the expected file type.  The spec names no error for
    an entry of another type: it is the kernel's to give. *)
Definition fuse_internal_checkentry (feo : fuse_entry_out) (vtyp : vtype) : errno :=
  if vtype_eqb (IFTOVT (attr_mode (feo_attr feo))) vtyp then 0
  else k_checkentry_errno K feo vtyp.

(** *** The file-handle table (fuse_file.c)

    Modelled from the spec: [fuse_filehandle_get] and [fuse_filehandle_put]
    are declared in fuse_file.h and defined outside the sources at hand.
    get: if the slot is valid, increment [open_count] and return; else send
    [OPEN] ([OPENDIR] for directories), install the handle and its flags and
    set [open_count] to 1; on error the slot remains invalid.
    put: send [RELEASE] ([RELEASEDIR]) for the handle of the slot and
    invalidate the slot. *)
Definition fuse_filehandle_get (vp : vnode) (t : fufh_type) (mode : Z) : vnop errno :=
  fv ← VTOFUD vp;
  let f := fufh fv t in
  if FUFH_IS_VALID f then put_fufh vp t (FUFH_USE_INC f);; mret 0
  else
    let oflags := fuse_filehandle_xlate_to_oflags t in
    a ← fuse_dispatcher_wait_answer
          {| rq_op := if vnode_isdir vp then FUSE_OPENDIR else FUSE_OPEN;
             rq_nodeid := nodeid fv; rq_in := in_open oflags |};
    if nz (ans_err a) then mret (ans_err a)
    else
      put_fufh vp t {| fh_id := foo_fh (ans_open a); open_count := 1;
                       open_flags := oflags;
                       fuse_open_flags := foo_open_flags (ans_open a) |};;
      fuse_ticket_drop;;
      mret 0.

Definition fuse_filehandle_put (vp : vnode) (t : fufh_type) : vnop errno :=
  fv ← VTOFUD vp;
  let f := fufh fv t in
  a ← fuse_dispatcher_wait_answer
        {| rq_op := if vnode_isdir vp then FUSE_RELEASEDIR else FUSE_RELEASE;
           rq_nodeid := nodeid fv;
           rq_in := in_release (fh_id f) (open_flags f) |};
  (if nz (ans_err a) then skip else fuse_ticket_drop);;
  put_fufh vp t (FUFH_USE_RESET f);;
  mret (ans_err a).

(** [fuse_filehandle_preflight_status] of fuse_file.h. *)
Definition KAUTH_VNODE_READ_DATA : Z := 2.
Definition KAUTH_VNODE_WRITE_DATA : Z := 4.

Definition fuse_filehandle_preflight_status (vp dvp : vnode) (t : fufh_type) : errno :=
  if mnt_authopaque (v_mount vp) || negb (mnt_synchronous (v_mount vp))
     || negb (vnode_isreg vp)
  then 0
  else
    let action := match t with
                  | FUFH_RDONLY => KAUTH_VNODE_READ_DATA
                  | FUFH_WRONLY => KAUTH_VNODE_WRITE_DATA
                  | FUFH_RDWR => Z.lor KAUTH_VNODE_READ_DATA KAUTH_VNODE_WRITE_DATA
                  end in
    k_vnode_authorize K vp dvp action.

(** The name bytes a request carries: [memcpy(..., cn_nameptr, cn_namelen)]. *)
Definition cn_name (cnp : componentname) : string :=
  String.substring 0 (Z.to_nat (cn_namelen cnp)) (cn_nameptr cnp).

Definition FSNodeGetOrCreateFileVNodeByID (feo : fuse_entry_out) (dvp : vnode)
  : vnop errno :=
  fun w =>
    let '(e, vp, fv) := k_vget K (List.length (w_trace w)) feo dvp in
    if nz e then (Next e, w)
    else
      let nodes := match w_nodes w !! v_fsnode vp with
                   | Some _ => w_nodes w
                   | None => <[v_fsnode vp := fv]> (w_nodes w)
                   end in
      (Next 0, with_mem (with_nodes w nodes) (mem_set_vpp (w_mem w) (Some vp))).

(** ** The vnode operations *)

Definition fuse_vnop_access (vp : vnode) (action : Z) (context : vfs_context)
  : vnop errno :=
  data ← get_data;
  if fuse_isdeadfs data vp then
    if v_isvroot vp then return_ 0 else return_ ENXIO
  else if negb (inited data) then
    if v_isvroot vp
       && (ctx_issuser context
           || (k_match_cred K (daemoncred data) (ctx_ucred context) =? 0))
    then return_ 0
    else return_ EBADF
  else if vnode_islnk vp then return_ 0
  else r ← call (fuse_internal_access vp action); return_ (h_err r).

Definition fuse_vnop_blktooff (vp : vnode) (lblkno : Z) : vnop errno :=
  data ← get_data;
  return_if (fuse_isdeadfs data vp) ENXIO;;
  (* the product is an [off_t] *)
  put_out [i64 (lblkno * blocksize data)];;
  return_ 0.

Definition fuse_vnop_blockmap (vp : vnode) (foffset size : Z)
    (bpn run poff : bool) : vnop errno :=
  data ← get_data;
  return_if (fuse_isdeadfs data vp) ENXIO;;
  return_if (vnode_isdir vp) ENOTSUP;;
  return_if (negb bpn) 0;;
  fvdat ← VTOFUD vp;
  let b := foffset ÷ blocksize data in
  let contiguousPhysicalBytes := i64 (filesize fvdat - i64 (b * blocksize data)) in
  (* contiguousPhysicalBytes cannot really be negative (could assert) *)
  let contiguousPhysicalBytes :=
    if i64 size <? contiguousPhysicalBytes then i64 size       (* (off_t)size *)
    else contiguousPhysicalBytes in
  put_out ([b] ++ (if run then [u64 contiguousPhysicalBytes] else [])
               ++ (if poff then [0] else []));;
  return_ 0.

Definition fuse_vnop_close (vp : vnode) (fflag : Z) (context : vfs_context)
  : vnop errno :=
  let isdir := vnode_isdir vp in
  data ← get_data;
  return_if (fuse_isdeadfs data vp) 0;;
  (* vclean() calls VNOP_CLOSE with fflag set to IO_NDELAY. *)
  return_if (fflag =? IO_NDELAY) 0;;
  fufh_type ← (if isdir then mret FUFH_RDONLY
               else match fuse_filehandle_xlate_from_fflags fflag with
                    | Some t => mret t
                    | None => panic
                    end);
  f ← get_fufh vp fufh_type;
  return_if (negb (FUFH_IS_VALID f)) 0;;
  err ← (if isdir then mret 0
         else
           (if v_hasdirtyblks vp && negb (no_synconclose data)
            then emit (ev_cluster_push vp (Z.lor IO_SYNC IO_CLOSE)) else skip);;
           data ← get_data;
           if fuse_implemented data (FSESS_NOIMPLBIT FUSE_FLUSH) then
             nid ← VTOI vp;
             a ← fuse_dispatcher_wait_answer
                   {| rq_op := FUSE_FLUSH; rq_nodeid := nid;
                      rq_in := in_flush (fh_id f) |};
             if negb (nz (ans_err a)) then fuse_ticket_drop;; mret 0
             else if ans_err a =? ENOSYS then
               clear_implemented (FSESS_NOIMPLBIT FUSE_FLUSH);;
               mret 0
             else mret (ans_err a)
           else mret 0);
  (* skipdir: this must be done after we have flushed any pending I/O *)
  f ← get_fufh vp fufh_type;
  put_fufh vp fufh_type (FUFH_USE_DEC f);;
  f ← get_fufh vp fufh_type;
  (if negb (FUFH_IS_VALID f) then _ ← fuse_filehandle_put vp fufh_type; skip
   else skip);;
  return_ err.

(** [OFLAGS] of <sys/fcntl.h>. *)
Definition OFLAGS (fflags : Z) : Z := fflags - 1.

Definition fuse_vnop_create (dvp : vnode) (cnp : componentname)
    (vap : vnode_attr) (context : vfs_context) : vnop errno :=
  let mp := v_mount dvp in
  fvd ← VTOFUD dvp;
  let parent_nodeid := nodeid fvd in
  let mode := MAKEIMODE (va_type vap) (va_mode vap) in
  data ← get_data;
  return_if (fuse_isdeadfs data dvp) ENXIO;;
  CHECK_BLANKET_DENIAL dvp context EPERM;;
  return_if (k_skip_apple_double K mp (cn_nameptr cnp) (cn_namelen cnp)) EPERM;;
  (* [Some a]: the reply to CREATE, on the way to bringup;
     [None]: gone the good old way *)
  created ←
    (if negb (fuse_implemented data (FSESS_NOIMPLBIT FUSE_CREATE))
        || negb (vtype_eqb (va_type vap) VREG)
     then mret None
     else
       a ← fuse_dispatcher_wait_answer
             {| rq_op := FUSE_CREATE; rq_nodeid := parent_nodeid;
                rq_in := in_create mode (Z.lor O_CREAT O_RDWR) (cn_name cnp) |};
       if ans_err a =? ENOSYS then
         clear_implemented (FSESS_NOIMPLBIT FUSE_CREATE);;
         mret None
       else if nz (ans_err a) then return_ (ans_err a)     (* undo *)
       else mret (Some a));
  a ← match created with
      | Some a => mret a
      | None =>
          (* good_old *)
          a ← fuse_dispatcher_wait_answer
                {| rq_op := FUSE_MKNOD; rq_nodeid := parent_nodeid;
                   rq_in := in_mknod mode 0 (cn_name cnp) |};
          if nz (ans_err a) then return_ (ans_err a)       (* undo *)
          else mret a
      end;
  let gone_good_old := match created with Some _ => false | None => true end in
  (* bringup *)
  let feo := ans_entry a in
  (if nz (fuse_internal_checkentry feo VREG)   (* VBLK/VCHR not allowed *)
   then fuse_ticket_drop;; return_ (fuse_internal_checkentry feo VREG)
   else skip);;
  err ← FSNodeGetOrCreateFileVNodeByID feo dvp;
  (if nz err then
     (if gone_good_old then fuse_internal_forget_send (feo_nodeid feo) 1
      else
        fuse_insert_message
          {| rq_op := FUSE_RELEASE; rq_nodeid := feo_nodeid feo;
             rq_in := in_release (foo_fh (ans_open a)) (OFLAGS mode) |});;
     return_ err
   else skip);;
  (if negb gone_good_old then
     w ← get_world;
     match m_vpp (w_mem w) with
     | Some vp =>
         f ← get_fufh vp FUFH_RDWR;
         (* stashed to be picked up by open, with a use count of 1 *)
         put_fufh vp FUFH_RDWR
           {| fh_id := foo_fh (ans_open a); open_count := 1;
              open_flags := foo_open_flags (ans_open a);
              fuse_open_flags := fuse_open_flags f |}
     | None => panic
     end
   else skip);;
  emit (ev_cache_purge_negatives dvp);;
  fuse_ticket_drop;;
  return_ 0.

(** [fuse_vnop_exchange], with [FUSE4X_ENABLE_EXCHANGE]. *)
Definition is_apple_double_name (name : string) : bool :=
  (2 <? Z.of_nat (String.length name))
  && match name with
     | String a (String b _) =>
         (Ascii.eqb a "."%char && Ascii.eqb b "_"%char)%bool
     | _ => false
     end.

(** The body under [#ifdef FUSE4X_ENABLE_EXCHANGE]; a build without it has
    only [return ENOTSUP]. *)
Definition fuse_vnop_exchange (fvp tvp : vnode) (options : Z)
    (context : vfs_context) : vnop errno :=
  data ← get_data;
  return_if (negb (mount_eqb (v_mount fvp) (v_mount tvp))) EXDEV;;
  (* We now know f and t are on the same volume. *)
  return_if (negb (fuse_implemented data (FSESS_NOIMPLBIT FUSE_EXCHANGE))) ENOTSUP;;
  return_if (no_vncache data) ENOTSUP;;
  return_if (vnode_eqb fvp tvp) EINVAL;;
  return_if (negb (vnode_isreg fvp) || negb (vnode_isreg tvp)) EINVAL;;
  return_if (fuse_isdeadfs data fvp) ENXIO;;
  match k_vnode_getname K fvp with
  | None => return_ EIO
  | Some fname =>
      match k_vnode_getname K tvp with
      | None => return_ EIO
      | Some tname =>
          if is_apple_double_name fname then return_ EINVAL
          else if is_apple_double_name tname then return_ EINVAL
          else
            r ← call (fuse_internal_exchange fvp tvp fname tname options);
            if h_err r =? ENOSYS then
              clear_implemented (FSESS_NOIMPLBIT FUSE_EXCHANGE);;
              return_ ENOTSUP
            else return_ (h_err r)
      end
  end.

(** The loop of fsync over the three slots. *)
Fixpoint fsync_slots (vp : vnode) (types : list fufh_type) (err : errno)
  : vnop errno :=
  match types with
  | [] => mret err
  | t :: rest =>
      f ← get_fufh vp t;
      if FUFH_IS_VALID f then
        r ← call (fuse_internal_fsync vp (fh_id f));
        fsync_slots vp rest (if nz (h_err r) then h_err r else err)
      else fsync_slots vp rest err
  end.

Definition fuse_vnop_fsync (vp : vnode) (waitfor : Z) (context : vfs_context)
  : vnop errno :=
  data ← get_data;
  return_if (fuse_isdeadfs data vp) 0;;
  emit (ev_cluster_push vp 0);;
  err ← (if negb (fuse_implemented data
                    (if vnode_isdir vp then FSESS_NOIMPLBIT FUSE_FSYNCDIR
                     else FSESS_NOIMPLBIT FUSE_FSYNC))
         then mret ENOSYS
         else fsync_slots vp FUFH_MAXTYPE 0);
  data ← get_data;
  if (err =? ENOSYS) && negb (no_syncwrites data) then return_ 0
  else return_ err.

(** Modelled from the spec: [fuse_data_kill] marks the session dead. *)
Definition fuse_data_kill : vnop unit :=
  emit ev_data_kill;;
  modify_data (fun d => set_dead d true).

Definition fuse_vnop_getattr (vp : vnode) (own : bool) (context : vfs_context)
  : vnop errno :=
  data ← get_data;
  let fake : vnop errno :=
    put_vap own vp
      (VATTR_RETURN_mode
         (VATTR_RETURN_gid
            (VATTR_RETURN_uid
               (VATTR_RETURN_type vattr_zero (v_type vp))
               (cr_uid (daemoncred data)))
            (cr_gid (daemoncred data)))
         S_IRWXU);;
    return_ 0 in
  if fuse_isdeadfs data vp then
    if v_isvroot vp then fake else return_ ENXIO
  else
    (if negb (v_isvroot vp) || negb (ctx_issuser context)
     then CHECK_BLANKET_DENIAL vp context ENOENT else skip);;
    (* Note that we are not bailing out on a dead file system just yet. *)
    (* look for cached attributes *)
    w ← get_world;
    let uptsp := k_nanouptime K (List.length (w_trace w)) in
    fvdat ← VTOFUD vp;
    if uptsp <=? attr_valid fvdat then
      (if negb own then fuse_internal_attr_loadvap own vp else skip);;
      return_ 0
    else if negb (inited data) then
      if negb (v_isvroot vp) then fuse_data_kill;; return_ ENOTCONN
      else fake
    else
      a ← fuse_dispatcher_wait_answer
            {| rq_op := FUSE_GETATTR; rq_nodeid := nodeid fvdat; rq_in := in_empty |};
      if nz (ans_err a) then
        if (ans_err a =? ENOTCONN) && v_isvroot vp then
          (* see comment at similar place in fuse_statfs() *)
          fake
        else
          (if ans_err a =? ENOENT then emit (ev_vncache_purge vp) else skip);;
          return_ (ans_err a)
      else if Z.land (attr_mode (ans_attr a)) S_IFMT =? 0 then return_ EIO
      else
        cache_attrs vp (ans_attr a) (ans_attr_valid a);;
        update_node vp (fun fv => set_c_flags fv (c_touch_chgtime fv) false);;
        fuse_internal_attr_loadvap own vp;;
        (* ATTR_FUDGE_CASE *)
        dio ← fuse_isdirectio vp;
        (if vnode_isreg vp && dio
         then update_node vp (fun fv => set_filesize fv (attr_size (ans_attr a)))
         else skip);;
        fuse_ticket_drop;;
        vap ← get_vap own vp;
        if negb (vtype_eqb (v_type vp) (va_type vap)) then
          if vtype_eqb (v_type vp) VNON && negb (vtype_eqb (va_type vap) VNON)
          then return_ 0
          else
            (* STALE vnode, ditch *)
            emit (ev_vncache_purge vp);;
            return_ EIO
        else return_ 0.

Definition COM_APPLE_ : string := "com.apple.".

Definition fuse_skip_apple_xattr_mp (d : fuse_data) (name : option string) : bool :=
  match name with
  | Some n => no_applexattr d && String.prefix COM_APPLE_ n
  | None => false
  end.

(** The tail the xattr readers share: hand the reply to the caller. *)
Definition xattr_copyout (has_uio : bool) (a : answer) : vnop errno :=
  err ← (if has_uio then
           put_size (ans_iosize a);;
           u ← get_uio;
           if uio_resid u <? ans_iosize a then mret ERANGE
           else uiomove (ans_iosize a)
         else put_size (ans_size a);; mret 0);
  fuse_ticket_drop;;
  return_ err.

Definition fuse_vnop_getxattr (vp : vnode) (name : option string)
    (has_uio : bool) (context : vfs_context) : vnop errno :=
  data ← get_data;
  return_if (fuse_isdeadfs data vp) ENXIO;;
  CHECK_BLANKET_DENIAL vp context ENOENT;;
  match name with
  | None => return_ EINVAL
  | Some n =>
      return_if (String.eqb n "") EINVAL;;
      return_if (fuse_skip_apple_xattr_mp data name) EPERM;;
      return_if (auto_xattr data) ENOTSUP;;
      return_if (negb (fuse_implemented data (FSESS_NOIMPLBIT FUSE_GETXATTR))) ENOTSUP;;
      nid ← VTOI vp;
      u ← get_uio;
      let size := if has_uio then u32 (uio_resid u) else 0 in
      let position := if has_uio then u32 (uio_offset u) else 0 in
      (if FUSE_REASONABLE_XATTRSIZE <? size then emit ev_ticket_killed else skip);;
      a ← fuse_dispatcher_wait_answer
            {| rq_op := FUSE_GETXATTR; rq_nodeid := nid;
               rq_in := in_getxattr size position n |};
      if nz (ans_err a) then
        if ans_err a =? ENOSYS then
          clear_implemented (FSESS_NOIMPLBIT FUSE_GETXATTR);;
          return_ ENOTSUP
        else return_ (ans_err a)
      else xattr_copyout has_uio a
  end.

(** The loop of inactive over the three slots. *)
Fixpoint inactive_slots (vp : vnode) (types : list fufh_type) : vnop unit :=
  match types with
  | [] => skip
  | t :: rest =>
      f ← get_fufh vp t;
      (if FUFH_IS_VALID f then
         put_fufh vp t (FUFH_USE_RESET f);;
         _ ← fuse_filehandle_put vp t; skip
       else skip);;
      inactive_slots vp rest
  end.

Definition fuse_vnop_inactive (vp : vnode) (context : vfs_context) : vnop errno :=
  (* Cannot do early bail out on a dead file system in this case. *)
  inactive_slots vp FUFH_MAXTYPE;;
  return_ 0.

Definition FUSE_LINK_MAX : Z := 32767.   (* LINK_MAX *)

Definition fuse_vnop_link (vp tdvp : vnode) (cnp : componentname)
    (context : vfs_context) : vnop errno :=
  data ← get_data;
  return_if (fuse_isdeadfs data vp) ENXIO;;
  return_if (negb (mount_eqb (v_mount tdvp) (v_mount vp))) EXDEV;;
  fvdat ← VTOFUD vp;
  return_if (FUSE_LINK_MAX <=? va_nlink (cached_attr fvdat)) EMLINK;;
  CHECK_BLANKET_DENIAL vp context EPERM;;
  tnid ← VTOI tdvp;
  a ← fuse_dispatcher_wait_answer
        {| rq_op := FUSE_LINK; rq_nodeid := tnid;
           rq_in := in_link (nodeid fvdat) (cn_name cnp) |};
  return_if (nz (ans_err a)) (ans_err a);;
  let err := fuse_internal_checkentry (ans_entry a) (v_type vp) in
  fuse_ticket_drop;;
  fuse_invalidate_attr tdvp;;
  fuse_invalidate_attr vp;;
  (if err =? 0 then update_node vp (fun fv => set_nlookup fv (nlookup fv + 1))
   else skip);;
  return_ err.

Definition fuse_vnop_listxattr (vp : vnode) (has_uio : bool)
    (context : vfs_context) : vnop errno :=
  data ← get_data;
  return_if (fuse_isdeadfs data vp) ENXIO;;
  CHECK_BLANKET_DENIAL vp context ENOENT;;
  return_if (auto_xattr data) ENOTSUP;;
  return_if (negb (fuse_implemented data (FSESS_NOIMPLBIT FUSE_LISTXATTR))) ENOTSUP;;
  nid ← VTOI vp;
  u ← get_uio;
  a ← fuse_dispatcher_wait_answer
        {| rq_op := FUSE_LISTXATTR; rq_nodeid := nid;
           rq_in := in_listxattr (if has_uio then u32 (uio_resid u) else 0) |};
  if nz (ans_err a) then
    if ans_err a =? ENOSYS then
      clear_implemented (FSESS_NOIMPLBIT FUSE_LISTXATTR);;
      return_ ENOTSUP
    else return_ (ans_err a)
  else xattr_copyout has_uio a.

(** [fuse_vget_i]: the vnode for a looked-up entry, into a local. *)
Definition fuse_vget_i (feo : fuse_entry_out) (dvp : vnode) : vnop (errno * vnode) :=
  fun w =>
    let '(e, vp, fv) := k_vget K (List.length (w_trace w)) feo dvp in
    if nz e then (Next (e, vp), w)
    else
      let nodes := match w_nodes w !! v_fsnode vp with
                   | Some _ => w_nodes w
                   | None => <[v_fsnode vp := fv]> (w_nodes w)
                   end in
      (Next (0, vp), with_nodes w nodes).

(** The [out:] block of lookup. *)
Definition lookup_out (dvp : vnode) (op : fuse_opcode) (nid : Z)
    (islastcn : bool) (lookup_err err : errno) : vnop errno :=
  if negb (nz lookup_err) then
    (* No lookup error; need to clean up. *)
    if nz err then
      (* Found inode; exit with no vnode. *)
      (if fuse_opcode_eqb op FUSE_LOOKUP then fuse_internal_forget_send nid 1
       else skip);;
      return_ err
    else
      err ← (if negb islastcn then
               w ← get_world;
               match m_vpp (w_mem w) with
               | None => panic
               | Some vp =>
                   if negb (vtype_eqb (v_type vp) VDIR)
                      && negb (vtype_eqb (v_type vp) VLNK)
                   then emit (ev_vnode_put vp);; put_vpp None;; mret ENOTDIR
                   else mret err
               end
             else mret err);
      fuse_ticket_drop;;
      return_ err
  else return_ err.

(** The part of lookup after the daemon has answered. *)
Definition lookup_answered (dvp : vnode) (cnp : componentname) (pdp : vnode)
    (op : fuse_opcode) (nid : Z) (a : answer) : vnop errno :=
  let nameiop := cn_nameiop cnp in
  let flags := cn_flags cnp in
  let wantparent := nz (Z.land flags (Z.lor LOCKPARENT WANTPARENT)) in
  let islastcn := nz (Z.land flags ISLASTCN) in
  let isdotdot := nz (Z.land flags ISDOTDOT) in
  let isdot :=
    negb isdotdot
    && match cn_nameptr cnp with
       | String c _ => Ascii.eqb c "."%char
       | EmptyString => false
       end
    && (cn_namelen cnp =? 1) in
  let is_lookup := fuse_opcode_eqb op FUSE_LOOKUP in
  let feo := ans_entry a in
  let found := is_lookup && negb (nz (ans_err a)) in   (* lookup call succeeded *)
  let nid := if found then feo_nodeid feo else nid in
  let answer_errno :=
    if found && negb (nz (feo_nodeid feo)) then ENOENT else ans_errno a in
  let lookup_err :=
    if found then
      if negb (nz (feo_nodeid feo)) then ENOENT
      else if feo_nodeid feo =? FUSE_ROOT_ID then EINVAL
      else ans_err a
    else ans_err a in
  return_if (nz lookup_err
             && (negb (nz answer_errno) || negb (lookup_err =? ENOENT)
                 || negb is_lookup)) lookup_err;;
  (* lookup_err, if non-zero, must be ENOENT at this point *)
  err ←
    (if nz lookup_err then
       if (nameiop_eqb nameiop CREATE || nameiop_eqb nameiop RENAME) && islastcn
       then mret EJUSTRETURN
       else
         (if nz (Z.land flags MAKEENTRY) && negb (nameiop_eqb nameiop CREATE)
          then emit (ev_vncache_enter dvp (cn_name cnp)) else skip);;
         mret ENOENT
     else
       let fattr := if fuse_opcode_eqb op FUSE_GETATTR then ans_attr a
                    else feo_attr feo in
       (* Sanity check(s) *)
       if Z.land (attr_mode fattr) S_IFMT =? 0 then mret EIO
       else if nameiop_eqb nameiop DELETE && islastcn then
         if isdot then
           let e := k_vnode_get K dvp in
           (if e =? 0 then put_vpp (Some dvp) else skip);; mret e
         else
           '(e, vp) ← fuse_vget_i feo dvp;
           (if nz e then skip else put_vpp (Some vp));; mret e
       else if nameiop_eqb nameiop RENAME && islastcn && wantparent then
         if isdot then mret EISDIR
         else
           '(e, vp) ← fuse_vget_i feo dvp;
           (if nz e then skip else put_vpp (Some vp));; mret e
       else
         '(e, vp, goto_out) ←
           (if isdotdot then
              let e := k_vnode_get K pdp in
              (if e =? 0 then put_vpp (Some pdp) else skip);;
              mret (e, None, false)
            else if isdot then     (* nodeid == VTOI(dvp) *)
              let e := k_vnode_get K dvp in
              (if e =? 0 then put_vpp (Some dvp) else skip);;
              mret (e, None, false)
            else
              '(e, vp) ← fuse_vget_i feo dvp;
              if nz e then mret (e, None, true)
              else put_vpp (Some vp);; mret (0, Some vp, false));
         if (goto_out : bool) then mret e
         else
           w ← get_world;
           match m_vpp (w_mem w) with
           | None => panic             (* vnode_isreg of a NULL vnode *)
           | Some vpp =>
               (* ATTR_FUDGE_CASE *)
               dio ← (if vnode_isreg vpp then
                        match vp with
                        | Some vp => fuse_isdirectio vp
                        | None => panic
                        end
                      else mret false);
               (if vnode_isreg vpp && dio
                then update_node vpp (fun fv => set_filesize fv (attr_size fattr))
                else skip);;
               cache_attrs vpp fattr (ans_attr_valid a);;
               mret e
           end);
  lookup_out dvp op nid islastcn lookup_err err.

Definition fuse_vnop_lookup (dvp : vnode) (cnp : componentname)
    (context : vfs_context) : vnop errno :=
  let nameiop := cn_nameiop cnp in
  let flags := cn_flags cnp in
  let wantparent := nz (Z.land flags (Z.lor LOCKPARENT WANTPARENT)) in
  let islastcn := nz (Z.land flags ISLASTCN) in
  let mp := v_mount dvp in
  put_vpp None;;
  data ← get_data;
  return_if (fuse_isdeadfs data dvp) ENXIO;;
  return_if (k_skip_apple_double K mp (cn_nameptr cnp) (cn_namelen cnp)) ENOENT;;
  return_if (negb (vnode_isdir dvp)) ENOTDIR;;
  return_if (islastcn && mnt_rdonly mp && negb (nameiop_eqb nameiop LOOKUP)) EROFS;;
  return_if (FUSE_MAXNAMLEN <? cn_namelen cnp) ENAMETOOLONG;;
  let isdotdot := nz (Z.land flags ISDOTDOT) in
  let isdot :=
    negb isdotdot
    && match cn_nameptr cnp with
       | String c _ => Ascii.eqb c "."%char
       | EmptyString => false
       end
    && (cn_namelen cnp =? 1) in
  (* the opcode, the node to ask about and, for "..", the parent vnode *)
  '(op, nid, pdp) ←
    (if isdotdot then
       fvd ← VTOFUD dvp;
       n ← VTOI (parentvp fvd);
       mret (FUSE_GETATTR, n, parentvp fvd)
     else if isdot then
       fvd ← VTOFUD dvp; mret (FUSE_GETATTR, nodeid fvd, parentvp fvd)
     else if no_vncache data then
       (* pretend it's a vncache miss *)
       fvd ← VTOFUD dvp; mret (FUSE_LOOKUP, nodeid fvd, parentvp fvd)
     else
       let '(e, hit) := k_vncache_lookup K dvp cnp in
       put_vpp hit;;
       (if e =? -1 then return_ 0            (* positive match *)
        else if e =? 0 then skip              (* no match in cache *)
        else return_ e);;                     (* negative match, errors *)
       fvd ← VTOFUD dvp; mret (FUSE_LOOKUP, nodeid fvd, parentvp fvd));
  (* calldaemon: *)
  a ← fuse_dispatcher_wait_answer
        {| rq_op := op; rq_nodeid := nid;
           rq_in := if fuse_opcode_eqb op FUSE_LOOKUP then in_name (cn_name cnp)
                    else in_empty |};
  lookup_answered dvp cnp pdp op nid a.

Definition fuse_vnop_mkdir (dvp : vnode) (cnp : componentname)
    (vap : vnode_attr) (context : vfs_context) : vnop errno :=
  data ← get_data;
  return_if (fuse_isdeadfs data dvp) ENXIO;;
  CHECK_BLANKET_DENIAL dvp context EPERM;;
  r ← call (fuse_internal_newentry dvp cnp FUSE_MKDIR
              [MAKEIMODE (va_type vap) (va_mode vap)] VDIR);
  put_vpp (h_vpp r);;
  (if h_err r =? 0 then fuse_invalidate_attr dvp else skip);;
  return_ (h_err r).

Definition fuse_vnop_mknod (dvp : vnode) (cnp : componentname)
    (vap : vnode_attr) (context : vfs_context) : vnop errno :=
  data ← get_data;
  return_if (fuse_isdeadfs data dvp) ENXIO;;
  CHECK_BLANKET_DENIAL dvp context EPERM;;
  r ← call (fuse_internal_newentry dvp cnp FUSE_MKNOD
              [MAKEIMODE (va_type vap) (va_mode vap); va_rdev vap] (va_type vap));
  put_vpp (h_vpp r);;
  (if h_err r =? 0 then fuse_invalidate_attr dvp else skip);;
  return_ (h_err r).

(** One pass of mmap from its [retry:] label: [inl] is the [goto out] of a
    reused slot, [inr] the error of the acquisition and the [deleted] flag. *)
Definition mmap_pass (vp : vnode) (t : fufh_type) (deleted : bool)
  : vnop (unit + errno * bool) :=
  fvdat ← VTOFUD vp;
  let f := fufh fvdat t in
  if FUFH_IS_VALID f then put_fufh vp t (FUFH_USE_INC f);; mret (inl tt)
  else
    let '(err, deleted) :=
      if negb deleted then
        let e := fuse_filehandle_preflight_status vp (parentvp fvdat) t in
        if e =? ENOENT then (0, true) else (e, deleted)
      else (0, deleted) in
    err ← (if negb (nz err) then fuse_filehandle_get vp t 0 else mret err);
    mret (inr (err, deleted)).

Definition fuse_vnop_mmap (vp : vnode) (fflags : Z) (context : vfs_context)
  : vnop errno :=
  data ← get_data;
  return_if (fuse_isdeadfs data vp) ENXIO;;
  dio ← fuse_isdirectio vp;
  return_if dio EPERM;;
  CHECK_BLANKET_DENIAL vp context ENOENT;;
  return_if (nz (Z.land fflags (Z.lor (Z.lor PROT_READ PROT_WRITE) PROT_EXEC))) 0;;
                                                          (* nothing to do *)
  match fuse_filehandle_xlate_from_mmap fflags with
  | None => panic
  | Some fufh_type =>
      r ← mmap_pass vp fufh_type false;
      match r with
      | inl _ => return_ 0
      | inr (err, deleted) =>
          if nz err then
            if (err =? EACCES)
               && (fufh_type_eqb fufh_type FUFH_RDWR
                   || fufh_type_eqb fufh_type FUFH_WRONLY)
            then
              (* retried = 1; goto retry *)
              r ← mmap_pass vp FUFH_RDONLY deleted;
              match r with
              | inl _ => return_ 0
              | inr (err, _) => if nz err then return_ EPERM else return_ 0
              end
            else return_ EPERM
          else return_ 0
      end
  end.

Definition fuse_vnop_mnomap (vp : vnode) (context : vfs_context) : vnop errno :=
  data ← get_data;
  return_if (fuse_isdeadfs data vp) 0;;
  dio ← fuse_isdirectio vp;
  return_if dio ENODEV;;
  return_ 0.

Definition fuse_vnop_offtoblk (vp : vnode) (offset : Z) : vnop errno :=
  data ← get_data;
  return_if (fuse_isdeadfs data vp) ENXIO;;
  put_out [offset ÷ blocksize data];;
  return_ 0.

(* fuse_kernel.h *)
Definition FOPEN_DIRECT_IO : Z := 1.
Definition FOPEN_PURGE_ATTR : Z := 2 ^ 30.
Definition FOPEN_PURGE_UBC : Z := 2 ^ 31.

Definition set_fuse_open_flags (f : fuse_filehandle) (x : Z) : fuse_filehandle :=
  {| fh_id := fh_id f; open_count := open_count f; open_flags := open_flags f;
     fuse_open_flags := x |}.

(** The part of [fuse_vnop_open] from its label [ok:] on: what the flags of
    the handle ask for. *)
Definition fuse_vnop_open_ok (vp : vnode) (fufh_type : fufh_type) : vnop errno :=
  f ← get_fufh vp fufh_type;
  dio ← fuse_isdirectio vp;
  if nz (Z.land (fuse_open_flags f) FOPEN_DIRECT_IO) || dio then
    emit (ev_ubc_msync vp);;
    emit (ev_setnocache vp);;
    emit (ev_setnoreadahead vp);;
    modify_data (fun d => set_no_syncwrites d false);;
    update_node vp (fun fv => set_direct_io fv true);;
    return_ 0
  else
    (if nz (Z.land (fuse_open_flags f) FOPEN_PURGE_UBC) then
       emit (ev_ubc_msync vp);;
       put_fufh vp fufh_type
         (set_fuse_open_flags f (Z.land (fuse_open_flags f) (Z.lnot FOPEN_PURGE_UBC)));;
       f ← get_fufh vp fufh_type;
       if nz (Z.land (fuse_open_flags f) FOPEN_PURGE_ATTR) then
         fuse_invalidate_attr vp;;
         nid ← VTOI vp;
         a ← fuse_dispatcher_wait_answer
               {| rq_op := FUSE_GETATTR; rq_nodeid := nid; rq_in := in_empty |};
         (if negb (nz (ans_err a)) then
            (if nz (Z.land (attr_mode (ans_attr a)) S_IFMT) then
               cache_attrs vp (ans_attr a) (ans_attr_valid a);;
               update_node vp (fun fv => set_filesize fv (attr_size (ans_attr a)));;
               emit (ev_ubc_setsize vp (attr_size (ans_attr a)))
             else skip);;
            fuse_ticket_drop
          else skip);;
         f ← get_fufh vp fufh_type;
         put_fufh vp fufh_type
           (set_fuse_open_flags f (Z.land (fuse_open_flags f) (Z.lnot FOPEN_PURGE_ATTR)))
       else skip
     else skip);;
    data ← get_data;
    (if no_readahead data then emit (ev_setnoreadahead vp) else skip);;
    return_ 0.

Definition fuse_vnop_open (vp : vnode) (mode : Z) (context : vfs_context)
  : vnop errno :=
  data ← get_data;
  return_if (fuse_isdeadfs data vp) ENXIO;;
  return_if (vnode_isfifo vp) EPERM;;
  CHECK_BLANKET_DENIAL vp context ENOENT;;
  fufh_type ← (if vnode_isdir vp then mret FUFH_RDONLY
               else match fuse_filehandle_xlate_from_fflags mode with
                    | Some t => mret t
                    | None => panic
                    end);
  f ← get_fufh vp fufh_type;
  (if FUFH_IS_VALID f then put_fufh vp fufh_type (FUFH_USE_INC f)
   else
     error ← fuse_filehandle_get vp fufh_type mode;
     if nz error then
       (if error =? ENOENT then emit (ev_cache_purge vp) else skip);;
       return_ error
     else skip);;
  fuse_vnop_open_ok vp fufh_type.

Definition UPL_NOCOMMIT : Z := 2.

Definition fuse_vnop_pagein (vp : vnode) (flags : Z) : vnop errno :=
  data ← get_data;
  dio ← ((if fuse_isdeadfs data vp then mret true else fuse_isdirectio vp)
         : vnop bool);
  if (dio : bool) then
    (if negb (nz (Z.land flags UPL_NOCOMMIT)) then emit ev_upl_abort_range else skip);;
    (* Will cause PAGER_ERROR (pager unable to read or write page). *)
    return_ ENOTSUP
  else
    fvdat ← VTOFUD_ptr vp;
    match fvdat with
    | None => return_ EIO
    | Some fvdat =>
        r ← call (cluster_pagein vp (filesize fvdat) flags);
        return_ (h_err r)
    end.

Definition fuse_vnop_pageout (vp : vnode) (flags : Z) : vnop errno :=
  data ← get_data;
  dio ← ((if fuse_isdeadfs data vp then mret true else fuse_isdirectio vp)
         : vnop bool);
  if (dio : bool) then
    (if negb (nz (Z.land flags UPL_NOCOMMIT)) then emit ev_upl_abort_range else skip);;
    return_ ENOTSUP
  else
    fvdat ← VTOFUD vp;
    r ← call (cluster_pageout vp (filesize fvdat) flags);
    return_ (h_err r).

(* <sys/unistd.h>, <sys/syslimits.h> *)
Definition MAXPATHLEN : Z := 1024.
Definition PIPE_BUF : Z := 512.

Definition fuse_vnop_pathconf (vp : vnode) (name : Z) (context : vfs_context)
  : vnop errno :=
  data ← get_data;
  return_if (fuse_isdeadfs data vp) ENXIO;;
  CHECK_BLANKET_DENIAL vp context ENOENT;;
  if name =? 1 then put_out [FUSE_LINK_MAX];; return_ 0          (* _PC_LINK_MAX *)
  else if name =? 4 then put_out [FUSE_MAXNAMLEN];; return_ 0    (* _PC_NAME_MAX *)
  else if name =? 5 then put_out [MAXPATHLEN];; return_ 0        (* _PC_PATH_MAX *)
  else if name =? 6 then put_out [PIPE_BUF];; return_ 0          (* _PC_PIPE_BUF *)
  else if name =? 7 then put_out [1];; return_ 0         (* _PC_CHOWN_RESTRICTED *)
  else if name =? 8 then put_out [0];; return_ 0                 (* _PC_NO_TRUNC *)
  else if name =? 10 then put_out [255];; return_ 0        (* _PC_NAME_CHARS_MAX *)
  else if name =? 11 then put_out [1];; return_ 0          (* _PC_CASE_SENSITIVE *)
  else if name =? 12 then put_out [1];; return_ 0         (* _PC_CASE_PRESERVING *)
  else return_ EINVAL.

(** The [while (uio_resid(uio) > 0)] loop of a direct-I/O read.  [min] is
    the minimum of its two arguments.  The value is the [err] the loop is
    left with. *)
Fixpoint read_loop (fuel : nat) (vp : vnode) (fufh_type : fufh_type) : vnop errno :=
  match fuel with
  | O => hang
  | S fuel =>
      u ← get_uio;
      if 0 <? uio_resid u then
        data ← get_data;
        nid ← VTOI vp;
        f ← get_fufh vp fufh_type;
        let size := u32 (Z.min (uio_resid u) (iosize data)) in
        a ← fuse_dispatcher_wait_answer
              {| rq_op := FUSE_READ; rq_nodeid := nid;
                 rq_in := in_read (fh_id f) (uio_offset u) size |};
        return_if (nz (ans_err a)) (ans_err a);;
        err ← uiomove (i32 (Z.min size (ans_iosize a)));
        if nz err || (ans_iosize a <? size) then mret err
        else read_loop fuel vp fufh_type
      else mret 0
  end.

Definition fuse_vnop_read (fuel : nat) (vp : vnode) (ioflag : Z)
    (context : vfs_context) : vnop errno :=
  data ← get_data;
  return_if (fuse_isdeadfs data vp) (if vnode_ischr vp then 0 else ENXIO);;
  return_if (negb (vnode_isreg vp)) (if vnode_isdir vp then EISDIR else EPERM);;
  u ← get_uio;
  let orig_resid := uio_resid u in
  return_if (orig_resid =? 0) 0;;
  let orig_offset := uio_offset u in
  return_if (orig_offset <? 0) EINVAL;;
  fvdat ← VTOFUD_ptr vp;
  match fvdat with
  | None => return_ EINVAL
  | Some fvdat =>
      (* Protect against size change here. *)
      if direct_io fvdat then
        let fufh_type :=
          if FUFH_IS_VALID (fufh fvdat FUFH_RDONLY) then Some FUFH_RDONLY
          else if FUFH_IS_VALID (fufh fvdat FUFH_RDWR) then
                 Some FUFH_RDWR      (* Read falling back to FUFH_RDWR. *)
          else None in
        match fufh_type with
        | None => return_ EIO          (* Failing direct I/O because of no fufh. *)
        | Some fufh_type =>
            err ← read_loop fuel vp fufh_type;
            fuse_ticket_drop;;
            return_ err
        end
      else
        r ← call (cluster_read vp (filesize fvdat) ioflag);
        put_uio (h_uio r);;
        return_ (h_err r)
  end.

Definition VNODE_READDIR_EXTENDED : Z := 1.
Definition VNODE_READDIR_REQSEEKOFF : Z := 2.
Definition sizeof_fuse_dirent : Z := 24.

Definition fuse_vnop_readdir (vp : vnode) (flags : Z) (context : vfs_context)
  : vnop errno :=
  data ← get_data;
  return_if (fuse_isdeadfs data vp) ENXIO;;
  CHECK_BLANKET_DENIAL vp context EPERM;;
  (* No cookies yet. *)
  return_if (nz (Z.land flags (Z.lor VNODE_READDIR_REQSEEKOFF VNODE_READDIR_EXTENDED)))
    EINVAL;;
  u ← get_uio;
  return_if ((1 <? uio_iovcnt u) || (uio_resid u <? sizeof_fuse_dirent)) EINVAL;;
  f ← get_fufh vp FUFH_RDONLY;
  (if FUFH_IS_VALID f then put_fufh vp FUFH_RDONLY (FUFH_USE_INC f)
   else
     err ← fuse_filehandle_get vp FUFH_RDONLY 0;
     return_if (nz err) err);;
  f ← get_fufh vp FUFH_RDONLY;
  r ← call (fuse_internal_readdir vp (fh_id f));
  put_uio (h_uio r);;
  f ← get_fufh vp FUFH_RDONLY;
  put_fufh vp FUFH_RDONLY (FUFH_USE_DEC f);;
  f ← get_fufh vp FUFH_RDONLY;
  (if negb (FUFH_IS_VALID f) then _ ← fuse_filehandle_put vp FUFH_RDONLY; skip
   else skip);;
  fuse_invalidate_attr vp;;
  return_ (h_err r).

(** [fuse_dispatcher_simple_putget_vp] is the dispatch of a request without
    payload. *)
Definition fuse_vnop_readlink (vp : vnode) (context : vfs_context) : vnop errno :=
  data ← get_data;
  return_if (fuse_isdeadfs data vp) ENXIO;;
  CHECK_BLANKET_DENIAL vp context ENOENT;;
  return_if (negb (vnode_islnk vp)) EINVAL;;
  nid ← VTOI vp;
  a ← fuse_dispatcher_wait_answer
        {| rq_op := FUSE_READLINK; rq_nodeid := nid; rq_in := in_empty |};
  return_if (nz (ans_err a)) (ans_err a);;
  err ← (if match ans_data a with c :: _ => c =? 47 | [] => false end   (* '/' *)
            && jail_symlinks data
         then uiomove (i32 (Z.of_nat (String.length (k_mntonname K (v_mount vp)))))
         else mret 0);
  err ← (if negb (nz err) then uiomove (i32 (ans_iosize a)) else mret err);
  fuse_ticket_drop;;
  fuse_invalidate_attr vp;;
  return_ err.

(** The loop of reclaim over the three slots. *)
Fixpoint reclaim_slots (vp : vnode) (types : list fufh_type) : vnop unit :=
  match types with
  | [] => skip
  | t :: rest =>
      f ← get_fufh vp t;
      (if FUFH_IS_VALID f then
         put_fufh vp t (FUFH_USE_RESET f);;
         (* forced unmount or not, the handle is put *)
         _ ← fuse_filehandle_put vp t; skip
       else skip);;
      reclaim_slots vp rest
  end.

Definition fuse_vnop_reclaim (vp : vnode) (context : vfs_context) : vnop errno :=
  data ← get_data;
  (if fuse_isdeadfs data vp then skip
   else
     fvdat ← VTOFUD vp;       (* panic("fuse4x: no vnode data during recycling") *)
     reclaim_slots vp FUFH_MAXTYPE;;
     fvdat ← VTOFUD vp;
     if nz (nlookup fvdat)
     then fuse_internal_forget_send (nodeid fvdat) (nlookup fvdat)
     else skip);;
  (* out: *)
  emit (ev_vncache_purge vp);;
  emit (ev_node_destroy vp);;
  delete_node vp;;
  return_ 0.

Definition VNODE_REMOVE_NODELETEBUSY : Z := 1.

Definition fuse_vnop_remove (dvp vp : vnode) (cnp : componentname) (flags : Z)
    (context : vfs_context) : vnop errno :=
  data ← get_data;
  return_if (fuse_isdeadfs data vp) ENXIO;;
  CHECK_BLANKET_DENIAL vp context ENOENT;;
  return_if (vnode_isdir vp) EPERM;;
  (* Check for Carbon delete semantics. *)
  return_if (nz (Z.land flags VNODE_REMOVE_NODELETEBUSY) && v_isinuse vp) EBUSY;;
  emit (ev_vncache_purge vp);;
  r ← call (fuse_internal_remove dvp vp cnp FUSE_UNLINK);
  (if h_err r =? 0 then emit (ev_vncache_purge vp);; fuse_invalidate_attr dvp
   else skip);;
  return_ (h_err r).

Definition fuse_vnop_removexattr (vp : vnode) (name : option string)
    (context : vfs_context) : vnop errno :=
  data ← get_data;
  return_if (fuse_isdeadfs data vp) ENXIO;;
  CHECK_BLANKET_DENIAL vp context ENOENT;;
  match name with
  | None => return_ EINVAL
  | Some n =>
      return_if (String.eqb n "") EINVAL;;    (* invalid name *)
      return_if (fuse_skip_apple_xattr_mp data name) EPERM;;
      return_if (auto_xattr data) ENOTSUP;;
      return_if (negb (fuse_implemented data (FSESS_NOIMPLBIT FUSE_REMOVEXATTR)))
        ENOTSUP;;
      nid ← VTOI vp;
      a ← fuse_dispatcher_wait_answer
            {| rq_op := FUSE_REMOVEXATTR; rq_nodeid := nid; rq_in := in_name n |};
      if negb (nz (ans_err a)) then
        fuse_ticket_drop;;
        update_node vp (fun fv => set_c_flags fv true (c_xtimes_valid fv));;
        fuse_invalidate_attr vp;;
        return_ 0
      else if ans_err a =? ENOSYS then
        clear_implemented (FSESS_NOIMPLBIT FUSE_REMOVEXATTR);;
        return_ ENOTSUP
      else return_ (ans_err a)
  end.

Definition fuse_vnop_rename (fdvp fvp : vnode) (tdvp : vnode) (tvp : option vnode)
    (context : vfs_context) : vnop errno :=
  data ← get_data;
  return_if (fuse_isdeadfs data fdvp) ENXIO;;
  CHECK_BLANKET_DENIAL fdvp context ENOENT;;
  emit (ev_vncache_purge fvp);;
  r ← call (fuse_internal_rename fdvp fvp tdvp tvp);
  (if h_err r =? 0 then
     fuse_invalidate_attr fdvp;;
     (if negb (vnode_eqb tdvp fdvp) then fuse_invalidate_attr tdvp else skip)
   else skip);;
  match tvp with
  | Some tvp => if negb (vnode_eqb tvp fvp) then emit (ev_vncache_purge tvp) else skip
  | None => skip
  end;;
  (if vnode_isdir fvp then
     match tvp with
     | Some tvp => if vnode_isdir tvp then emit (ev_vncache_purge tdvp) else skip
     | None => skip
     end;;
     emit (ev_vncache_purge fdvp)
   else skip);;
  return_ (h_err r).

Definition fuse_vnop_rmdir (dvp vp : vnode) (cnp : componentname)
    (context : vfs_context) : vnop errno :=
  data ← get_data;
  return_if (fuse_isdeadfs data vp) ENXIO;;
  CHECK_BLANKET_DENIAL vp context ENOENT;;
  return_if (v_fsnode vp =? v_fsnode dvp)%N EINVAL;;
  emit (ev_vncache_purge vp);;
  r ← call (fuse_internal_remove dvp vp cnp FUSE_RMDIR);
  (if h_err r =? 0 then fuse_invalidate_attr dvp else skip);;
  return_ (h_err r).

Definition fuse_vnop_select : vnop errno := return_ 1.

(* fuse_kernel.h *)
Definition FATTR_SIZE : Z := 2 ^ 3.
Definition FATTR_CRTIME : Z := 2 ^ 28.
Definition FATTR_BKUPTIME : Z := 2 ^ 30.

Definition fuse_vnop_setattr (vp : vnode) (vap : vnode_attr)
    (context : vfs_context) : vnop errno :=
  data ← get_data;
  return_if (fuse_isdeadfs data vp) ENXIO;;
  CHECK_BLANKET_DENIAL vp context ENOENT;;
  nid ← VTOI vp;
  let '(sizechanged, valid, newsize) := k_vat2fsai K vp vap in
  (* the [out:] block *)
  let out (err : errno) : vnop errno :=
    fuse_ticket_drop;;
    (if negb (nz err) && nz sizechanged then
       update_node vp (fun fv => set_filesize fv newsize);;
       emit (ev_ubc_setsize vp newsize)
     else skip);;
    return_ err in
  if negb (nz valid) then out 0
  else if nz (Z.land valid FATTR_SIZE) && vtype_eqb (v_type vp) VDIR then out EISDIR
  else if mnt_rdonly (v_mount vp)
          && (nz (Z.land valid (Z.lnot FATTR_SIZE)) || vtype_eqb (v_type vp) VREG)
  then out EROFS
  else
    a ← fuse_dispatcher_wait_answer
          {| rq_op := FUSE_SETATTR; rq_nodeid := nid; rq_in := in_setattr valid |};
    (if nz (ans_err a) then fuse_invalidate_attr vp;; return_ (ans_err a) else skip);;
    let vtyp := IFTOVT (attr_mode (ans_attr a)) in
    err ← (if negb (vtype_eqb (v_type vp) vtyp) then
             if vtype_eqb (v_type vp) VNON && negb (vtype_eqb vtyp VNON)
             then mret 0                          (* What just happened here? *)
             else
               (* STALE vnode, ditch *)
               emit (ev_vncache_purge vp);;
               mret EAGAIN
           else mret 0);
    (if negb (nz err) then
       if nz sizechanged then fuse_invalidate_attr vp
       else
         cache_attrs vp (ans_attr a) (ans_attr_valid a);;
         if nz (Z.land valid FATTR_BKUPTIME) || nz (Z.land valid FATTR_CRTIME)
         then update_node vp (fun fv => set_c_flags fv (c_touch_chgtime fv) false)
         else skip
     else skip);;
    out err.

Definition fuse_vnop_setxattr (vp : vnode) (name : option string) (options : Z)
    (context : vfs_context) : vnop errno :=
  data ← get_data;
  return_if (fuse_isdeadfs data vp) ENXIO;;
  CHECK_BLANKET_DENIAL vp context ENOENT;;
  match name with
  | None => return_ EINVAL
  | Some n =>
      return_if (String.eqb n "") EINVAL;;
      return_if (fuse_skip_apple_xattr_mp data name) EPERM;;
      return_if (auto_xattr data) ENOTSUP;;
      return_if (negb (fuse_implemented data (FSESS_NOIMPLBIT FUSE_SETXATTR))) ENOTSUP;;
      u ← get_uio;
      w ← get_world;
      let attrsize := uio_resid u in
      let saved_offset := uio_offset u in
      let iov_cnt := if FUSE_UIO_BACKUP_MAX <? uio_iovcnt u
                     then FUSE_UIO_BACKUP_MAX else uio_iovcnt u in
      let iov_err := if 0 <? iov_cnt
                     then k_uio_getiov K (List.length (w_trace w)) else 0 in
      (* Check attrsize for some sane maximum *)
      return_if (userkernel_bufsize data <? attrsize) E2BIG;;
      return_if (nz (k_make_vp_canfail K (List.length (w_trace w)) attrsize)) ERANGE;;
      nid ← VTOI vp;
      (if FUSE_REASONABLE_XATTRSIZE <? attrsize then emit ev_ticket_killed else skip);;
      err ← uiomove (i32 attrsize);
      err ← (if negb (nz err) then
               a ← fuse_dispatcher_wait_answer
                     {| rq_op := FUSE_SETXATTR; rq_nodeid := nid;
                        rq_in := in_setxattr (u32 attrsize) options
                                   (u32 saved_offset) n |};
               mret (ans_err a)
             else mret err);
      if negb (nz err) then
        fuse_ticket_drop;;
        fuse_invalidate_attr vp;;
        update_node vp (fun fv => set_c_flags fv true (c_xtimes_valid fv));;
        return_ 0
      else if (err =? ENOSYS) || (err =? ENOTSUP) then
        (if err =? ENOSYS then
           clear_implemented (FSESS_NOIMPLBIT FUSE_SETXATTR)
         else skip);;
        return_if (nz iov_err) EAGAIN;;
        (* uio_reset and uio_addiov of the saved iovecs *)
        emit ev_uio_reset;;
        put_uio u;;
        return_ ENOTSUP
      else return_ err
  end.

Definition fuse_vnop_strategy (vp : option vnode) : vnop errno :=
  data ← get_data;
  if match vp with None => true | Some vp => fuse_isdeadfs data vp end then
    emit (ev_buf_error EIO);;
    return_ ENXIO
  else r ← call fuse_internal_strategy_buf; return_ (h_err r).

Definition fuse_vnop_symlink (dvp : vnode) (cnp : componentname) (target : string)
    (context : vfs_context) : vnop errno :=
  data ← get_data;
  return_if (fuse_isdeadfs data dvp) ENXIO;;
  CHECK_BLANKET_DENIAL dvp context EPERM;;
  nid ← VTOI dvp;
  (* XXX: Need to take vap into account. *)
  r ← call (fuse_internal_newentry_core dvp cnp VLNK
              {| rq_op := FUSE_SYMLINK; rq_nodeid := nid;
                 rq_in := in_symlink (cn_name cnp) target |});
  put_vpp (h_vpp r);;
  (if h_err r =? 0 then fuse_invalidate_attr dvp else skip);;
  return_ (h_err r).

(** The [while (uio_resid(uio) > 0)] loop of a direct-I/O write. *)
Fixpoint write_loop (fuel : nat) (vp : vnode) (fufh_type : fufh_type) : vnop errno :=
  match fuel with
  | O => hang
  | S fuel =>
      u ← get_uio;
      if 0 <? uio_resid u then
        data ← get_data;
        nid ← VTOI vp;
        f ← get_fufh vp fufh_type;
        let chunksize := Z.min (uio_resid u) (iosize data) in
        error ← uiomove (i32 chunksize);
        if nz error then mret error
        else
          a ← fuse_dispatcher_wait_answer
                {| rq_op := FUSE_WRITE; rq_nodeid := nid;
                   rq_in := in_write (fh_id f) (uio_offset u) (u32 chunksize) |};
          return_if (nz (ans_err a)) (ans_err a);;
          let diff := chunksize - ans_size a in
          if diff <? 0 then mret EINVAL
          else
            u ← get_uio;
            put_uio {| uio_resid := uio_resid u + diff;
                       uio_offset := uio_offset u - diff;
                       uio_iovcnt := uio_iovcnt u |};;
            write_loop fuel vp fufh_type
      else mret 0
  end.

Definition fuse_vnop_write (fuel : nat) (vp : vnode) (ioflag : Z)
    (context : vfs_context) : vnop errno :=
  data ← get_data;
  return_if (fuse_isdeadfs data vp) ENXIO;;
  match v_type vp with
  | VREG => skip
  | VDIR => return_ EISDIR
  | _ => return_ EPERM      (* or EINVAL? panic? *)
  end;;
  u ← get_uio;
  let original_resid := uio_resid u in
  let original_offset := uio_offset u in
  return_if (original_resid =? 0) 0;;
  return_if (original_offset <? 0) EINVAL;;
  fvdat ← VTOFUD vp;
  if direct_io fvdat then
    let fufh_type :=
      if FUFH_IS_VALID (fufh fvdat FUFH_WRONLY) then Some FUFH_WRONLY
      else if FUFH_IS_VALID (fufh fvdat FUFH_RDWR) then
             Some FUFH_RDWR          (* Write falling back to FUFH_RDWR. *)
      else None in
    match fufh_type with
    | None => return_ EIO            (* Failing direct I/O because of no fufh. *)
    | Some fufh_type =>
        error ← write_loop fuel vp fufh_type;
        (if negb (nz error) then fuse_invalidate_attr vp else skip);;
        fuse_ticket_drop;;
        return_ error
    end
  else
    (* Be wary of a size change here. *)
    let original_size := filesize fvdat in
    let offset := if nz (Z.land ioflag IO_APPEND) then filesize fvdat
                  else original_offset in
    (if nz (Z.land ioflag IO_APPEND)     (* Arrange for append *)
     then put_uio {| uio_resid := uio_resid u; uio_offset := filesize fvdat;
                     uio_iovcnt := uio_iovcnt u |}
     else skip);;
    return_if (offset <? 0) EFBIG;;
    let fsize := if original_size <? offset + original_resid
                 then offset + original_resid      (* Need to extend the file. *)
                 else original_size in
    (if original_size <? offset + original_resid
     then update_node vp (fun fv => set_filesize fv fsize) else skip);;
    let lflag := Z.land ioflag (Z.lor IO_SYNC IO_NOCACHE) in
    let lflag := if mnt_synchronous (v_mount vp) then Z.lor lflag IO_SYNC else lflag in
    let zero_off := if original_size <? offset then original_size else 0 in
    let lflag := if original_size <? offset then Z.lor lflag IO_HEADZEROFILL
                 else lflag in
    r ← call (cluster_write vp original_size fsize zero_off lflag);
    put_uio (h_uio r);;
    let error := h_err r in
    (if negb (nz error) then
       (if original_size <? uio_offset (h_uio r) then
          (* Updating to new size. *)
          update_node vp (fun fv => set_filesize fv (uio_offset (h_uio r)));;
          emit (ev_ubc_setsize vp (uio_offset (h_uio r)))
        else update_node vp (fun fv => set_filesize fv original_size));;
       fuse_invalidate_attr vp
     else skip);;
    (* If the write failed and they want us to, truncate the file back to the
       size it was before the write was attempted. *)
    if nz error then
      if nz (Z.land ioflag IO_UNIT) then
        put_uio {| uio_resid := original_resid; uio_offset := original_offset;
                   uio_iovcnt := uio_iovcnt (h_uio r) |};;
        return_ error
      else if negb (uio_resid (h_uio r) =? original_resid) then return_ 0
      else return_ error
    else return_ error.

(** [memcpy(dst, src, n)] on byte lists, for a source of at least n bytes. *)
Definition memcpy (dst src : list Z) (n : Z) : list Z :=
  firstn (Z.to_nat n) src ++ skipn (Z.to_nat n) dst.

Definition fuse_vnop_ioctl (vp : vnode) (a_command : Z) (a_fflag : Z)
    (context : vfs_context) : vnop errno :=
  data ← get_data;
  return_if (fuse_isdeadfs data vp) ENXIO;;
  CHECK_BLANKET_DENIAL vp context EPERM;;
  return_if (negb (fuse_implemented data (FSESS_NOIMPLBIT FUSE_IOCTL))) ENOTSUP;;
  match fuse_filehandle_xlate_from_fflags a_fflag with
  | None => panic
  | Some fufh_type =>
      f ← get_fufh vp fufh_type;
      return_if (negb (FUFH_IS_VALID f)) EIO;;
      let iodata_size := i32 (IOCPARM_LEN a_command) in
      nid ← VTOI vp;
      w ← get_world;
      let a_data := m_data (w_mem w) in
      let '(in_size, indata) :=
        if nz (Z.lor a_command IOC_IN)
        then (iodata_size, memcpy [] a_data iodata_size)
        else (0, []) in
      let out_size := if nz (Z.lor a_command IOC_OUT) then iodata_size else 0 in
      a ← fuse_dispatcher_wait_answer
            {| rq_op := FUSE_IOCTL; rq_nodeid := nid;
               rq_in := in_ioctl (fh_id f) (u32 a_command) in_size out_size indata |};
      if negb (nz (ans_err a)) then
        (if nz (Z.lor a_command IOC_OUT) then
           modify_mem (fun m => mem_set_data m
                                  (memcpy (m_data m) (ans_data a) iodata_size))
         else skip);;
        fuse_ticket_drop;;
        return_ 0
      else if ans_err a =? ENOSYS then
        clear_implemented (FSESS_NOIMPLBIT FUSE_IOCTL);;
        return_ 0
      else return_ (ans_err a)
  end.

(** ** The operation vector

    A call of the VFS into the layer: the entry of
    [fuse_vnode_operation_entries] and the arguments of its argument block.
    The entries that point at the host's own stubs ([nop_allocate],
    [nop_revoke], [vn_default_error]) are not operations of this layer. *)
Inductive vnop_call :=
| vnop_access (vp : vnode) (action : Z) (context : vfs_context)
| vnop_blktooff (vp : vnode) (lblkno : Z)
| vnop_blockmap (vp : vnode) (foffset size : Z) (bpn run poff : bool)
| vnop_close (vp : vnode) (fflag : Z) (context : vfs_context)
| vnop_create (dvp : vnode) (cnp : componentname) (vap : vnode_attr)
    (context : vfs_context)
| vnop_exchange (fvp tvp : vnode) (options : Z) (context : vfs_context)
| vnop_fsync (vp : vnode) (waitfor : Z) (context : vfs_context)
| vnop_getattr (vp : vnode) (own : bool) (context : vfs_context)
| vnop_getxattr (vp : vnode) (name : option string) (has_uio : bool)
    (context : vfs_context)
| vnop_inactive (vp : vnode) (context : vfs_context)
| vnop_ioctl (vp : vnode) (command fflag : Z) (context : vfs_context)
| vnop_link (vp tdvp : vnode) (cnp : componentname) (context : vfs_context)
| vnop_listxattr (vp : vnode) (has_uio : bool) (context : vfs_context)
| vnop_lookup (dvp : vnode) (cnp : componentname) (context : vfs_context)
| vnop_mkdir (dvp : vnode) (cnp : componentname) (vap : vnode_attr)
    (context : vfs_context)
| vnop_mknod (dvp : vnode) (cnp : componentname) (vap : vnode_attr)
    (context : vfs_context)
| vnop_mmap (vp : vnode) (fflags : Z) (context : vfs_context)
| vnop_mnomap (vp : vnode) (context : vfs_context)
| vnop_offtoblk (vp : vnode) (offset : Z)
| vnop_open (vp : vnode) (mode : Z) (context : vfs_context)
| vnop_pagein (vp : vnode) (flags : Z)
| vnop_pageout (vp : vnode) (flags : Z)
| vnop_pathconf (vp : vnode) (name : Z) (context : vfs_context)
| vnop_read (fuel : nat) (vp : vnode) (ioflag : Z) (context : vfs_context)
| vnop_readdir (vp : vnode) (flags : Z) (context : vfs_context)
| vnop_readlink (vp : vnode) (context : vfs_context)
| vnop_reclaim (vp : vnode) (context : vfs_context)
| vnop_remove (dvp vp : vnode) (cnp : componentname) (flags : Z)
    (context : vfs_context)
| vnop_removexattr (vp : vnode) (name : option string) (context : vfs_context)
| vnop_rename (fdvp fvp tdvp : vnode) (tvp : option vnode) (context : vfs_context)
| vnop_rmdir (dvp vp : vnode) (cnp : componentname) (context : vfs_context)
| vnop_select
| vnop_setattr (vp : vnode) (vap : vnode_attr) (context : vfs_context)
| vnop_setxattr (vp : vnode) (name : option string) (options : Z)
    (context : vfs_context)
| vnop_strategy (vp : option vnode)
| vnop_symlink (dvp : vnode) (cnp : componentname) (target : string)
    (context : vfs_context)
| vnop_write (fuel : nat) (vp : vnode) (ioflag : Z) (context : vfs_context).

Definition fuse_vnode_operation_entries (c : vnop_call) : vnop errno :=
  match c with
  | vnop_access vp action context => fuse_vnop_access vp action context
  | vnop_blktooff vp lblkno => fuse_vnop_blktooff vp lblkno
  | vnop_blockmap vp foffset size bpn run poff =>
      fuse_vnop_blockmap vp foffset size bpn run poff
  | vnop_close vp fflag context => fuse_vnop_close vp fflag context
  | vnop_create dvp cnp vap context => fuse_vnop_create dvp cnp vap context
  | vnop_exchange fvp tvp options context => fuse_vnop_exchange fvp tvp options context
  | vnop_fsync vp waitfor context => fuse_vnop_fsync vp waitfor context
  | vnop_getattr vp own context => fuse_vnop_getattr vp own context
  | vnop_getxattr vp name has_uio context => fuse_vnop_getxattr vp name has_uio context
  | vnop_inactive vp context => fuse_vnop_inactive vp context
  | vnop_ioctl vp command fflag context => fuse_vnop_ioctl vp command fflag context
  | vnop_link vp tdvp cnp context => fuse_vnop_link vp tdvp cnp context
  | vnop_listxattr vp has_uio context => fuse_vnop_listxattr vp has_uio context
  | vnop_lookup dvp cnp context => fuse_vnop_lookup dvp cnp context
  | vnop_mkdir dvp cnp vap context => fuse_vnop_mkdir dvp cnp vap context
  | vnop_mknod dvp cnp vap context => fuse_vnop_mknod dvp cnp vap context
  | vnop_mmap vp fflags context => fuse_vnop_mmap vp fflags context
  | vnop_mnomap vp context => fuse_vnop_mnomap vp context
  | vnop_offtoblk vp offset => fuse_vnop_offtoblk vp offset
  | vnop_open vp mode context => fuse_vnop_open vp mode context
  | vnop_pagein vp flags => fuse_vnop_pagein vp flags
  | vnop_pageout vp flags => fuse_vnop_pageout vp flags
  | vnop_pathconf vp name context => fuse_vnop_pathconf vp name context
  | vnop_read fuel vp ioflag context => fuse_vnop_read fuel vp ioflag context
  | vnop_readdir vp flags context => fuse_vnop_readdir vp flags context
  | vnop_readlink vp context => fuse_vnop_readlink vp context
  | vnop_reclaim vp context => fuse_vnop_reclaim vp context
  | vnop_remove dvp vp cnp flags context => fuse_vnop_remove dvp vp cnp flags context
  | vnop_removexattr vp name context => fuse_vnop_removexattr vp name context
  | vnop_rename fdvp fvp tdvp tvp context => fuse_vnop_rename fdvp fvp tdvp tvp context
  | vnop_rmdir dvp vp cnp context => fuse_vnop_rmdir dvp vp cnp context
  | vnop_select => fuse_vnop_select
  | vnop_setattr vp vap context => fuse_vnop_setattr vp vap context
  | vnop_setxattr vp name options context => fuse_vnop_setxattr vp name options context
  | vnop_strategy vp => fuse_vnop_strategy vp
  | vnop_symlink dvp cnp target context => fuse_vnop_symlink dvp cnp target context
  | vnop_write fuel vp ioflag context => fuse_vnop_write fuel vp ioflag context
  end.

(** A call of the VFS, run to its end. *)
Definition vfs_call (c : vnop_call) (w : world) : result * world :=
  run (fuse_vnode_operation_entries c) w.

End Vnops.

(** * Sample objects *)

Definition mount0 : mount :=
  {| mnt_ptr := 1; mnt_rdonly := false; mnt_force := false;
     mnt_synchronous := false; mnt_authopaque := false |}.

Definition mk_vnode (p : N) (t : vtype) (root : bool) : vnode :=
  {| v_ptr := p; v_fsnode := p; v_type := t; v_isvroot := root;
     v_mount := mount0; v_hasdirtyblks := false; v_isinuse := false |}.

Definition root_vnode : vnode := mk_vnode 1 VDIR true.
Definition dir_vnode : vnode := mk_vnode 2 VDIR false.
Definition file_vnode : vnode := mk_vnode 3 VREG false.

Definition fufh_closed : fuse_filehandle :=
  {| fh_id := 0; open_count := 0; open_flags := 0; fuse_open_flags := 0 |}.

Definition fufh_open (id n : Z) : fuse_filehandle :=
  {| fh_id := id; open_count := n; open_flags := 0; fuse_open_flags := 0 |}.

Definition mk_node (nid : Z) (dio : bool) (ro wo rw : fuse_filehandle)
  : fuse_vnode_data :=
  {| nodeid := nid; parent_nodeid := FUSE_ROOT_ID; parentvp := root_vnode;
     nlookup := 1; filesize := 0; attr_valid := 0; cached_attr := vattr_zero;
     fufh_rdonly := ro; fufh_wronly := wo; fufh_rdwr := rw;
     direct_io := dio; c_touch_chgtime := false; c_xtimes_valid := false |}.

Definition daemon_cred : ucred := {| cr_uid := 501; cr_gid := 20 |}.

Definition mk_data (is_dead is_inited : bool) (cm : Z) : fuse_data :=
  {| dead := is_dead; inited := is_inited; capmap := cm;
     no_applexattr := false; auto_xattr := false; jail_symlinks := false;
     no_vncache := false; no_synconclose := false; no_syncwrites := false;
     no_readahead := false; blocksize := 4096; iosize := 4096;
     userkernel_bufsize := 16 * 1024 * 1024; daemoncred := daemon_cred |}.

(** The capability map of a fresh session: all set. *)
Definition capmap_all : Z := 2 ^ 64 - 1.

Definition mem0 : caller_mem :=
  {| m_uio := {| uio_resid := 0; uio_offset := 0; uio_iovcnt := 1 |};
     m_vap := vattr_zero; m_vpp := None; m_size := 0; m_data := []; m_out := [] |}.

Definition mk_world (d : fuse_data) (nodes : list (N * fuse_vnode_data))
    (u : uio) : world :=
  {| w_data := d; w_nodes := list_to_map nodes;
     w_mem := mem_set_uio mem0 u; w_trace := [] |}.

Definition uio0 : uio := {| uio_resid := 0; uio_offset := 0; uio_iovcnt := 1 |}.

Definition answer_ok : answer :=
  {| ans_err := 0; ans_errno := 0; ans_iosize := 0;
     ans_entry := {| feo_nodeid := 0; feo_attr := {| attr_mode := 0; attr_size := 0 |} |};
     ans_open := {| foo_fh := 0; foo_open_flags := 0 |};
     ans_attr := {| attr_mode := 0; attr_size := 0 |};
     ans_attr_valid := 0; ans_size := 0; ans_data := [] |}.

Definition answer_err (e : errno) : answer :=
  {| ans_err := e; ans_errno := e; ans_iosize := 0;
     ans_entry := ans_entry answer_ok; ans_open := ans_open answer_ok;
     ans_attr := ans_attr answer_ok; ans_attr_valid := 0; ans_size := 0;
     ans_data := [] |}.

Definition helper_ok (u : uio) : helper_result :=
  {| h_err := 0; h_cleared := []; h_uio := u; h_vpp := None; h_answer := answer_ok |}.

Definition user_context : vfs_context :=
  {| ctx_issuser := false; ctx_ucred := {| cr_uid := 502; cr_gid := 20 |} |}.

(** A kernel around a given daemon, with a given verdict of the
    blanket-denial hook; everything else goes well. *)
Definition mk_kernel (daemon : nat -> request -> answer) (deny : bool) : kernel :=
  {| k_daemon := daemon;
     k_helper := fun _ _ u => helper_ok u;
     k_blanket_deny := fun _ _ => deny;
     k_skip_apple_double := fun _ _ _ => false;
     k_match_cred := fun a b => if (cr_uid a =? cr_uid b) then 0 else EPERM;
     k_nanouptime := fun _ => 1000;
     k_uiomove := fun _ _ => 0;
     k_vnode_authorize := fun _ _ _ => 0;
     k_vncache_lookup := fun _ _ => (0, None);
     k_vget := fun _ feo _ =>
       (0, mk_vnode 100 VREG false,
        mk_node (feo_nodeid feo) false fufh_closed fufh_closed fufh_closed);
     k_vnode_get := fun _ => 0;
     k_vnode_getname := fun _ => Some "name"%string;
     k_vat2fsai := fun _ _ => (0, 0, 0);
     k_uio_getiov := fun _ => 0;
     k_make_vp_canfail := fun _ _ => 0;
     k_mntonname := fun _ => "/mnt"%string;
     k_checkentry_errno := fun _ _ => EINVAL |}.

Definition cn (name : string) (op : nameiop) (flags : Z) : componentname :=
  {| cn_nameiop := op; cn_flags := flags; cn_nameptr := name;
     cn_namelen := Z.of_nat (String.length name) |}.

(** A daemon that knows no CREATE and answers everything else with an
    empty success, and a live session on it. *)
Definition legacy_daemon (n : nat) (r : request) : answer :=
  if fuse_opcode_eqb (rq_op r) FUSE_CREATE then answer_err ENOSYS
  else if fuse_opcode_eqb (rq_op r) FUSE_MKNOD then
    {| ans_err := 0; ans_errno := 0; ans_iosize := 0;
       ans_entry := {| feo_nodeid := 7;
                       feo_attr := {| attr_mode := Z.lor S_IFREG 420; attr_size := 0 |} |};
       ans_open := ans_open answer_ok; ans_attr := ans_attr answer_ok;
       ans_attr_valid := 0; ans_size := 0; ans_data := [] |}
  else answer_ok.

Definition closed_node (nid : Z) : fuse_vnode_data :=
  mk_node nid false fufh_closed fufh_closed fufh_closed.

Definition live_world : world :=
  mk_world (mk_data false true capmap_all)
    [(1%N, closed_node 1); (2%N, closed_node 2); (3%N, closed_node 3)] uio0.

Definition reg_attr (mode : Z) : vnode_attr :=
  {| va_supported := 0; va_type := VREG; va_mode := mode; va_uid := 0;
     va_gid := 0; va_nlink := 1; va_rdev := 0; va_data_size := 0 |}.

(** * Notions the theorems are stated with *)

(** The life of a session: one call after the other, each on the world the
    one before left. *)
Fixpoint vfs_calls (K : kernel) (calls : list vnop_call) (w : world) : world :=
  match calls with
  | [] => w
  | c :: calls => vfs_calls K calls (snd (vfs_call K c w))
  end.

(** The capability map of [w'] has no bit that the one of [w] has not. *)
Definition caps_only_cleared (w w' : world) : Prop :=
  forall which,
    fuse_implemented (w_data w') which = true ->
    fuse_implemented (w_data w) which = true.

(** The trace of [w'] is the one of [w] with more at its end. *)
Definition trace_extends (w w' : world) : Prop :=
  exists evs, w_trace w' = w_trace w ++ evs.

(** The events that hand a request to the daemon: a dispatch with or
    without wait, and the helpers that dispatch on their own. *)
Definition is_request (e : event) : bool :=
  match e with
  | ev_wait_answer _ | ev_insert_message _ | ev_call _ => true
  | _ => false
  end.

Definition requests (w : world) : list event := List.filter is_request (w_trace w).

(** The vnodes of a call that the layer looks into. *)
Definition call_vnodes (c : vnop_call) : list vnode :=
  match c with
  | vnop_create dvp _ _ _ => [dvp]
  | vnop_getattr vp _ _ => [vp]
  | vnop_inactive vp _ => [vp]
  | _ => []
  end.

Definition has_node (w : world) (vp : vnode) : Prop :=
  is_Some (w_nodes w !! v_fsnode vp).

(** C10 the way it is written: on a live file system, an rmdir of a vnode
    that has the node data of the parent returns EINVAL with nothing done. *)
Definition rmdir_claim_as_stated : Prop :=
  forall K dvp vp cnp context w,
    dead (w_data w) = false ->
    v_fsnode vp = v_fsnode dvp ->
    vfs_call K (vnop_rmdir dvp vp cnp context) w = (Returned EINVAL, w).

(** C9 the way it is written: a lookup of a name longer than 255 bytes
    returns ENAMETOOLONG and sends nothing. *)
Definition lookup_claim_as_stated : Prop :=
  forall K dvp cnp context w,
    FUSE_MAXNAMLEN < cn_namelen cnp ->
    fst (vfs_call K (vnop_lookup dvp cnp context) w) = Returned ENAMETOOLONG
    /\ requests (snd (vfs_call K (vnop_lookup dvp cnp context) w)) = requests w.

Definition name256 : string :=
  Eval cbv in
    let a16 := "aaaaaaaaaaaaaaaa"%string in
    let a64 := (a16 ++ a16 ++ a16 ++ a16)%string in
    (a64 ++ a64 ++ a64 ++ a64)%string.

Definition name255 : string :=
  Eval cbv in String.substring 0 255 name256.

(** A read-only mount and a directory on it. *)
Definition rdonly_mount : mount :=
  {| mnt_ptr := 2; mnt_rdonly := true; mnt_force := false;
     mnt_synchronous := false; mnt_authopaque := false |}.

Definition rdonly_dir : vnode :=
  {| v_ptr := 2; v_fsnode := 2; v_type := VDIR; v_isvroot := false;
     v_mount := rdonly_mount; v_hasdirtyblks := false; v_isinuse := false |}.

(** A daemon that finds every name, as a regular file with node id 7. *)
Definition finding_daemon (n : nat) (r : request) : answer :=
  {| ans_err := 0; ans_errno := 0; ans_iosize := 0;
     ans_entry := {| feo_nodeid := 7;
                     feo_attr := {| attr_mode := Z.lor S_IFREG 420; attr_size := 0 |} |};
     ans_open := {| foo_fh := 42; foo_open_flags := 0 |};
     ans_attr := {| attr_mode := Z.lor S_IFREG 420; attr_size := 0 |};
     ans_attr_valid := 2000; ans_size := 0; ans_data := [] |}.

(** A regular file open read-write with handle 42, on a live session, and
    five bytes of caller data for an ioctl. *)
Definition rdwr_node : fuse_vnode_data :=
  mk_node 3 false fufh_closed fufh_closed (fufh_open 42 1).

Definition ioctl_world : world :=
  {| w_data := mk_data false true capmap_all;
     w_nodes := list_to_map [(3%N, rdwr_node)];
     w_mem := mem_set_data mem0 [1; 2; 3; 4; 5];
     w_trace := [] |}.



(** C4 the way it is written: on a dead session every operation returns
    ENXIO and sends nothing, but for close, inactive, reclaim and fsync,
    and access on the root vnode, which return 0. *)
Definition returns_zero_when_dead_as_stated (c : vnop_call) : bool :=
  match c with
  | vnop_close _ _ _ | vnop_inactive _ _ | vnop_reclaim _ _
  | vnop_fsync _ _ _ => true
  | vnop_access vp _ _ => v_isvroot vp
  | _ => false
  end.

Definition dead_claim_as_stated : Prop :=
  forall K c w,
    dead (w_data w) = true ->
    Forall (has_node w) (call_vnodes c) ->
    if returns_zero_when_dead_as_stated c
    then fst (vfs_call K c w) = Returned 0
    else fst (vfs_call K c w) = Returned ENXIO
         /\ requests (snd (vfs_call K c w)) = requests w.

(** What the operations return on a dead session, after the amended
    claim: 0 from close, fsync, inactive, reclaim and mnomap; 0 from access
    and getattr on the root vnode and from read on a character device;
    ENOTSUP from pagein and pageout; 1 from select; from exchange (as built
    with FUSE4X_ENABLE_EXCHANGE) the verdict of its argument checks, which
    come first; ENXIO otherwise. *)
Definition dead_result (c : vnop_call) (w : world) : result :=
  match c with
  | vnop_close _ _ _ | vnop_fsync _ _ _ | vnop_inactive _ _
  | vnop_reclaim _ _ | vnop_mnomap _ _ => Returned 0
  | vnop_access vp _ _ | vnop_getattr vp _ _ =>
      if v_isvroot vp then Returned 0 else Returned ENXIO
  | vnop_read _ vp _ _ => if vnode_ischr vp then Returned 0 else Returned ENXIO
  | vnop_pagein _ _ | vnop_pageout _ _ => Returned ENOTSUP
  | vnop_select => Returned 1
  | vnop_exchange fvp tvp _ _ =>
      if negb (mount_eqb (v_mount fvp) (v_mount tvp)) then Returned EXDEV
      else if negb (fuse_implemented (w_data w) (FSESS_NOIMPLBIT FUSE_EXCHANGE))
              || no_vncache (w_data w)
      then Returned ENOTSUP
      else if vnode_eqb fvp tvp || negb (vnode_isreg fvp) || negb (vnode_isreg tvp)
      then Returned EINVAL
      else Returned ENXIO
  | _ => Returned ENXIO
  end.

Definition is_inactive (c : vnop_call) : bool :=
  match c with vnop_inactive _ _ => true | _ => false end.

Definition dead_world : world :=
  mk_world (mk_data true true capmap_all)
    [(1%N, closed_node 1); (2%N, closed_node 2); (3%N, closed_node 3)] uio0.

(** The attribute buffer of a getattr call, as the world has it. *)
Definition read_vap (own : bool) (vp : vnode) (w : world) : option vnode_attr :=
  if own then cached_attr <$> (w_nodes w !! v_fsnode vp)
  else Some (m_vap (w_mem w)).

(** The fabricated attribute reply, after the words of the spec: the type
    of the vnode, the uid and gid of the daemon, the mode S_IRWXU, these
    four marked as supported and nothing else set. *)
Definition fabricated_attr (d : fuse_data) (vp : vnode) : vnode_attr :=
  {| va_supported := va_bit F_va_type + va_bit F_va_uid + va_bit F_va_gid
                     + va_bit F_va_mode;
     va_type := v_type vp;
     va_mode := S_IRWXU;
     va_uid := cr_uid (daemoncred d);
     va_gid := cr_gid (daemoncred d);
     va_nlink := 0; va_rdev := 0; va_data_size := 0 |}.

(** What inactive, which has no check for a dead session, leaves of the
    slots of a node: the count of a slot that was valid is 0, and a slot
    that was not valid is as it was. *)
Definition inactive_slot (fv : fuse_vnode_data) (t : fufh_type) : Z :=
  if FUFH_IS_VALID (fufh fv t) then 0 else open_count (fufh fv t).

(** What the two exceptions that do more than return leave behind on a
    dead session: getattr on the root vnode the fabricated attributes in
    the buffer of the call, and inactive the slots of the vnode reset. *)
Definition dead_effect (c : vnop_call) (w w' : world) : Prop :=
  match c with
  | vnop_getattr vp own _ =>
      v_isvroot vp = true ->
      read_vap own vp w' = Some (fabricated_attr (w_data w) vp)
  | vnop_inactive vp _ =>
      forall fv, w_nodes w !! v_fsnode vp = Some fv ->
        exists fv',
          w_nodes w' !! v_fsnode vp = Some fv'
          /\ forall t, open_count (fufh fv' t) = inactive_slot fv t
  | _ => True
  end.

(** C8 the way it is written, for the sessions that are dead or
    uninitialized: getattr on the root vnode returns 0 with the fabricated
    attributes. *)
Definition getattr_claim_as_stated : Prop :=
  forall K vp own context w,
    v_isvroot vp = true ->
    has_node w vp ->
    dead (w_data w) = true \/ inited (w_data w) = false ->
    fst (vfs_call K (vnop_getattr vp own context) w) = Returned 0
    /\ read_vap own vp (snd (vfs_call K (vnop_getattr vp own context) w))
       = Some (fabricated_attr (w_data w) vp).

Definition uninit_world : world :=
  mk_world (mk_data false false capmap_all)
    [(1%N, closed_node 1); (2%N, closed_node 2); (3%N, closed_node 3)] uio0.

(** A daemon that is gone: every request fails with ENOTCONN. *)
Definition gone_daemon (n : nat) (r : request) : answer := answer_err ENOTCONN.







(** ** Notions and sample objects for the further properties *)

(** [FFLAGS] of <sys/fcntl.h>: from open flags to file flags. *)
Definition FFLAGS (oflags : Z) : Z := oflags + 1.

(** The events that send a request with a given opcode to the daemon. *)
Definition sends (op : fuse_opcode) (e : event) : bool :=
  match e with
  | ev_wait_answer r | ev_insert_message r => fuse_opcode_eqb (rq_op r) op
  | _ => false
  end.

(** The requests that get a handle from the daemon or give one back. *)
Definition handle_traffic (e : event) : bool :=
  sends FUSE_OPEN e || sends FUSE_OPENDIR e
  || sends FUSE_RELEASE e || sends FUSE_RELEASEDIR e.

(** [w'] is [w] with more events, none of them about handles. *)
Definition quiet (w w' : world) : Prop :=
  exists rest,
    w_trace w' = w_trace w ++ rest /\ List.filter handle_traffic rest = [].

(** [w'] is [w] with more events, of which [l] are the requests that get a
    handle or give one back. *)
Definition handle_requests (w w' : world) (l : list event) : Prop :=
  exists rest,
    w_trace w' = w_trace w ++ rest /\ List.filter handle_traffic rest = l.

(** The use count of a slot of a vnode, when the vnode has node data. *)
Definition slot_count (w : world) (vp : vnode) (c : fufh_type) : option Z :=
  (fun fv => open_count (fufh fv c)) <$> (w_nodes w !! v_fsnode vp).

(** The class of handle that open and close take for a vnode and the flags
    of the call: [vnode_isdir(vp) ? FUFH_RDONLY : xlate(flags)]. *)
Definition open_class (vp : vnode) (fflags : Z) : option fufh_type :=
  if vnode_isdir vp then Some FUFH_RDONLY
  else fuse_filehandle_xlate_from_fflags fflags.

(** What a close does before it gives the use of a handle back.  For a file
    with dirty pages, and unless the mount says not to sync on close, the
    pages are pushed; then, for a file on a session whose daemon has FLUSH,
    a FLUSH goes out for the handle of the slot. *)
Definition close_pushes (vp : vnode) (d : fuse_data) : list event :=
  if negb (vnode_isdir vp) && v_hasdirtyblks vp && negb (no_synconclose d)
  then [ev_cluster_push vp (Z.lor IO_SYNC IO_CLOSE)] else [].

Definition close_flushes (vp : vnode) (d : fuse_data) : bool :=
  negb (vnode_isdir vp) && fuse_implemented d (FSESS_NOIMPLBIT FUSE_FLUSH).

Definition flush_request (fv : fuse_vnode_data) (c : fufh_type) : request :=
  {| rq_op := FUSE_FLUSH; rq_nodeid := nodeid fv;
     rq_in := in_flush (fh_id (fufh fv c)) |}.

(** The request that takes a handle of a class for a node, and the one that
    gives the handle [fh], taken with the open flags [oflags], back. *)
Definition open_request (vp : vnode) (fv : fuse_vnode_data) (c : fufh_type)
  : request :=
  {| rq_op := if vnode_isdir vp then FUSE_OPENDIR else FUSE_OPEN;
     rq_nodeid := nodeid fv;
     rq_in := in_open (fuse_filehandle_xlate_to_oflags c) |}.

Definition handle_release (vp : vnode) (fv : fuse_vnode_data) (fh oflags : Z)
  : request :=
  {| rq_op := if vnode_isdir vp then FUSE_RELEASEDIR else FUSE_RELEASE;
     rq_nodeid := nodeid fv;
     rq_in := in_release fh oflags |}.

(** The node is the same node, and its slots hold the handles they held. *)
Definition handles_kept (fv fv' : fuse_vnode_data) : Prop :=
  nodeid fv' = nodeid fv
  /\ forall c, fh_id (fufh fv' c) = fh_id (fufh fv c)
               /\ open_flags (fufh fv' c) = open_flags (fufh fv c).

(** [k] opens, and [k] closes after them. *)
Definition opens (K : kernel) (vp : vnode) (mode : Z) (context : vfs_context)
    (k : nat) (w : world) : world :=
  vfs_calls K (repeat (vnop_open vp mode context) k) w.

Definition closes (K : kernel) (vp : vnode) (fflag : Z) (context : vfs_context)
    (k : nat) (w : world) : world :=
  vfs_calls K (repeat (vnop_close vp fflag context) k) w.

(** C5 the way it is written: [k] opens of a class and [k] closes of it,
    from a slot that is not valid, send one OPEN and one RELEASE and leave
    the slot not valid. *)
Definition open_close_claim_as_stated : Prop :=
  forall K vp mode fflag context c k w fv,
    (1 <= k)%nat ->
    open_class vp mode = Some c ->
    open_class vp fflag = Some c ->
    w_nodes w !! v_fsnode vp = Some fv ->
    FUFH_IS_VALID (fufh fv c) = false ->
    exists rest,
      w_trace (closes K vp fflag context k (opens K vp mode context k w))
      = w_trace w ++ rest
      /\ List.length
           (List.filter (fun e => sends FUSE_OPEN e || sends FUSE_OPENDIR e) rest)
         = 1%nat
      /\ List.length
           (List.filter (fun e => sends FUSE_RELEASE e || sends FUSE_RELEASEDIR e)
              rest)
         = 1%nat.

(** A call that returns, and what holds of its result and of the world it
    leaves. *)
Definition returns (Q : errno -> world -> Prop) (r : result * world) : Prop :=
  match r with
  | (Returned e, w') => Q e w'
  | _ => False
  end.

(** The slot a direct-I/O read uses: the read-only one, or the read-write
    one when that is not valid. *)
Definition direct_read_slot (fv : fuse_vnode_data) : option fufh_type :=
  if FUFH_IS_VALID (fufh fv FUFH_RDONLY) then Some FUFH_RDONLY
  else if FUFH_IS_VALID (fufh fv FUFH_RDWR) then Some FUFH_RDWR
  else None.

(** The first [n] requests of a direct-I/O read of [resid] bytes at [off]:
    each asks for what is left, at most [iosize], where the one before
    ended. *)
Fixpoint read_chunks (n : nat) (nid fh off resid iosize : Z) : list event :=
  match n with
  | O => []
  | S n =>
      let size := Z.min resid iosize in
      ev_wait_answer {| rq_op := FUSE_READ; rq_nodeid := nid;
                        rq_in := in_read fh off size |}
      :: read_chunks n nid fh (off + size) (resid - size) iosize
  end.

(** What the loop of a direct-I/O read leaves: it ends, with the session
    and the nodes as they were; what it sent are the first chunks of the
    read, and the uio has moved on by what it has taken. *)
Definition read_loop_post (t : fufh_type) (fv : fuse_vnode_data) (d : fuse_data)
    (nodes : gmap N fuse_vnode_data) (w : world) (r : outcome errno * world)
  : Prop :=
  (exists e, fst r = Next e \/ fst r = Return e)
  /\ w_data (snd r) = d
  /\ w_nodes (snd r) = nodes
  /\ (exists n,
        (0 < uio_resid (m_uio (w_mem w)) -> (1 <= n)%nat)
        /\ w_trace (snd r)
           = w_trace w
             ++ read_chunks n (nodeid fv) (fh_id (fufh fv t))
                  (uio_offset (m_uio (w_mem w))) (uio_resid (m_uio (w_mem w)))
                  (iosize d))
  /\ uio_offset (m_uio (w_mem (snd r))) + uio_resid (m_uio (w_mem (snd r)))
     = uio_offset (m_uio (w_mem w)) + uio_resid (m_uio (w_mem w))
  /\ 0 <= uio_resid (m_uio (w_mem (snd r))) <= uio_resid (m_uio (w_mem w)).

(** A daemon that answers every READ in full, and one that has only 500
    bytes for the READ at offset 4096. *)
Definition read_answer (size : Z) : answer :=
  {| ans_err := 0; ans_errno := 0; ans_iosize := size;
     ans_entry := ans_entry answer_ok; ans_open := ans_open answer_ok;
     ans_attr := ans_attr answer_ok; ans_attr_valid := 0; ans_size := 0;
     ans_data := [] |}.

Definition full_daemon (n : nat) (r : request) : answer :=
  match rq_in r with
  | in_read _ _ size => read_answer size
  | _ => answer_ok
  end.

Definition short_daemon (n : nat) (r : request) : answer :=
  match rq_in r with
  | in_read _ off size => read_answer (if off =? 4096 then 500 else size)
  | _ => answer_ok
  end.

(** A file open read-only for direct I/O with handle 42, on a live session
    with an I/O size of 4096, and a read of [resid] bytes at [off]. *)
Definition direct_node : fuse_vnode_data :=
  mk_node 3 true (fufh_open 42 1) fufh_closed fufh_closed.

Definition direct_world (resid off : Z) : world :=
  mk_world (mk_data false true capmap_all) [(3%N, direct_node)]
    {| uio_resid := resid; uio_offset := off; uio_iovcnt := 1 |}.

(** The [k]-th request (counted from 0) of a direct-I/O read of [resid]
    bytes at [off], when the ones before it were answered in full: it asks
    for what is left, at most [iosize], where the one before ended. *)
Definition read_size (resid iosize : Z) (k : nat) : Z :=
  Z.min (resid - Z.of_nat k * iosize) iosize.

Definition read_request (nid fh off resid iosize : Z) (k : nat) : request :=
  {| rq_op := FUSE_READ; rq_nodeid := nid;
     rq_in := in_read fh (off + Z.of_nat k * iosize) (read_size resid iosize k) |}.

(** C1 the way it is written, in its first clause: a read of a direct-I/O
    vnode with a valid slot, of resid > 0 at an offset >= 0, sends a
    FUSE_READ on the handle of the slot for min(resid, iosize). *)
Definition read_claim_as_stated : Prop :=
  forall K fuel vp ioflag context w fv t,
    w_nodes w !! v_fsnode vp = Some fv ->
    direct_io fv = true ->
    direct_read_slot fv = Some t ->
    0 < uio_resid (m_uio (w_mem w)) ->
    0 <= uio_offset (m_uio (w_mem w)) ->
    uio_resid (m_uio (w_mem w)) < Z.of_nat fuel ->
    exists rest,
      w_trace (snd (vfs_call K (vnop_read fuel vp ioflag context) w))
      = w_trace w
        ++ ev_wait_answer
             (read_request (nodeid fv) (fh_id (fufh fv t))
                (uio_offset (m_uio (w_mem w))) (uio_resid (m_uio (w_mem w)))
                (iosize (w_data w)) 0)
           :: rest.

(** The same file on a dead session. *)
Definition dead_direct_world (resid off : Z) : world :=
  mk_world (mk_data true true capmap_all) [(3%N, direct_node)]
    {| uio_resid := resid; uio_offset := off; uio_iovcnt := 1 |}.

(** The slot a direct-I/O write uses: the write-only one, or the read-write
    one when that is not valid. *)
Definition direct_write_slot (fv : fuse_vnode_data) : option fufh_type :=
  if FUFH_IS_VALID (fufh fv FUFH_WRONLY) then Some FUFH_WRONLY
  else if FUFH_IS_VALID (fufh fv FUFH_RDWR) then Some FUFH_RDWR
  else None.

(** The first [n] requests of a direct-I/O write of [resid] bytes at [off]
    that the daemon takes in full. *)
Fixpoint write_chunks (n : nat) (nid fh off resid iosize : Z) : list event :=
  match n with
  | O => []
  | S n =>
      let size := Z.min resid iosize in
      ev_wait_answer {| rq_op := FUSE_WRITE; rq_nodeid := nid;
                        rq_in := in_write fh off size |}
      :: write_chunks n nid fh (off + size) (resid - size) iosize
  end.

(** A daemon that takes every WRITE in full, and one that takes nothing of
    any WRITE and says so without an error. *)
Definition write_answer (size : Z) : answer :=
  {| ans_err := 0; ans_errno := 0; ans_iosize := 0;
     ans_entry := ans_entry answer_ok; ans_open := ans_open answer_ok;
     ans_attr := ans_attr answer_ok; ans_attr_valid := 0; ans_size := size;
     ans_data := [] |}.

Definition taking_daemon (n : nat) (r : request) : answer :=
  match rq_in r with
  | in_write _ _ size => write_answer size
  | _ => answer_ok
  end.

Definition idle_daemon (n : nat) (r : request) : answer := write_answer 0.

(** A file open write-only for direct I/O with handle 43, on a live session
    with an I/O size of 4096, and a write of [resid] bytes at [off]. *)
Definition direct_write_node : fuse_vnode_data :=
  mk_node 3 true fufh_closed (fufh_open 43 1) fufh_closed.

Definition direct_write_world (resid off : Z) : world :=
  mk_world (mk_data false true capmap_all) [(3%N, direct_write_node)]
    {| uio_resid := resid; uio_offset := off; uio_iovcnt := 1 |}.

(** The calls that find out from the answer to their own request whether
    the daemon implements it, and the opcode of that request. *)
Definition negotiated_opcode (c : vnop_call) : option fuse_opcode :=
  match c with
  | vnop_create _ _ _ _ => Some FUSE_CREATE
  | vnop_getxattr _ _ _ _ => Some FUSE_GETXATTR
  | vnop_ioctl _ _ _ _ => Some FUSE_IOCTL
  | vnop_listxattr _ _ _ => Some FUSE_LISTXATTR
  | vnop_removexattr _ _ _ => Some FUSE_REMOVEXATTR
  | vnop_setxattr _ _ _ _ => Some FUSE_SETXATTR
  | _ => None
  end.

(** How many events of [w'] that came after those of [w] satisfy [p]. *)
Definition sent_since (p : event -> bool) (w w' : world) : nat :=
  List.length (List.filter p (skipn (List.length (w_trace w)) (w_trace w'))).

(** A daemon that does not implement an opcode: it answers ENOSYS. *)
Definition daemon_lacks (K : kernel) (op : fuse_opcode) : Prop :=
  forall n q, rq_op q = op -> ans_err (k_daemon K n q) = ENOSYS.

(** What a session may still send of an opcode: one request while the
    capability bit is set, none after. *)
Definition budget (op : fuse_opcode) (w : world) : nat :=
  if fuse_implemented (w_data w) (FSESS_NOIMPLBIT op) then 1%nat else 0%nat.

Definition within_budget (op : fuse_opcode) (w : world) (r : result * world)
  : Prop :=
  exists rest,
    w_trace (snd r) = w_trace w ++ rest
    /\ (List.length (List.filter (sends op) rest) + budget op (snd r)
        <= budget op w)%nat.

(** A daemon that implements nothing. *)
Definition bare_daemon (n : nat) (r : request) : answer := answer_err ENOSYS.

(** A kernel with another name cache. *)
Definition with_vncache (K : kernel)
    (cache : vnode -> componentname -> errno * option vnode) : kernel :=
  {| k_daemon := k_daemon K; k_helper := k_helper K;
     k_blanket_deny := k_blanket_deny K;
     k_skip_apple_double := k_skip_apple_double K;
     k_match_cred := k_match_cred K; k_nanouptime := k_nanouptime K;
     k_uiomove := k_uiomove K; k_vnode_authorize := k_vnode_authorize K;
     k_vncache_lookup := cache; k_vget := k_vget K;
     k_vnode_get := k_vnode_get K; k_vnode_getname := k_vnode_getname K;
     k_vat2fsai := k_vat2fsai K; k_uio_getiov := k_uio_getiov K;
     k_make_vp_canfail := k_make_vp_canfail K; k_mntonname := k_mntonname K;
     k_checkentry_errno := k_checkentry_errno K |}.

(** A daemon that finds no name. *)
Definition empty_daemon (n : nat) (r : request) : answer := answer_err ENOENT.

(** The calls of fsync into [fuse_internal_fsync]. *)
Definition is_fsync_call (e : event) : bool :=
  match e with
  | ev_call (fuse_internal_fsync _ _) => true
  | _ => false
  end.

(** * Theorems *)

(** ** Stepping through an operation *)

Arguments fuse_implemented : simpl never.
Arguments fuse_clear_implemented : simpl never.
Arguments FSESS_NOIMPLBIT : simpl never.
Arguments FUFH_IS_VALID : simpl never.
Arguments nz : simpl never.
Arguments i32 : simpl never.
Arguments u32 : simpl never.
Arguments IOCPARM_LEN : simpl never.
Arguments fuse_internal_checkentry : simpl never.

Ltac unfold_monad :=
  unfold vfs_call, run, fuse_vnode_operation_entries,
    CHECK_BLANKET_DENIAL, return_if, return_, skip, panic, hang, emit,
    get_data, modify_data, modify_mem, clear_implemented, get_uio, put_uio,
    put_vpp, put_size, put_out, get_world, mbind, vnop_bind, mret, vnop_ret in *.

Section Rmdir.

Variable K : kernel.

(** C10, as amended.  On a live file system where the blanket-denial hook
    admits the caller, an rmdir whose target vnode has the node data of the
    parent directory returns EINVAL and leaves the world as it was: nothing
    is purged from the name cache and FUSE_RMDIR is not sent. *)
Theorem rmdir_of_self_is_EINVAL :
  forall (dvp vp : vnode) (cnp : componentname) (context : vfs_context) (w : world),
    dead (w_data w) = false ->
    k_blanket_deny K vp context = false ->
    v_fsnode vp = v_fsnode dvp ->
    vfs_call K (vnop_rmdir dvp vp cnp context) w = (Returned EINVAL, w).
Proof.
  intros dvp vp cnp context w Hlive Hadmit Hsame.
  unfold vfs_call, fuse_vnode_operation_entries, fuse_vnop_rmdir, fuse_isdeadfs.
  unfold_monad; cbn.
  rewrite Hlive, Hadmit, Hsame, N.eqb_refl. reflexivity.
Qed.

End Rmdir.

(** ** What every operation preserves

    A relation between the world before and after that holds across every
    primitive step holds across every operation.  It is used twice below:
    for the capability map, whose bits are only cleared, and for the trace,
    which only grows. *)
Create HintDb preserves.

Section Preserves.

Variable K : kernel.
Variable R : world -> world -> Prop.

Hypothesis R_refl : forall w, R w w.
Hypothesis R_trans : forall a b c, R a b -> R b c -> R a c.
Hypothesis R_emit : forall w e, R w (with_trace w (w_trace w ++ [e])).
Hypothesis R_mem : forall w m, R w (with_mem w m).
Hypothesis R_nodes : forall w n, R w (with_nodes w n).
Hypothesis R_clear :
  forall w b, R w (with_data w (fuse_clear_implemented (w_data w) b)).
Hypothesis R_dead : forall w b, R w (with_data w (set_dead (w_data w) b)).
Hypothesis R_nosync :
  forall w b, R w (with_data w (set_no_syncwrites (w_data w) b)).

Definition preserves {A} (m : vnop A) : Prop := forall w, R w (snd (m w)).

Lemma preserves_ret {A} (a : A) : preserves (mret a).
Proof. intros w. apply R_refl. Qed.

Lemma preserves_return {A} e : preserves (@return_ A e).
Proof. intros w. apply R_refl. Qed.

Lemma preserves_panic {A} : preserves (@panic A).
Proof. intros w. apply R_refl. Qed.

Lemma preserves_hang {A} : preserves (@hang A).
Proof. intros w. apply R_refl. Qed.

Lemma preserves_skip : preserves skip.
Proof. intros w. apply R_refl. Qed.

Lemma preserves_bind {A B} (m : vnop A) (k : A -> vnop B) :
  preserves m -> (forall a, preserves (k a)) -> preserves (m ≫= k).
Proof.
  intros Hm Hk w. unfold mbind, vnop_bind.
  specialize (Hm w). destruct (m w) as [[a| | |] w']; simpl in *; auto.
  eapply R_trans; [exact Hm | apply Hk].
Qed.

Lemma preserves_emit e : preserves (emit e).
Proof. intros w. apply R_emit. Qed.

Lemma preserves_get_data : preserves get_data.
Proof. intros w. apply R_refl. Qed.

Lemma preserves_get_world : preserves get_world.
Proof. intros w. apply R_refl. Qed.

Lemma preserves_get_uio : preserves get_uio.
Proof. intros w. apply R_refl. Qed.

Lemma preserves_modify_mem f : preserves (modify_mem f).
Proof. intros w. apply R_mem. Qed.

Lemma preserves_clear_implemented b : preserves (clear_implemented b).
Proof. intros w. apply R_clear. Qed.

Lemma preserves_set_dead b : preserves (modify_data (fun d => set_dead d b)).
Proof. intros w. apply R_dead. Qed.

Lemma preserves_set_no_syncwrites b :
  preserves (modify_data (fun d => set_no_syncwrites d b)).
Proof. intros w. apply R_nosync. Qed.

Lemma preserves_VTOFUD vp : preserves (VTOFUD vp).
Proof. intros w. unfold VTOFUD. destruct (w_nodes w !! v_fsnode vp); apply R_refl. Qed.

Lemma preserves_VTOFUD_ptr vp : preserves (VTOFUD_ptr vp).
Proof. intros w. apply R_refl. Qed.

Lemma preserves_update_node vp f : preserves (update_node vp f).
Proof.
  intros w. unfold update_node.
  destruct (w_nodes w !! v_fsnode vp); simpl; [apply R_nodes | apply R_refl].
Qed.

Lemma preserves_delete_node vp : preserves (delete_node vp).
Proof. intros w. apply R_nodes. Qed.

Lemma preserves_wait_answer r : preserves (fuse_dispatcher_wait_answer K r).
Proof. intros w. apply R_emit. Qed.

Lemma R_clear_list l :
  forall w, R w (with_data w (fold_left fuse_clear_implemented l (w_data w))).
Proof.
  induction l as [|b l IH]; intros w; simpl.
  - destruct w; apply R_refl.
  - eapply R_trans; [apply (R_clear w b) |].
    specialize (IH (with_data w (fuse_clear_implemented (w_data w) b))).
    exact IH.
Qed.

Lemma preserves_call h : preserves (call K h).
Proof.
  intros w. unfold call; simpl.
  eapply R_trans; [apply (R_emit w (ev_call h)) |].
  apply (R_clear_list _ (with_trace w (w_trace w ++ [ev_call h]))).
Qed.

Lemma preserves_uiomove n : preserves (uiomove K n).
Proof.
  intros w. unfold uiomove.
  destruct (nz _); simpl; [apply R_refl | apply R_mem].
Qed.

Lemma preserves_vget feo dvp : preserves (fuse_vget_i K feo dvp).
Proof.
  intros w. unfold fuse_vget_i.
  destruct (k_vget K _ feo dvp) as [[e vp] fv].
  destruct (nz e); simpl; [apply R_refl | apply R_nodes].
Qed.

Lemma preserves_FSNodeGetOrCreateFileVNodeByID feo dvp :
  preserves (FSNodeGetOrCreateFileVNodeByID K feo dvp).
Proof.
  intros w. unfold FSNodeGetOrCreateFileVNodeByID.
  destruct (k_vget K _ feo dvp) as [[e vp] fv].
  destruct (nz e); simpl; [apply R_refl |].
  eapply R_trans; [apply R_nodes | apply R_mem].
Qed.

#[local] Hint Resolve preserves_ret preserves_return preserves_panic
  preserves_hang preserves_skip preserves_emit preserves_get_data
  preserves_get_world preserves_get_uio preserves_modify_mem
  preserves_clear_implemented preserves_set_dead preserves_set_no_syncwrites
  preserves_VTOFUD preserves_VTOFUD_ptr preserves_update_node
  preserves_delete_node preserves_wait_answer preserves_call preserves_uiomove
  preserves_vget preserves_FSNodeGetOrCreateFileVNodeByID : preserves.

(** Walk down the body of an operation. *)
Ltac preserves_walk :=
  repeat lazymatch goal with
    | |- preserves (mbind _ _) => apply preserves_bind; [ | intros ]
    | |- preserves (if ?c then _ else _) => destruct c
    | |- preserves (match ?x with _ => _ end) => destruct x
    | |- preserves _ => solve [ auto with preserves ]
    end.

Ltac preserves_def := intros; cbv zeta; preserves_walk.

Lemma preserves_return_if c e : preserves (return_if c e).
Proof. unfold return_if. preserves_def. Qed.
#[local] Hint Resolve preserves_return_if : preserves.

Lemma preserves_put_uio u : preserves (put_uio u).
Proof. unfold put_uio. preserves_def. Qed.
Lemma preserves_put_vpp v : preserves (put_vpp v).
Proof. unfold put_vpp. preserves_def. Qed.
Lemma preserves_put_size v : preserves (put_size v).
Proof. unfold put_size. preserves_def. Qed.
Lemma preserves_put_out v : preserves (put_out v).
Proof. unfold put_out. preserves_def. Qed.
#[local] Hint Resolve preserves_put_uio preserves_put_vpp preserves_put_size
  preserves_put_out : preserves.

Lemma preserves_VTOI vp : preserves (VTOI vp).
Proof. unfold VTOI. preserves_def. Qed.
Lemma preserves_get_fufh vp t : preserves (get_fufh vp t).
Proof. unfold get_fufh. preserves_def. Qed.
Lemma preserves_put_fufh vp t f : preserves (put_fufh vp t f).
Proof. unfold put_fufh. preserves_def. Qed.
Lemma preserves_fuse_isdirectio vp : preserves (fuse_isdirectio vp).
Proof. unfold fuse_isdirectio. preserves_def. Qed.
Lemma preserves_fuse_invalidate_attr vp : preserves (fuse_invalidate_attr vp).
Proof. unfold fuse_invalidate_attr. preserves_def. Qed.
Lemma preserves_cache_attrs vp a v : preserves (cache_attrs vp a v).
Proof. unfold cache_attrs. preserves_def. Qed.
#[local] Hint Resolve preserves_VTOI preserves_get_fufh preserves_put_fufh
  preserves_fuse_isdirectio preserves_fuse_invalidate_attr
  preserves_cache_attrs : preserves.

Lemma preserves_get_vap own vp : preserves (get_vap own vp).
Proof.
  unfold get_vap. destruct own; [preserves_def | intros w; apply R_refl].
Qed.
Lemma preserves_put_vap own vp v : preserves (put_vap own vp v).
Proof.
  unfold put_vap. destruct own; [preserves_def | intros w; apply R_mem].
Qed.
#[local] Hint Resolve preserves_get_vap preserves_put_vap : preserves.

Lemma preserves_loadvap own vp : preserves (fuse_internal_attr_loadvap own vp).
Proof. unfold fuse_internal_attr_loadvap. preserves_def. Qed.
Lemma preserves_CHECK_BLANKET_DENIAL vp c e :
  preserves (CHECK_BLANKET_DENIAL K vp c e).
Proof. unfold CHECK_BLANKET_DENIAL. preserves_def. Qed.
Lemma preserves_insert_message r : preserves (fuse_insert_message r).
Proof. unfold fuse_insert_message. preserves_def. Qed.
Lemma preserves_ticket_drop : preserves fuse_ticket_drop.
Proof. unfold fuse_ticket_drop. preserves_def. Qed.
#[local] Hint Resolve preserves_loadvap preserves_CHECK_BLANKET_DENIAL
  preserves_insert_message preserves_ticket_drop : preserves.

Lemma preserves_forget_send n c : preserves (fuse_internal_forget_send n c).
Proof. unfold fuse_internal_forget_send. preserves_def. Qed.
Lemma preserves_filehandle_get vp t m : preserves (fuse_filehandle_get K vp t m).
Proof. unfold fuse_filehandle_get. preserves_def. Qed.
Lemma preserves_filehandle_put vp t : preserves (fuse_filehandle_put K vp t).
Proof. unfold fuse_filehandle_put. preserves_def. Qed.
Lemma preserves_data_kill : preserves fuse_data_kill.
Proof. unfold fuse_data_kill. preserves_def. Qed.
#[local] Hint Resolve preserves_forget_send preserves_filehandle_get
  preserves_filehandle_put preserves_data_kill : preserves.

Lemma preserves_fsync_slots vp types : forall err, preserves (fsync_slots K vp types err).
Proof. induction types as [|t rest IH]; intros err; simpl; preserves_def. Qed.

Lemma preserves_inactive_slots vp types : preserves (inactive_slots K vp types).
Proof. induction types as [|t rest IH]; simpl; preserves_def. Qed.

Lemma preserves_reclaim_slots vp types : preserves (reclaim_slots K vp types).
Proof. induction types as [|t rest IH]; simpl; preserves_def. Qed.

Lemma preserves_read_loop fuel vp t : preserves (read_loop K fuel vp t).
Proof. induction fuel as [|fuel IH]; simpl; preserves_def. Qed.

Lemma preserves_write_loop fuel vp t : preserves (write_loop K fuel vp t).
Proof. induction fuel as [|fuel IH]; simpl; preserves_def. Qed.

Lemma preserves_xattr_copyout has_uio a : preserves (xattr_copyout K has_uio a).
Proof. unfold xattr_copyout. preserves_def. Qed.

Lemma preserves_mmap_pass vp t d : preserves (mmap_pass K vp t d).
Proof. unfold mmap_pass. preserves_def. Qed.

Lemma preserves_lookup_out dvp op nid l e1 e2 :
  preserves (lookup_out dvp op nid l e1 e2).
Proof. unfold lookup_out. preserves_def. Qed.

Lemma preserves_lookup_answered dvp cnp pdp op nid a :
  preserves (lookup_answered K dvp cnp pdp op nid a).
Proof.
  pose proof preserves_lookup_out.
  unfold lookup_answered. preserves_def.
Qed.

#[local] Hint Resolve preserves_fsync_slots preserves_inactive_slots
  preserves_reclaim_slots preserves_read_loop preserves_write_loop
  preserves_xattr_copyout preserves_mmap_pass preserves_lookup_out
  preserves_lookup_answered : preserves.

Lemma preserves_access vp action context :
  preserves (fuse_vnop_access K vp action context).
Proof. unfold fuse_vnop_access. preserves_def. Qed.

Lemma preserves_blktooff vp lblkno :
  preserves (fuse_vnop_blktooff vp lblkno).
Proof. unfold fuse_vnop_blktooff. preserves_def. Qed.

Lemma preserves_blockmap vp foffset size bpn run poff :
  preserves (fuse_vnop_blockmap vp foffset size bpn run poff).
Proof. unfold fuse_vnop_blockmap. preserves_def. Qed.

Lemma preserves_close vp fflag context :
  preserves (fuse_vnop_close K vp fflag context).
Proof. unfold fuse_vnop_close. preserves_def. Qed.

Lemma preserves_create dvp cnp vap context :
  preserves (fuse_vnop_create K dvp cnp vap context).
Proof. unfold fuse_vnop_create. preserves_def. Qed.

Lemma preserves_exchange fvp tvp options context :
  preserves (fuse_vnop_exchange K fvp tvp options context).
Proof. unfold fuse_vnop_exchange. preserves_def. Qed.

Lemma preserves_getattr vp own context :
  preserves (fuse_vnop_getattr K vp own context).
Proof. unfold fuse_vnop_getattr. preserves_def. Qed.

Lemma preserves_getxattr vp name has_uio context :
  preserves (fuse_vnop_getxattr K vp name has_uio context).
Proof. unfold fuse_vnop_getxattr. preserves_def. Qed.

Lemma preserves_ioctl vp command fflag context :
  preserves (fuse_vnop_ioctl K vp command fflag context).
Proof. unfold fuse_vnop_ioctl. preserves_def. Qed.

Lemma preserves_link vp tdvp cnp context :
  preserves (fuse_vnop_link K vp tdvp cnp context).
Proof. unfold fuse_vnop_link. preserves_def. Qed.

Lemma preserves_listxattr vp has_uio context :
  preserves (fuse_vnop_listxattr K vp has_uio context).
Proof. unfold fuse_vnop_listxattr. preserves_def. Qed.

Lemma preserves_lookup dvp cnp context :
  preserves (fuse_vnop_lookup K dvp cnp context).
Proof. unfold fuse_vnop_lookup. preserves_def. Qed.

Lemma preserves_mkdir dvp cnp vap context :
  preserves (fuse_vnop_mkdir K dvp cnp vap context).
Proof. unfold fuse_vnop_mkdir. preserves_def. Qed.

Lemma preserves_mknod dvp cnp vap context :
  preserves (fuse_vnop_mknod K dvp cnp vap context).
Proof. unfold fuse_vnop_mknod. preserves_def. Qed.

Lemma preserves_mmap vp fflags context :
  preserves (fuse_vnop_mmap K vp fflags context).
Proof. unfold fuse_vnop_mmap. preserves_def. Qed.

Lemma preserves_mnomap vp context :
  preserves (fuse_vnop_mnomap vp context).
Proof. unfold fuse_vnop_mnomap. preserves_def. Qed.

Lemma preserves_offtoblk vp offset :
  preserves (fuse_vnop_offtoblk vp offset).
Proof. unfold fuse_vnop_offtoblk. preserves_def. Qed.

Lemma preserves_open_ok vp fufh_type :
  preserves (fuse_vnop_open_ok K vp fufh_type).
Proof. unfold fuse_vnop_open_ok. preserves_def. Qed.
#[local] Hint Resolve preserves_open_ok : preserves.

Lemma preserves_open vp mode context :
  preserves (fuse_vnop_open K vp mode context).
Proof. unfold fuse_vnop_open. preserves_def. Qed.

Lemma preserves_pagein vp flags :
  preserves (fuse_vnop_pagein K vp flags).
Proof. unfold fuse_vnop_pagein. preserves_def. Qed.

Lemma preserves_pageout vp flags :
  preserves (fuse_vnop_pageout K vp flags).
Proof. unfold fuse_vnop_pageout. preserves_def. Qed.

Lemma preserves_pathconf vp name context :
  preserves (fuse_vnop_pathconf K vp name context).
Proof. unfold fuse_vnop_pathconf. preserves_def. Qed.

Lemma preserves_readdir vp flags context :
  preserves (fuse_vnop_readdir K vp flags context).
Proof. unfold fuse_vnop_readdir. preserves_def. Qed.

Lemma preserves_readlink vp context :
  preserves (fuse_vnop_readlink K vp context).
Proof. unfold fuse_vnop_readlink. preserves_def. Qed.

Lemma preserves_remove dvp vp cnp flags context :
  preserves (fuse_vnop_remove K dvp vp cnp flags context).
Proof. unfold fuse_vnop_remove. preserves_def. Qed.

Lemma preserves_removexattr vp name context :
  preserves (fuse_vnop_removexattr K vp name context).
Proof. unfold fuse_vnop_removexattr. preserves_def. Qed.

Lemma preserves_rename fdvp fvp tdvp tvp context :
  preserves (fuse_vnop_rename K fdvp fvp tdvp tvp context).
Proof. unfold fuse_vnop_rename. preserves_def. Qed.

Lemma preserves_rmdir dvp vp cnp context :
  preserves (fuse_vnop_rmdir K dvp vp cnp context).
Proof. unfold fuse_vnop_rmdir. preserves_def. Qed.

Lemma preserves_setattr vp vap context :
  preserves (fuse_vnop_setattr K vp vap context).
Proof. unfold fuse_vnop_setattr. preserves_def. Qed.

Lemma preserves_setxattr vp name options context :
  preserves (fuse_vnop_setxattr K vp name options context).
Proof. unfold fuse_vnop_setxattr. preserves_def. Qed.

Lemma preserves_strategy vp :
  preserves (fuse_vnop_strategy K vp).
Proof. unfold fuse_vnop_strategy. preserves_def. Qed.

Lemma preserves_symlink dvp cnp target context :
  preserves (fuse_vnop_symlink K dvp cnp target context).
Proof. unfold fuse_vnop_symlink. preserves_def. Qed.

Lemma preserves_fsync vp waitfor context :
  preserves (fuse_vnop_fsync K vp waitfor context).
Proof. unfold fuse_vnop_fsync. preserves_def. Qed.

Lemma preserves_inactive vp context : preserves (fuse_vnop_inactive K vp context).
Proof. unfold fuse_vnop_inactive. preserves_def. Qed.

Lemma preserves_reclaim vp context : preserves (fuse_vnop_reclaim K vp context).
Proof. unfold fuse_vnop_reclaim. preserves_def. Qed.

Lemma preserves_read fuel vp ioflag context :
  preserves (fuse_vnop_read K fuel vp ioflag context).
Proof. unfold fuse_vnop_read. preserves_def. Qed.

Lemma preserves_write fuel vp ioflag context :
  preserves (fuse_vnop_write K fuel vp ioflag context).
Proof. unfold fuse_vnop_write. preserves_def. Qed.

Lemma preserves_select : preserves fuse_vnop_select.
Proof. unfold fuse_vnop_select. preserves_def. Qed.

(** Every entry of the operation vector preserves the relation. *)
Lemma preserves_operation (c : vnop_call) :
  preserves (fuse_vnode_operation_entries K c).
Proof.
  destruct c; simpl;
    auto using preserves_access, preserves_blktooff, preserves_blockmap,
      preserves_close, preserves_create, preserves_exchange, preserves_fsync,
      preserves_getattr, preserves_getxattr, preserves_inactive,
      preserves_ioctl, preserves_link, preserves_listxattr, preserves_lookup,
      preserves_mkdir, preserves_mknod, preserves_mmap, preserves_mnomap,
      preserves_offtoblk, preserves_open, preserves_pagein, preserves_pageout,
      preserves_pathconf, preserves_read, preserves_readdir,
      preserves_readlink, preserves_reclaim, preserves_remove,
      preserves_removexattr, preserves_rename, preserves_rmdir,
      preserves_select, preserves_setattr, preserves_setxattr,
      preserves_strategy, preserves_symlink, preserves_write.
Qed.

Lemma preserves_vfs_call (c : vnop_call) (w : world) :
  R w (snd (vfs_call K c w)).
Proof.
  unfold vfs_call, run.
  pose proof (preserves_operation c w) as H.
  destruct (fuse_vnode_operation_entries K c w) as [[e|e| |] w']; exact H.
Qed.

End Preserves.

(** ** The capability map *)

Lemma caps_only_cleared_refl w : caps_only_cleared w w.
Proof. intros which H; exact H. Qed.

Lemma caps_only_cleared_trans a b c :
  caps_only_cleared a b -> caps_only_cleared b c -> caps_only_cleared a c.
Proof. intros Hab Hbc which H. apply Hab, Hbc, H. Qed.

Lemma clear_only_clears d b which :
  fuse_implemented (fuse_clear_implemented d b) which = true ->
  fuse_implemented d which = true.
Proof.
  unfold fuse_implemented, fuse_clear_implemented, set_capmap; simpl.
  unfold Z.clearbit. rewrite Z.ldiff_spec.
  intros H. apply andb_true_iff in H. tauto.
Qed.

Lemma vfs_call_caps K c w : caps_only_cleared w (snd (vfs_call K c w)).
Proof.
  apply (preserves_vfs_call K caps_only_cleared).
  - apply caps_only_cleared_refl.
  - apply caps_only_cleared_trans.
  - intros w0 e which H; exact H.
  - intros w0 m which H; exact H.
  - intros w0 n which H; exact H.
  - intros w0 b which H. simpl in H. eapply clear_only_clears; eauto.
  - intros w0 b which H; exact H.
  - intros w0 b which H; exact H.
Qed.

Lemma vfs_calls_caps K calls : forall w, caps_only_cleared w (vfs_calls K calls w).
Proof.
  induction calls as [|c calls IH]; intros w; simpl.
  - apply caps_only_cleared_refl.
  - eapply caps_only_cleared_trans; [apply vfs_call_caps | apply IH].
Qed.

(** C3.  No vnode operation sets a bit of the capability map: after any
    call the map has only bits it had before, and so a bit that is cleared
    stays cleared over every sequence of calls on the session. *)
Theorem capability_bit_stays_cleared :
  forall (K : kernel) (calls : list vnop_call) (w : world) (op : fuse_opcode),
    fuse_implemented (w_data w) (FSESS_NOIMPLBIT op) = false ->
    fuse_implemented (w_data (vfs_calls K calls w)) (FSESS_NOIMPLBIT op) = false
    /\ (forall c w0, caps_only_cleared w0 (snd (vfs_call K c w0))).
Proof.
  intros K calls w op Hcleared. split.
  - destruct (fuse_implemented (w_data (vfs_calls K calls w)) (FSESS_NOIMPLBIT op))
      eqn:E; [| reflexivity].
    apply (vfs_calls_caps K calls w) in E. congruence.
  - intros c w0. apply vfs_call_caps.
Qed.

Lemma capability_bit_stays_cleared_witness :
  let K := mk_kernel legacy_daemon false in
  let create := vnop_create dir_vnode (cn "f" CREATE ISLASTCN) (reg_attr 420)
                  user_context in
  let w1 := snd (vfs_call K create live_world) in
  fuse_implemented (w_data live_world) (FSESS_NOIMPLBIT FUSE_CREATE) = true
  /\ fuse_implemented (w_data w1) (FSESS_NOIMPLBIT FUSE_CREATE) = false
  /\ fuse_implemented
       (w_data (vfs_calls K [create; vnop_open file_vnode FREAD user_context;
                             vnop_close file_vnode FREAD user_context] w1))
       (FSESS_NOIMPLBIT FUSE_CREATE) = false.
Proof.
  intros K create w1. split; [vm_compute; reflexivity |].
  split; [vm_compute; reflexivity |].
  apply (capability_bit_stays_cleared K). vm_compute; reflexivity.
Defined.

(** ** rmdir *)

Lemma rmdir_of_self_witness :
  let K := mk_kernel legacy_daemon false in
  dead (w_data live_world) = false
  /\ k_blanket_deny K dir_vnode user_context = false
  /\ vfs_call K (vnop_rmdir dir_vnode dir_vnode (cn "." DELETE ISLASTCN) user_context)
       live_world = (Returned EINVAL, live_world).
Proof.
  intros K. split; [reflexivity |]. split; [reflexivity |].
  apply (rmdir_of_self_is_EINVAL K); reflexivity.
Defined.

(** C10 as it is written fails: when the blanket-denial hook turns the
    caller away, the rmdir of a directory through itself returns ENOENT. *)
Lemma rmdir_of_self_denied :
  ~ rmdir_claim_as_stated.
Proof.
  intros H.
  specialize (H (mk_kernel legacy_daemon true) dir_vnode dir_vnode
                (cn "." DELETE ISLASTCN) user_context live_world
                eq_refl eq_refl).
  vm_compute in H. discriminate H.
Qed.

(** ** The trace only grows *)

Lemma trace_extends_refl w : trace_extends w w.
Proof. exists []. symmetry; apply app_nil_r. Qed.

Lemma trace_extends_trans a b c :
  trace_extends a b -> trace_extends b c -> trace_extends a c.
Proof.
  intros [e1 H1] [e2 H2]. exists (e1 ++ e2).
  rewrite H2, H1. symmetry; apply app_assoc.
Qed.

(** Instantiate a preservation lemma of the section above at the growth of
    the trace. *)
Ltac by_trace_extends lem :=
  apply lem;
  first [ apply trace_extends_refl
        | apply trace_extends_trans
        | intros ? e; exists [e]; reflexivity
        | intros ? ?; exists []; simpl; symmetry; apply app_nil_r ].

Lemma vfs_call_trace_extends K c w : trace_extends w (snd (vfs_call K c w)).
Proof. by_trace_extends (preserves_vfs_call K trace_extends). Qed.

Lemma lookup_answered_trace_extends K dvp cnp pdp op nid a w :
  trace_extends w (snd (lookup_answered K dvp cnp pdp op nid a w)).
Proof.
  revert w. change (preserves trace_extends (lookup_answered K dvp cnp pdp op nid a)).
  by_trace_extends (preserves_lookup_answered K trace_extends).
Qed.

(** ** lookup *)

Lemma snd_run m w : snd (run m w) = snd (m w).
Proof. unfold run. destruct (m w) as [[e|e| |] w']; reflexivity. Qed.

(** C9, as amended.  For a lookup that passes the checks made before the
    one on the length (live session, name not filtered as Apple-double,
    parent a directory, not a modifying last-component lookup on a
    read-only mount): a name longer than 255 bytes makes it return
    ENAMETOOLONG with nothing sent to the daemon, the world being as before
    but for the cleared result pointer; a name of 255 bytes passes, the
    LOOKUP request with that name going out when the name cache has no
    say. *)
Theorem lookup_name_length :
  forall (K : kernel) (dvp : vnode) (cnp : componentname)
         (context : vfs_context) (w : world),
    dead (w_data w) = false ->
    k_skip_apple_double K (v_mount dvp) (cn_nameptr cnp) (cn_namelen cnp) = false ->
    vnode_isdir dvp = true ->
    nz (Z.land (cn_flags cnp) ISLASTCN) && mnt_rdonly (v_mount dvp)
      && negb (nameiop_eqb (cn_nameiop cnp) LOOKUP) = false ->
    (FUSE_MAXNAMLEN < cn_namelen cnp ->
     vfs_call K (vnop_lookup dvp cnp context) w
     = (Returned ENAMETOOLONG, with_mem w (mem_set_vpp (w_mem w) None)))
    /\ (cn_namelen cnp = FUSE_MAXNAMLEN ->
        forall fvd,
          w_nodes w !! v_fsnode dvp = Some fvd ->
          Z.land (cn_flags cnp) ISDOTDOT = 0 ->
          no_vncache (w_data w) = true \/ fst (k_vncache_lookup K dvp cnp) = 0 ->
          exists rest,
            w_trace (snd (vfs_call K (vnop_lookup dvp cnp context) w))
            = w_trace w
              ++ ev_wait_answer {| rq_op := FUSE_LOOKUP; rq_nodeid := nodeid fvd;
                                   rq_in := in_name (cn_name cnp) |} :: rest).
Proof.
  intros K dvp cnp context w Hlive Happle Hdir Hro. split.
  - intros Hlong.
    unfold vfs_call, fuse_vnode_operation_entries, fuse_vnop_lookup, fuse_isdeadfs.
    unfold_monad; cbn.
    rewrite Hlive, Happle, Hdir, Hro; cbn.
    apply Z.ltb_lt in Hlong. rewrite Hlong. reflexivity.
  - intros Hlen fvd Hnode Hdd Hcache.
    unfold vfs_call. rewrite snd_run.
    unfold fuse_vnode_operation_entries, fuse_vnop_lookup, fuse_isdeadfs.
    unfold_monad; cbn.
    rewrite Hlive, Happle, Hdir, Hro; cbn.
    rewrite Hlen, Hdd. change (nz 0) with false. cbn. rewrite andb_false_r.
    assert (Hend : forall w0 pdp a,
               w_trace w0 = w_trace w ->
               exists rest,
                 w_trace (snd (lookup_answered K dvp cnp pdp FUSE_LOOKUP (nodeid fvd) a
                            (with_trace w0
                               (w_trace w0 ++
                                [ev_wait_answer
                                   {| rq_op := FUSE_LOOKUP; rq_nodeid := nodeid fvd;
                                      rq_in := in_name (cn_name cnp) |}]))))
                 = w_trace w
                   ++ ev_wait_answer {| rq_op := FUSE_LOOKUP; rq_nodeid := nodeid fvd;
                                        rq_in := in_name (cn_name cnp) |} :: rest).
    { intros w0 pdp a Hw0.
      destruct (lookup_answered_trace_extends K dvp cnp pdp FUSE_LOOKUP (nodeid fvd) a
                  (with_trace w0
                     (w_trace w0 ++
                      [ev_wait_answer
                         {| rq_op := FUSE_LOOKUP; rq_nodeid := nodeid fvd;
                            rq_in := in_name (cn_name cnp) |}]))) as [evs Hevs].
      exists evs. rewrite Hevs; simpl. rewrite Hw0, <- app_assoc. reflexivity. }
    destruct (no_vncache (w_data w)) eqn:Hnc.
    + unfold VTOFUD; cbn. rewrite Hnode; cbn.
      match goal with |- context [with_trace ?w0 _] => apply (Hend w0) end.
      reflexivity.
    + destruct Hcache as [Hc | Hc]; [discriminate |].
      destruct (k_vncache_lookup K dvp cnp) as [e hit]; simpl in Hc; subst e; cbn.
      unfold VTOFUD; cbn. rewrite Hnode; cbn.
      match goal with |- context [with_trace ?w0 _] => apply (Hend w0) end.
      reflexivity.
Qed.

Lemma lookup_name_length_witness :
  let K := mk_kernel finding_daemon false in
  vfs_call K (vnop_lookup dir_vnode (cn name256 LOOKUP ISLASTCN) user_context)
    live_world
  = (Returned ENAMETOOLONG, live_world)
  /\ exists rest,
       w_trace (snd (vfs_call K (vnop_lookup dir_vnode (cn name255 LOOKUP ISLASTCN)
                                   user_context) live_world))
       = ev_wait_answer {| rq_op := FUSE_LOOKUP; rq_nodeid := 2;
                           rq_in := in_name name255 |} :: rest.
Proof.
  intros K.
  pose proof (lookup_name_length K dir_vnode (cn name256 LOOKUP ISLASTCN)
                user_context live_world eq_refl eq_refl eq_refl eq_refl) as [H _].
  pose proof (lookup_name_length K dir_vnode (cn name255 LOOKUP ISLASTCN)
                user_context live_world eq_refl eq_refl eq_refl eq_refl) as [_ H'].
  split.
  - apply H. vm_compute. reflexivity.
  - apply (H' eq_refl (closed_node 2)); [reflexivity | reflexivity |].
    right; reflexivity.
Defined.

(** The lookup of a 255-byte name goes through to its end. *)
Example lookup_name255_succeeds :
  fst (vfs_call (mk_kernel finding_daemon false)
         (vnop_lookup dir_vnode (cn name255 LOOKUP ISLASTCN) user_context)
         live_world) = Returned 0.
Proof. vm_compute. reflexivity. Qed.

(** C9 as it is written fails: on a read-only mount the creating lookup of
    a name of 256 bytes returns EROFS, the check before the one on the
    length. *)
Lemma lookup_long_name_rdonly :
  ~ lookup_claim_as_stated.
Proof.
  intros H.
  destruct (H (mk_kernel finding_daemon false) rdonly_dir
              (cn name256 CREATE ISLASTCN) user_context live_world) as [H1 _].
  - vm_compute. reflexivity.
  - vm_compute in H1. discriminate H1.
Qed.

(** ** ioctl *)









(** ** Symbolic execution *)

Ltac vnodes :=
  repeat first
    [ rewrite lookup_insert_eq
    | match goal with
      | H : ?m !! ?k = _ |- context [?m !! ?k] => rewrite H
      | H : nz ?x = _ |- context [nz ?x] => rewrite H
      | |- context [nz ?x] =>
          let v := eval vm_compute in (nz x) in
          match v with
          | true => change (nz x) with true
          | false => change (nz x) with false
          end
      end ].

Ltac vsimpl := repeat (progress (cbn; vnodes)).

Ltac unfold_prims :=
  unfold fuse_internal_attr_loadvap, get_fufh, put_fufh, VTOI, fuse_isdirectio,
    fuse_invalidate_attr, cache_attrs, get_vap, put_vap,
    fuse_internal_forget_send, fuse_insert_message, fuse_ticket_drop,
    fuse_data_kill, fuse_isdeadfs in *;
  unfold VTOFUD, VTOFUD_ptr, update_node, delete_node,
    fuse_dispatcher_wait_answer in *.

Ltac unfold_ops :=
  unfold fuse_vnop_access, fuse_vnop_blktooff, fuse_vnop_blockmap,
    fuse_vnop_close, fuse_vnop_create, fuse_vnop_exchange, fuse_vnop_fsync,
    fuse_vnop_getattr, fuse_vnop_getxattr, fuse_vnop_inactive,
    fuse_vnop_ioctl, fuse_vnop_link, fuse_vnop_listxattr, fuse_vnop_lookup,
    fuse_vnop_mkdir, fuse_vnop_mknod, fuse_vnop_mmap, fuse_vnop_mnomap,
    fuse_vnop_offtoblk, fuse_vnop_open, fuse_vnop_pagein, fuse_vnop_pageout,
    fuse_vnop_pathconf, fuse_vnop_read, fuse_vnop_readdir, fuse_vnop_readlink,
    fuse_vnop_reclaim, fuse_vnop_remove, fuse_vnop_removexattr,
    fuse_vnop_rename, fuse_vnop_rmdir, fuse_vnop_select, fuse_vnop_setattr,
    fuse_vnop_setxattr, fuse_vnop_strategy, fuse_vnop_symlink,
    fuse_vnop_write in *.

(** ** The dead session *)

Ltac dead_finish :=
  split;
  [ reflexivity
  | intros _; unfold requests; cbn; rewrite ?List.filter_app; cbn;
    rewrite ?app_nil_r; reflexivity ].

Lemma inactive_slots_returns K vp types :
  forall w, has_node w vp ->
    exists w', inactive_slots K vp types w = (Next tt, w') /\ has_node w' vp.
Proof.
  induction types as [|t rest IH]; intros w [fv Hnode]; simpl.
  - exists w. split; [reflexivity | exists fv; exact Hnode].
  - unfold fuse_filehandle_put. unfold_prims. unfold_monad. vsimpl.
    destruct (FUFH_IS_VALID (fufh fv t)); vsimpl.
    + destruct (nz _); vsimpl; apply IH; eexists; vsimpl; reflexivity.
    + apply IH. exists fv; exact Hnode.
Qed.

Lemma inactive_slots_resets K vp types :
  forall w fv,
    w_nodes w !! v_fsnode vp = Some fv ->
    exists w' fv',
      inactive_slots K vp types w = (Next tt, w')
      /\ w_nodes w' !! v_fsnode vp = Some fv'
      /\ forall t,
           open_count (fufh fv' t)
           = if existsb (fufh_type_eqb t) types then inactive_slot fv t
             else open_count (fufh fv t).
Proof.
  induction types as [|t0 rest IH]; intros w fv Hnode; simpl.
  - exists w, fv. split; [reflexivity |]. split; [exact Hnode | reflexivity].
  - unfold fuse_filehandle_put. unfold_prims. unfold_monad. vsimpl.
    destruct (FUFH_IS_VALID (fufh fv t0)) eqn:Hv; vsimpl.
    + destruct (nz _); vsimpl.
      all: match goal with
           | |- context [inactive_slots _ _ _ ?w1] =>
               edestruct (IH w1) as (w' & fv' & Hrun & Hn & Hc);
                 [vsimpl; reflexivity |]
           end.
      all: rewrite Hrun; exists w', fv'.
      all: split; [reflexivity |]; split; [exact Hn |].
      all: intros t; rewrite Hc; unfold inactive_slot.
      all: destruct (existsb (fufh_type_eqb t) rest).
      all: destruct t, t0; cbn in *; rewrite ?Hv; try reflexivity.
      all: unfold FUFH_IS_VALID; cbn; try reflexivity.
    + destruct (IH w fv Hnode) as (w' & fv' & Hrun & Hn & Hc).
      rewrite Hrun; exists w', fv'.
      split; [reflexivity |]; split; [exact Hn |].
      intros t; rewrite Hc; unfold inactive_slot.
      destruct (existsb (fufh_type_eqb t) rest);
        destruct t, t0; cbn in *; rewrite ?Hv; reflexivity.
Qed.

Lemma dead_effects K c w :
  dead (w_data w) = true ->
  Forall (has_node w) (call_vnodes c) ->
  dead_effect c w (snd (vfs_call K c w)).
Proof.
  intros Hdead Hnodes.
  destruct c; try (simpl; exact I); simpl in Hnodes |- *.
  - (* getattr *)
    apply Forall_cons in Hnodes; destruct Hnodes as [[fv Hnode] _].
    intros Hroot.
    unfold vfs_call, fuse_vnode_operation_entries, fuse_vnop_getattr, read_vap.
    unfold_prims; unfold_monad; vsimpl. rewrite Hdead, Hroot.
    destruct own; vsimpl; reflexivity.
  - (* inactive *)
    intros fv Hnode.
    unfold vfs_call, fuse_vnode_operation_entries, fuse_vnop_inactive.
    unfold_monad.
    destruct (inactive_slots_resets K vp FUFH_MAXTYPE w fv Hnode)
      as (w' & fv' & Hrun & Hn & Hc).
    rewrite Hrun. cbn. exists fv'. split; [exact Hn |].
    intros t. rewrite Hc. destruct t; reflexivity.
Qed.

Lemma dead_results (K : kernel) (c : vnop_call) (w : world) :
  dead (w_data w) = true ->
  Forall (has_node w) (call_vnodes c) ->
  fst (vfs_call K c w) = dead_result c w
  /\ (is_inactive c = false -> requests (snd (vfs_call K c w)) = requests w).
Proof.
  intros Hdead Hnodes.
  destruct c; simpl in Hnodes |- *;
    unfold vfs_call, fuse_vnode_operation_entries.
  all: try (apply Forall_cons in Hnodes; destruct Hnodes as [[fvd Hnode] _]).
  all: try solve [
    unfold_ops; unfold_prims; unfold_monad; vsimpl; rewrite ?Hdead; vsimpl;
    repeat match goal with
      | |- context [if ?b then _ else _] => destruct b; vsimpl
      end;
    dead_finish ].
  - (* inactive *)
    unfold_ops; unfold_monad.
    destruct (inactive_slots_returns K vp FUFH_MAXTYPE w) as (w' & Hrun & _);
      [exists fvd; exact Hnode |].
    rewrite Hrun. split; [reflexivity | discriminate].
  - (* strategy *)
    unfold_ops; unfold_prims; unfold_monad.
    destruct vp as [vp|]; vsimpl; rewrite ?Hdead; vsimpl; dead_finish.
Qed.

(** C4, as amended.  On a dead session an operation returns what
    [dead_result] says: ENXIO, but 0 from close, fsync, inactive, reclaim
    and mnomap, 0 from access and getattr on the root vnode and from read
    on a character device, ENOTSUP from pagein and pageout, 1 from select,
    and from exchange (as built with FUSE4X_ENABLE_EXCHANGE) the error of
    the argument checks it makes first.  No operation hands a request to
    the daemon, inactive apart: it has no check for a dead session, sets
    the count of every slot that is valid to 0 and gives the handle to
    [fuse_filehandle_put].  getattr on the root vnode leaves the
    fabricated attributes in the buffer of the call. *)
Theorem dead_session_results :
  forall (K : kernel) (c : vnop_call) (w : world),
    dead (w_data w) = true ->
    Forall (has_node w) (call_vnodes c) ->
    fst (vfs_call K c w) = dead_result c w
    /\ (is_inactive c = false -> requests (snd (vfs_call K c w)) = requests w)
    /\ dead_effect c w (snd (vfs_call K c w)).
Proof.
  intros K c w Hdead Hnodes.
  destruct (dead_results K c w Hdead Hnodes) as [Hres Hreq].
  split; [exact Hres |]. split; [exact Hreq |].
  apply dead_effects; assumption.
Qed.

(** C4 as it is written fails: mnomap on a dead session returns 0, and it
    is not among the exceptions named. *)
Lemma dead_mnomap_returns_zero :
  ~ dead_claim_as_stated.
Proof.
  intros H.
  specialize (H (mk_kernel legacy_daemon false)
                (vnop_mnomap file_vnode user_context) dead_world eq_refl
                ltac:(constructor)).
  simpl in H. destruct H as [H _]. vm_compute in H. discriminate H.
Qed.

Lemma dead_session_results_witness :
  let K := mk_kernel legacy_daemon false in
  let wd := mk_world (mk_data true true capmap_all) [(3%N, rdwr_node)] uio0 in
  dead (w_data dead_world) = true
  /\ fst (vfs_call K (vnop_getattr root_vnode false user_context) dead_world)
     = Returned 0
  /\ fst (vfs_call K (vnop_open file_vnode FREAD user_context) dead_world)
     = Returned ENXIO
  /\ requests (snd (vfs_call K (vnop_open file_vnode FREAD user_context) dead_world))
     = []
  /\ open_count (fufh rdwr_node FUFH_RDWR) = 1
  /\ slot_count (snd (vfs_call K (vnop_inactive file_vnode user_context) wd))
       file_vnode FUFH_RDWR
     = Some 0.
Proof.
  intros K wd. split; [reflexivity |].
  split; [| split; [| split; [| split; [reflexivity |]]]].
  - apply (dead_session_results K (vnop_getattr root_vnode false user_context)
             dead_world eq_refl).
    repeat constructor. exists (closed_node 1). reflexivity.
  - apply (dead_session_results K (vnop_open file_vnode FREAD user_context)
             dead_world eq_refl). constructor.
  - apply (dead_session_results K (vnop_open file_vnode FREAD user_context)
             dead_world eq_refl); [constructor | reflexivity].
  - destruct (dead_session_results K (vnop_inactive file_vnode user_context)
                wd eq_refl) as (_ & _ & H).
    + repeat constructor. exists rdwr_node. reflexivity.
    + destruct (H rdwr_node eq_refl) as (fv' & Hn & Hc).
      unfold slot_count. rewrite Hn. exact (f_equal Some (Hc FUFH_RDWR)).
Defined.

(** The other exceptions, on the sample dead session. *)
Example dead_exceptions :
  let K := mk_kernel legacy_daemon false in
  fst (vfs_call K (vnop_getattr root_vnode false user_context) dead_world) = Returned 0
  /\ m_vap (w_mem (snd (vfs_call K (vnop_getattr root_vnode false user_context)
                          dead_world)))
     = {| va_supported := Z.lor (Z.lor (Z.lor (va_bit F_va_type) (va_bit F_va_uid))
                                  (va_bit F_va_gid)) (va_bit F_va_mode);
          va_type := VDIR; va_mode := S_IRWXU; va_uid := 501; va_gid := 20;
          va_nlink := 0; va_rdev := 0; va_data_size := 0 |}
  /\ fst (vfs_call K (vnop_read 1 (mk_vnode 4 VCHR false) 0 user_context) dead_world)
     = Returned 0
  /\ fst (vfs_call K (vnop_pagein file_vnode 0) dead_world) = Returned ENOTSUP
  /\ fst (vfs_call K (vnop_pageout file_vnode 0) dead_world) = Returned ENOTSUP
  /\ fst (vfs_call K vnop_select dead_world) = Returned 1
  /\ fst (vfs_call K (vnop_exchange file_vnode file_vnode 0 user_context) dead_world)
     = Returned EINVAL.
Proof. vm_compute. repeat split; reflexivity. Qed.

(** ** getattr *)

(** C8, as amended.  getattr on the root vnode returns 0 with the
    fabricated attributes (type of the vnode, uid and gid of the daemon,
    mode S_IRWXU) when the session is dead, and, on a live session, when
    the call passes the blanket-denial hook, finds the cached attributes
    out of date and either the session is uninitialized or the GETATTR
    sent to the daemon fails with ENOTCONN.  On a vnode that is not the
    root the same cases give the error: ENXIO on a dead session, ENOTCONN
    otherwise. *)
Theorem getattr_fabricates_on_root :
  forall (K : kernel) (vp : vnode) (own : bool) (context : vfs_context)
         (w : world) (fv : fuse_vnode_data),
    w_nodes w !! v_fsnode vp = Some fv ->
    let a := k_daemon K (List.length (w_trace w))
               {| rq_op := FUSE_GETATTR; rq_nodeid := nodeid fv; rq_in := in_empty |} in
    let w' := snd (vfs_call K (vnop_getattr vp own context) w) in
    let res := fst (vfs_call K (vnop_getattr vp own context) w) in
    dead (w_data w) = true
    \/ (dead (w_data w) = false
        /\ (if v_isvroot vp && ctx_issuser context then true
            else negb (k_blanket_deny K vp context)) = true
        /\ attr_valid fv < k_nanouptime K (List.length (w_trace w))
        /\ (inited (w_data w) = false
            \/ (inited (w_data w) = true /\ ans_err a = ENOTCONN))) ->
    (v_isvroot vp = true ->
     res = Returned 0
     /\ read_vap own vp w' = Some (fabricated_attr (w_data w) vp))
    /\ (v_isvroot vp = false ->
        res = Returned (if dead (w_data w) then ENXIO else ENOTCONN)).
Proof.
  intros K vp own context w fv Hnode a w' res Hcase.
  subst w' res. unfold vfs_call, fuse_vnode_operation_entries, fuse_vnop_getattr.
  unfold read_vap, CHECK_BLANKET_DENIAL.
  destruct Hcase as [Hdead | (Hlive & Hadmit & Hstale & Hcase)].
  - rewrite Hdead. unfold_prims; unfold_monad; vsimpl. rewrite Hdead.
    split; intros Hroot; rewrite Hroot; [| reflexivity].
    destruct own; vsimpl; split; reflexivity.
  - rewrite Hlive. apply Z.leb_gt in Hstale.
    unfold_prims; unfold_monad; vsimpl. rewrite Hlive.
    destruct (v_isvroot vp) eqn:Hroot; destruct (ctx_issuser context) eqn:Hsu;
      destruct (k_blanket_deny K vp context) eqn:Hbd;
      simpl in Hadmit; try discriminate Hadmit;
      vsimpl; rewrite Hstale;
      (split; intros Hr; try discriminate Hr);
      (destruct Hcase as [Huninit | [Hinit Herr]];
       [ rewrite Huninit | rewrite Hinit; vsimpl; fold a; rewrite Herr ]);
      vsimpl; try reflexivity;
      destruct own; vsimpl; split; reflexivity.
Qed.

Lemma getattr_fabricates_on_root_witness :
  let K := mk_kernel gone_daemon false in
  let c := vnop_getattr root_vnode false user_context in
  dead (w_data live_world) = false
  /\ fst (vfs_call K c live_world) = Returned 0
  /\ m_vap (w_mem (snd (vfs_call K c live_world)))
     = fabricated_attr (w_data live_world) root_vnode.
Proof.
  intros K c. split; [reflexivity |].
  destruct (getattr_fabricates_on_root K root_vnode false user_context live_world
              (closed_node 1) eq_refl) as [H _].
  - right. split; [reflexivity |]. split; [reflexivity |].
    split; [vm_compute; reflexivity |]. right. split; reflexivity.
  - destruct (H eq_refl) as [H1 H2]. split; [exact H1 |].
    exact (f_equal (fun o => match o with Some v => v | None => vattr_zero end) H2).
Defined.

(** C8 as it is written fails: on an uninitialized session the
    blanket-denial hook comes first, and a caller it turns away gets ENOENT
    for the root vnode, not fabricated attributes. *)
Lemma getattr_uninitialized_root_denied :
  ~ getattr_claim_as_stated.
Proof.
  intros H.
  destruct (H (mk_kernel gone_daemon true) root_vnode false user_context
              uninit_world eq_refl) as [H1 _].
  - exists (closed_node 1). reflexivity.
  - right. reflexivity.
  - vm_compute in H1. discriminate H1.
Qed.

(** ** mmap *)

Lemma mmap_flags_without_protection (fflags : Z) :
  Z.land fflags (Z.lor (Z.lor PROT_READ PROT_WRITE) PROT_EXEC) = 0 ->
  fuse_filehandle_xlate_from_mmap fflags = None.
Proof.
  intros H. unfold fuse_filehandle_xlate_from_mmap.
  assert (H2 : Z.land fflags PROT_WRITE = 0).
  { change PROT_WRITE
      with (Z.land (Z.lor (Z.lor PROT_READ PROT_WRITE) PROT_EXEC) PROT_WRITE).
    rewrite Z.land_assoc, H. reflexivity. }
  assert (H5 : Z.land fflags (Z.lor PROT_READ PROT_EXEC) = 0).
  { change (Z.lor PROT_READ PROT_EXEC)
      with (Z.land (Z.lor (Z.lor PROT_READ PROT_WRITE) PROT_EXEC)
              (Z.lor PROT_READ PROT_EXEC)).
    rewrite Z.land_assoc, H. reflexivity. }
  rewrite H2, H5. reflexivity.
Qed.

(** What mmap does on a live vnode that is not direct-I/O, for a caller the
    blanket-denial hook admits: with any protection bit set it returns 0 at
    its "nothing to do" test and leaves the world as it was; with none set
    it runs into the panic of the translation of the flags.  The code that
    acquires the handle is never reached. *)
Lemma mmap_never_acquires :
  forall (K : kernel) (vp : vnode) (fflags : Z) (context : vfs_context)
         (w : world) (fv : fuse_vnode_data),
    dead (w_data w) = false ->
    w_nodes w !! v_fsnode vp = Some fv ->
    direct_io fv = false ->
    k_blanket_deny K vp context = false ->
    vfs_call K (vnop_mmap vp fflags context) w
    = (if nz (Z.land fflags (Z.lor (Z.lor PROT_READ PROT_WRITE) PROT_EXEC))
       then Returned 0 else Panicked, w).
Proof.
  intros K vp fflags context w fv Hlive Hnode Hdio Hadmit.
  unfold vfs_call, fuse_vnode_operation_entries, fuse_vnop_mmap.
  unfold_prims; unfold_monad; vsimpl. rewrite Hlive; vsimpl.
  rewrite Hdio, Hadmit; vsimpl.
  destruct (nz (Z.land fflags _)) eqn:Hp; vsimpl; [reflexivity |].
  rewrite mmap_flags_without_protection; [reflexivity |].
  unfold nz in Hp. apply negb_false_iff, Z.eqb_eq in Hp. exact Hp.
Qed.

(** C6 at two inputs.  A read-write mapping of a file whose RDWR slot is
    valid with a count of 1 returns 0 and leaves the count at 1; a read-only
    mapping of a file with no valid slot returns 0 with no OPEN sent and the
    slot still invalid. *)
Theorem mmap_returns_before_the_handle :
  let K := mk_kernel finding_daemon false in
  vfs_call K (vnop_mmap file_vnode (Z.lor PROT_READ PROT_WRITE) user_context)
    ioctl_world
  = (Returned 0, ioctl_world)
  /\ open_count (fufh rdwr_node FUFH_RDWR) = 1
  /\ vfs_call K (vnop_mmap file_vnode PROT_READ user_context) live_world
     = (Returned 0, live_world)
  /\ w_trace live_world = []
  /\ FUFH_IS_VALID (fufh (closed_node 3) FUFH_RDONLY) = false.
Proof.
  intros K.
  split; [rewrite (mmap_never_acquires K file_vnode _ user_context ioctl_world
                     rdwr_node) by reflexivity; reflexivity |].
  split; [reflexivity |].
  split; [rewrite (mmap_never_acquires K file_vnode _ user_context live_world
                     (closed_node 3)) by reflexivity; reflexivity |].
  split; reflexivity.
Qed.

(** ** create *)

Section Create.

Variable K : kernel.
Variables (dvp : vnode) (cnp : componentname) (vap : vnode_attr).
Variables (context : vfs_context) (w : world) (fvd : fuse_vnode_data).

Hypothesis Hlive : dead (w_data w) = false.
Hypothesis Hadmit : k_blanket_deny K dvp context = false.
Hypothesis Hname :
  k_skip_apple_double K (v_mount dvp) (cn_nameptr cnp) (cn_namelen cnp) = false.
Hypothesis Hnode : w_nodes w !! v_fsnode dvp = Some fvd.
Hypothesis Hreg : va_type vap = VREG.

Let res := vfs_call K (vnop_create dvp cnp vap context) w.










End Create.




(** * Further properties of the operations *)

(** ** The translation of flags to a class of file handle *)

Lemma land_lor_0 (x a b : Z) :
  Z.land x (Z.lor a b) = 0 <-> Z.land x a = 0 /\ Z.land x b = 0.
Proof. rewrite Z.land_lor_distr_r. apply Z.lor_eq_0_iff. Qed.

Lemma land_pow2 (x n : Z) :
  0 <= n -> Z.land x (2 ^ n) = if Z.testbit x n then 2 ^ n else 0.
Proof.
  intros Hn. apply Z.bits_inj'. intros m Hm. rewrite Z.land_spec.
  destruct (Z.eq_dec n m) as [<-|Hne].
  - rewrite Z.pow2_bits_true by lia.
    destruct (Z.testbit x n); [rewrite Z.pow2_bits_true by lia | rewrite Z.bits_0];
      reflexivity.
  - rewrite Z.pow2_bits_false by lia. rewrite andb_false_r.
    destruct (Z.testbit x n); [rewrite Z.pow2_bits_false by lia | rewrite Z.bits_0];
      reflexivity.
Qed.

Lemma nz_false_iff (x : Z) : nz x = false <-> x = 0.
Proof. unfold nz. rewrite negb_false_iff. apply Z.eqb_eq. Qed.

Lemma nz_true_iff (x : Z) : nz x = true <-> x <> 0.
Proof. unfold nz. rewrite negb_true_iff. apply Z.eqb_neq. Qed.

(** X1.  The translation of file flags panics exactly on flags that are not 0
    and have neither FREAD nor FWRITE; flags of 0 are taken as a read: they
    give the class that FREAD gives, the read-only one. *)
Theorem xlate_from_fflags_panics :
  (forall fflags,
     fuse_filehandle_xlate_from_fflags fflags = None
     <-> fflags <> 0 /\ Z.land fflags (Z.lor FREAD FWRITE) = 0)
  /\ fuse_filehandle_xlate_from_fflags 0 = fuse_filehandle_xlate_from_fflags FREAD
  /\ fuse_filehandle_xlate_from_fflags 0 = Some FUFH_RDONLY.
Proof.
  split; [| split; reflexivity].
  intros fflags.
  unfold fuse_filehandle_xlate_from_fflags. rewrite land_lor_0.
  destruct (nz (Z.land fflags FREAD)) eqn:Hr;
    destruct (nz (Z.land fflags FWRITE)) eqn:Hw;
    destruct (Z.eqb_spec fflags 0) as [H0|H0]; cbn;
    rewrite ?nz_true_iff, ?nz_false_iff in *;
    split; try discriminate; try tauto; intros; try tauto.
Qed.

(** X2.  The class of a handle carries the access bits of the file flags: the
    open flags sent with OPEN for the class are the open flags of the
    FREAD and FWRITE bits, and what goes out comes back. *)
Theorem xlate_oflags_round_trip :
  (forall fflags c,
     fuse_filehandle_xlate_from_fflags fflags = Some c ->
     fflags <> 0 ->
     fuse_filehandle_xlate_to_oflags c
     = OFLAGS (Z.land fflags (Z.lor FREAD FWRITE)))
  /\ (forall c,
        fuse_filehandle_xlate_from_fflags (FFLAGS (fuse_filehandle_xlate_to_oflags c))
        = Some c).
Proof.
  split.
  - intros fflags c Hc Hnz. revert Hc.
    unfold fuse_filehandle_xlate_from_fflags.
    rewrite Z.land_lor_distr_r.
    assert (Hr : Z.land fflags FREAD = 0 \/ Z.land fflags FREAD = 1).
    { change FREAD with (2 ^ 0). rewrite land_pow2 by lia.
      destruct (Z.testbit fflags 0); auto. }
    assert (Hw : Z.land fflags FWRITE = 0 \/ Z.land fflags FWRITE = 2).
    { change FWRITE with (2 ^ 1). rewrite land_pow2 by lia.
      destruct (Z.testbit fflags 1); auto. }
    destruct Hr as [-> | ->], Hw as [-> | ->]; cbn.
    + apply Z.eqb_neq in Hnz. rewrite Hnz. discriminate.
    + intros [= <-]. reflexivity.
    + intros [= <-]. reflexivity.
    + intros [= <-]. reflexivity.
  - intros []; reflexivity.
Qed.

Lemma xlate_oflags_round_trip_witness :
  fuse_filehandle_xlate_from_fflags (Z.lor (Z.lor FREAD FWRITE) 8)
  = Some FUFH_RDWR
  /\ Z.lor (Z.lor FREAD FWRITE) 8 <> 0
  /\ fuse_filehandle_xlate_to_oflags FUFH_RDWR = O_RDWR.
Proof.
  split; [reflexivity |]. split; [discriminate |].
  exact (proj1 xlate_oflags_round_trip (Z.lor (Z.lor FREAD FWRITE) 8) FUFH_RDWR
           eq_refl ltac:(discriminate)).
Defined.

(** X3.  The translation of the protection of a mapping panics exactly when no
    protection bit is set; the class it gives can write exactly when
    PROT_WRITE is set, and can read exactly when PROT_READ or PROT_EXEC
    is. *)
Theorem xlate_from_mmap_classes (fflags : Z) :
  (fuse_filehandle_xlate_from_mmap fflags = None
   <-> Z.land fflags (Z.lor (Z.lor PROT_READ PROT_WRITE) PROT_EXEC) = 0)
  /\ (forall c,
        fuse_filehandle_xlate_from_mmap fflags = Some c ->
        (c <> FUFH_RDONLY <-> Z.land fflags PROT_WRITE <> 0)
        /\ (c <> FUFH_WRONLY <-> Z.land fflags (Z.lor PROT_READ PROT_EXEC) <> 0)).
Proof.
  unfold fuse_filehandle_xlate_from_mmap.
  assert (Hm : Z.land fflags (Z.lor (Z.lor PROT_READ PROT_WRITE) PROT_EXEC) = 0
               <-> Z.land fflags PROT_WRITE = 0
                   /\ Z.land fflags (Z.lor PROT_READ PROT_EXEC) = 0).
  { rewrite !land_lor_0. tauto. }
  rewrite Hm.
  destruct (nz (Z.land fflags PROT_WRITE)) eqn:Hw;
    destruct (nz (Z.land fflags (Z.lor PROT_READ PROT_EXEC))) eqn:Hr;
    rewrite ?nz_true_iff, ?nz_false_iff in *;
    (split; [split; [discriminate || tauto | try tauto] |]);
    try (intros c [= <-]; split; split; congruence).
Qed.

Lemma xlate_from_mmap_classes_witness :
  fuse_filehandle_xlate_from_mmap PROT_EXEC = Some FUFH_RDONLY
  /\ Z.land PROT_EXEC PROT_WRITE = 0.
Proof.
  split; [reflexivity |].
  destruct (xlate_from_mmap_classes PROT_EXEC) as [_ H].
  destruct (H FUFH_RDONLY eq_refl) as [[H1 H2] _].
  destruct (Z.eq_dec (Z.land PROT_EXEC PROT_WRITE) 0) as [E|E]; [exact E |].
  exfalso. exact (H2 E eq_refl).
Defined.

(** ** Blocks and offsets *)

Lemma i64_in_range (x : Z) : - 2 ^ 63 <= x < 2 ^ 63 -> i64 x = x.
Proof.
  intros H. unfold i64.
  rewrite Z.mod_small by lia. lia.
Qed.

Lemma i64_high (x : Z) : 2 ^ 63 <= x < 2 ^ 64 -> i64 x = x - 2 ^ 64.
Proof.
  intros H. unfold i64.
  replace (x + 2 ^ 63) with (x - 2 ^ 63 + 1 * 2 ^ 64) by lia.
  rewrite Z.mod_add by lia. rewrite Z.mod_small by lia. lia.
Qed.

Lemma u64_in_range (x : Z) : 0 <= x < 2 ^ 64 -> u64 x = x.
Proof. intros H. unfold u64. apply Z.mod_small. exact H. Qed.

Lemma u64_negative (x : Z) : - 2 ^ 64 <= x < 0 -> u64 x = x + 2 ^ 64.
Proof.
  intros H. unfold u64.
  replace x with (x + 2 ^ 64 + (-1) * 2 ^ 64) at 1 by lia.
  rewrite Z.mod_add by lia. apply Z.mod_small. lia.
Qed.

Section Blocks.

Variable K : kernel.
Variables (vp : vnode) (w : world).

Hypothesis Hlive : dead (w_data w) = false.
Hypothesis Hbs : 0 < blocksize (w_data w).

Let bs := blocksize (w_data w).

Lemma blktooff_live (b : Z) (w0 : world) :
  w_data w0 = w_data w ->
  vfs_call K (vnop_blktooff vp b) w0
  = (Returned 0, with_mem w0 (mem_set_out (w_mem w0) [i64 (b * bs)])).
Proof.
  intros Hd. unfold vfs_call, fuse_vnode_operation_entries, fuse_vnop_blktooff.
  unfold_prims; unfold_monad; cbn. rewrite Hd, Hlive. reflexivity.
Qed.

Lemma offtoblk_live (off : Z) (w0 : world) :
  w_data w0 = w_data w ->
  vfs_call K (vnop_offtoblk vp off) w0
  = (Returned 0, with_mem w0 (mem_set_out (w_mem w0) [off ÷ bs])).
Proof.
  intros Hd. unfold vfs_call, fuse_vnode_operation_entries, fuse_vnop_offtoblk.
  unfold_prims; unfold_monad; cbn. rewrite Hd, Hlive. reflexivity.
Qed.

End Blocks.

(** X4.  On a live session with a block size that is not zero, the offset that
    blktooff gives for a logical block is taken back to that block by
    offtoblk, when the offset of the block is one an [off_t] holds (the
    product goes round at 2^63 otherwise); and the block that offtoblk
    gives for an offset that is not negative starts, by blktooff, at or
    before the offset and less than a block before it. *)
Theorem blktooff_offtoblk_round_trip (K : kernel) (vp : vnode) (w : world) :
  dead (w_data w) = false ->
  0 < blocksize (w_data w) ->
  (forall b,
     - 2 ^ 63 <= b * blocksize (w_data w) < 2 ^ 63 ->
     exists w1 off,
       vfs_call K (vnop_blktooff vp b) w = (Returned 0, w1)
       /\ m_out (w_mem w1) = [off]
       /\ exists w2,
            vfs_call K (vnop_offtoblk vp off) w1 = (Returned 0, w2)
            /\ m_out (w_mem w2) = [b])
  /\ (forall off,
        0 <= off < 2 ^ 63 ->
        exists w1 b,
          vfs_call K (vnop_offtoblk vp off) w = (Returned 0, w1)
          /\ m_out (w_mem w1) = [b]
          /\ exists w2 off',
               vfs_call K (vnop_blktooff vp b) w1 = (Returned 0, w2)
               /\ m_out (w_mem w2) = [off']
               /\ off' <= off < off' + blocksize (w_data w)).
Proof.
  intros Hlive Hbs. split.
  - intros b Hb. eexists; eexists.
    split; [apply (blktooff_live K vp w Hlive); reflexivity |].
    split; [reflexivity |]. eexists.
    split; [apply (offtoblk_live K vp w Hlive); reflexivity |].
    cbn. rewrite i64_in_range by exact Hb.
    rewrite Z.quot_mul by lia. reflexivity.
  - intros off Hoff. eexists; eexists.
    split; [apply (offtoblk_live K vp w Hlive); reflexivity |].
    split; [reflexivity |]. eexists; eexists.
    split; [apply (blktooff_live K vp w Hlive); reflexivity |].
    split; [reflexivity |].
    rewrite Z.quot_div_nonneg by lia.
    pose proof (Z.mul_div_le off (blocksize (w_data w)) Hbs).
    pose proof (Z.mul_succ_div_gt off (blocksize (w_data w)) Hbs).
    pose proof (Z.div_pos off (blocksize (w_data w)) ltac:(lia) Hbs).
    rewrite i64_in_range by nia.
    lia.
Qed.

Lemma blktooff_offtoblk_round_trip_witness :
  let K := mk_kernel legacy_daemon false in
  dead (w_data live_world) = false
  /\ blocksize (w_data live_world) = 4096
  /\ exists w1 w2,
       vfs_call K (vnop_blktooff file_vnode 3) live_world = (Returned 0, w1)
       /\ m_out (w_mem w1) = [12288]
       /\ vfs_call K (vnop_offtoblk file_vnode 12288) w1 = (Returned 0, w2)
       /\ m_out (w_mem w2) = [3].
Proof.
  intros K. split; [reflexivity |]. split; [reflexivity |].
  destruct (blktooff_offtoblk_round_trip K file_vnode live_world eq_refl eq_refl)
    as [H _].
  destruct (H 3 ltac:(cbn; lia)) as (w1 & off & H1 & H2 & w2 & H3 & H4).
  exists w1, w2.
  assert (Hoff : off = 12288).
  { rewrite (blktooff_live K file_vnode live_world eq_refl 3 live_world eq_refl) in H1.
    injection H1 as <-. cbn in H2. injection H2 as <-. reflexivity. }
  subst off. auto.
Defined.

(** X5.  For a file on a live session, blockmap of an offset within the file
    gives the block of the offset and, for a size below 2^63, a run that is
    what is left of the file from the start of that block, cut to the size
    asked for.  The size is compared as an [off_t]: a size of 2^63 or more
    is negative there, and the run is then the size itself, past the end of
    the file.  Either way the run is never more than the size, and never
    less than what the caller asked for up to the end of the file.  Nothing
    goes to the daemon.  A directory gets ENOTSUP, and a call without a
    place for the block gets 0, with nothing written. *)
Theorem blockmap_run (K : kernel) (vp : vnode) (w : world)
    (fv : fuse_vnode_data) (foffset size : Z) (run poff : bool) :
  dead (w_data w) = false ->
  0 < blocksize (w_data w) ->
  w_nodes w !! v_fsnode vp = Some fv ->
  0 <= foffset <= filesize fv ->
  filesize fv < 2 ^ 63 ->
  0 <= size < 2 ^ 64 ->
  (vnode_isdir vp = true ->
   vfs_call K (vnop_blockmap vp foffset size true run poff) w = (Returned ENOTSUP, w))
  /\ (vnode_isdir vp = false ->
      vfs_call K (vnop_blockmap vp foffset size false run poff) w = (Returned 0, w)
      /\ exists b r,
           vfs_call K (vnop_blockmap vp foffset size true run poff) w
           = (Returned 0,
              with_mem w (mem_set_out (w_mem w)
                            ([b] ++ (if run then [r] else [])
                                 ++ (if poff then [0] else []))))
           /\ b * blocksize (w_data w) <= foffset < (b + 1) * blocksize (w_data w)
           /\ r = (if size <? 2 ^ 63
                   then Z.min size (filesize fv - b * blocksize (w_data w))
                   else size)
           /\ Z.min size (filesize fv - foffset) <= r <= size).
Proof.
  intros Hlive Hbs Hnode Hoff Hfile Hsize.
  unfold vfs_call, fuse_vnode_operation_entries, fuse_vnop_blockmap.
  unfold_prims; unfold_monad; cbn. rewrite Hlive; cbn.
  split; intros Hdir; rewrite Hdir; cbn; [reflexivity |].
  split; [reflexivity |]. rewrite Hnode; cbn.
  rewrite Z.quot_div_nonneg by lia.
  set (b := foffset / blocksize (w_data w)).
  pose proof (Z.mul_div_le foffset (blocksize (w_data w)) Hbs) as Hlo.
  pose proof (Z.mul_succ_div_gt foffset (blocksize (w_data w)) Hbs) as Hhi.
  pose proof (Z.div_pos foffset (blocksize (w_data w)) ltac:(lia) Hbs) as Hb.
  fold b in Hlo, Hhi, Hb.
  assert (Hstart : 0 <= b * blocksize (w_data w) <= foffset) by nia.
  rewrite (i64_in_range (b * blocksize (w_data w))) by lia.
  rewrite (i64_in_range (filesize fv - b * blocksize (w_data w))) by lia.
  exists b.
  exists (if size <? 2 ^ 63
          then Z.min size (filesize fv - b * blocksize (w_data w)) else size).
  split; [| split; [lia | split; [reflexivity |]]].
  - destruct (Z.ltb_spec size (2 ^ 63)) as [Hs|Hs].
    + rewrite (i64_in_range size) by lia.
      destruct (Z.ltb_spec size (filesize fv - b * blocksize (w_data w))).
      * rewrite Z.min_l by lia. rewrite u64_in_range by lia. reflexivity.
      * rewrite Z.min_r by lia. rewrite u64_in_range by lia. reflexivity.
    + rewrite (i64_high size) by lia.
      destruct (Z.ltb_spec (size - 2 ^ 64)
                  (filesize fv - b * blocksize (w_data w))); [| lia].
      rewrite u64_negative by lia.
      replace (size - 2 ^ 64 + 2 ^ 64) with size by lia. reflexivity.
  - destruct (Z.ltb_spec size (2 ^ 63)); lia.
Qed.

Lemma blockmap_run_witness :
  let K := mk_kernel legacy_daemon false in
  let w := mk_world (mk_data false true capmap_all)
             [(3%N, set_filesize (closed_node 3) 10000)] uio0 in
  vfs_call K (vnop_blockmap file_vnode 8192 4096 true true true) w
  = (Returned 0, with_mem w (mem_set_out (w_mem w) [2; 1808; 0])).
Proof.
  intros K w.
  destruct (blockmap_run K file_vnode w (set_filesize (closed_node 3) 10000)
              8192 4096 true true eq_refl eq_refl eq_refl
              ltac:(cbn; lia) ltac:(cbn; lia) ltac:(lia)) as [_ H].
  destruct (H eq_refl) as (_ & b & r & Hcall & Hb & Hr & _).
  assert (b = 2) by (cbn in Hb; lia). subst b.
  assert (r = 1808) by (subst r; reflexivity). subst r.
  exact Hcall.
Defined.

(** ** open and close *)

Arguments fuse_vnop_open_ok : simpl never.
Arguments fuse_filehandle_get : simpl never.
Arguments fuse_filehandle_put : simpl never.

Lemma fufh_set_fufh (fv : fuse_vnode_data) (c : fufh_type) (f : fuse_filehandle) :
  fufh (set_fufh fv c f) c = f.
Proof. destruct c; reflexivity. Qed.

Lemma i32_in_range (x : Z) : - 2 ^ 31 <= x < 2 ^ 31 -> i32 x = x.
Proof.
  intros H. unfold i32.
  rewrite Z.mod_small by lia. lia.
Qed.

Lemma quiet_refl (w : world) : quiet w w.
Proof. exists []. split; [symmetry; apply app_nil_r | reflexivity]. Qed.

Lemma quiet_trans (w1 w2 w3 : world) : quiet w1 w2 -> quiet w2 w3 -> quiet w1 w3.
Proof.
  intros (l & H1 & Hl) (l' & H2 & Hl').
  exists (l ++ l'). rewrite H2, H1, <- app_assoc.
  split; [reflexivity |]. rewrite List.filter_app, Hl, Hl'. reflexivity.
Qed.

(** Case analysis on what the computation at hand waits for: the
    scrutinee at the head of the term. *)
Ltac destruct_head t :=
  lazymatch t with
  | match ?x with _ => _ end => first [destruct_head x | destruct x eqn:?]
  | ?f _ => destruct_head f
  end.

Ltac xnodes :=
  repeat first
    [ rewrite lookup_insert_eq
    | rewrite fufh_set_fufh
    | match goal with
      | H : ?m !! ?k = _ |- context [?m !! ?k] => rewrite H
      | H : nz ?x = _ |- context [nz ?x] => rewrite H
      | H : FUFH_IS_VALID ?f = _ |- context [FUFH_IS_VALID ?f] => rewrite H
      | |- context [nz (Zpos ?p)] => change (nz (Zpos p)) with true
      | |- context [nz (Zneg ?p)] => change (nz (Zneg p)) with true
      | |- context [nz Z0] => change (nz 0) with false
      end ].

Ltac xsimpl := repeat (progress (cbn; xnodes)).

Ltac step :=
  xsimpl; match goal with |- _ ?t => destruct_head t end; xsimpl.

Ltac quiet_trace :=
  first [ exists []; split; [cbn; symmetry; apply app_nil_r | reflexivity]
        | eexists; split; [cbn; rewrite <- ?app_assoc; reflexivity | reflexivity] ].

Lemma returns_ex (Q : errno -> world -> Prop) (r : result * world) :
  returns Q r -> exists e w', r = (Returned e, w') /\ Q e w'.
Proof.
  destruct r as [[e| |] w']; cbn; intros H; try contradiction.
  exists e, w'. split; [reflexivity | exact H].
Qed.

Lemma handles_kept_refl (fv : fuse_vnode_data) : handles_kept fv fv.
Proof. split; [reflexivity | intros c; split; reflexivity]. Qed.

Lemma handles_kept_trans (fv1 fv2 fv3 : fuse_vnode_data) :
  handles_kept fv1 fv2 -> handles_kept fv2 fv3 -> handles_kept fv1 fv3.
Proof.
  intros [Hn H] [Hn' H']. split; [congruence |].
  intros c. destruct (H c) as [H1 H2]. destruct (H' c) as [H1' H2'].
  split; congruence.
Qed.

Section OpenClose.

Variable K : kernel.
Variables (vp : vnode) (context : vfs_context).

(** From the label [ok:] on, open returns 0, asks for no handle and leaves
    the counts of the slots as they are. *)
Lemma open_ok_quiet (c : fufh_type) (w : world) (fv : fuse_vnode_data)
    (P : outcome errno * world -> Prop) :
  w_nodes w !! v_fsnode vp = Some fv ->
  (forall w' fv',
     dead (w_data w') = dead (w_data w) ->
     w_nodes w' !! v_fsnode vp = Some fv' ->
     (forall c', open_count (fufh fv' c') = open_count (fufh fv c')) ->
     handles_kept fv fv' ->
     quiet w w' ->
     P (Return 0, w')) ->
  P (fuse_vnop_open_ok K vp c w).
Proof.
  intros Hnode HP. unfold fuse_vnop_open_ok.
  unfold_prims; unfold_monad. repeat step.
  all: eapply HP;
    [ reflexivity
    | xsimpl; reflexivity
    | intros c'; destruct c, c'; reflexivity
    | split; [reflexivity | intros c'; destruct c, c'; split; reflexivity]
    | quiet_trace ].
Qed.

Hypothesis Hfifo : vnode_isfifo vp = false.
Hypothesis Hadmit : k_blanket_deny K vp context = false.

Lemma open_step (c : fufh_type) (mode : Z) (w : world) (fv : fuse_vnode_data) :
  dead (w_data w) = false ->
  open_class vp mode = Some c ->
  w_nodes w !! v_fsnode vp = Some fv ->
  0 < open_count (fufh fv c) < 2 ^ 31 - 1 ->
  exists w' fv',
    vfs_call K (vnop_open vp mode context) w = (Returned 0, w')
    /\ dead (w_data w') = false
    /\ w_nodes w' !! v_fsnode vp = Some fv'
    /\ (forall c', open_count (fufh fv' c')
                   = if fufh_type_eqb c' c then open_count (fufh fv c) + 1
                     else open_count (fufh fv c'))
    /\ quiet w w'
    /\ handles_kept fv fv'.
Proof.
  intros Hlive Hclass Hnode Hcount.
  assert (Hvalid : FUFH_IS_VALID (fufh fv c) = true).
  { unfold FUFH_IS_VALID. apply Z.ltb_lt. lia. }
  unfold vfs_call, fuse_vnode_operation_entries, fuse_vnop_open.
  unfold open_class in Hclass.
  unfold_prims; unfold_monad. xsimpl. rewrite Hlive, Hfifo, Hadmit. xsimpl.
  destruct (vnode_isdir vp);
    [injection Hclass as <-; cbn [fufh] in * | rewrite Hclass]; xsimpl;
    rewrite ?Hvalid; xsimpl.
  all: match goal with
       | |- context [fuse_vnop_open_ok K vp ?t ?W] =>
           pattern (fuse_vnop_open_ok K vp t W);
           eapply open_ok_quiet; [xsimpl; reflexivity |]
       end.
  all: intros w' fv' Hd Hn Hc Hk Hq; cbn in Hd |- *.
  all: exists w', fv'.
  all: split; [reflexivity |]; split; [congruence |]; split; [exact Hn |].
  all: split; [| split; [exact Hq |]].
  all: try (intros c'; rewrite Hc; unfold FUFH_USE_INC).
  all: try (try destruct c; destruct c'; cbn in *; rewrite ?i32_in_range by lia;
            reflexivity).
  all: refine (handles_kept_trans _ _ _ _ Hk).
  all: split; [reflexivity | intros c'; try destruct c; destruct c'; split; reflexivity].
Qed.

Lemma close_step (c : fufh_type) (fflag : Z) (w : world) (fv : fuse_vnode_data) :
  dead (w_data w) = false ->
  fflag <> IO_NDELAY ->
  open_class vp fflag = Some c ->
  w_nodes w !! v_fsnode vp = Some fv ->
  1 < open_count (fufh fv c) < 2 ^ 31 ->
  exists e w',
    vfs_call K (vnop_close vp fflag context) w = (Returned e, w')
    /\ dead (w_data w') = false
    /\ (exists fv',
          w_nodes w' !! v_fsnode vp = Some fv'
          /\ (forall c', open_count (fufh fv' c')
                         = if fufh_type_eqb c' c then open_count (fufh fv c) - 1
                           else open_count (fufh fv c'))
          /\ handles_kept fv fv')
    /\ quiet w w'.
Proof.
  intros Hlive Hflag Hclass Hnode Hcount.
  assert (Hvalid : FUFH_IS_VALID (fufh fv c) = true).
  { unfold FUFH_IS_VALID. apply Z.ltb_lt. lia. }
  assert (Hdec : FUFH_IS_VALID (FUFH_USE_DEC (fufh fv c)) = true).
  { unfold FUFH_IS_VALID, FUFH_USE_DEC; cbn. rewrite i32_in_range by lia.
    apply Z.ltb_lt. lia. }
  apply Z.eqb_neq in Hflag.
  apply returns_ex.
  unfold vfs_call, fuse_vnode_operation_entries, fuse_vnop_close.
  unfold open_class in Hclass.
  unfold_prims; unfold_monad. xsimpl. rewrite Hlive, Hflag. xsimpl.
  destruct (vnode_isdir vp);
    [injection Hclass as <-; cbn [fufh] in * | rewrite Hclass]; xsimpl;
    rewrite ?Hvalid; xsimpl.
  all: repeat step.
  all: (split; [exact Hlive |]).
  all: (split; [eexists; split; [reflexivity | split] |]).
  all: try quiet_trace.
  all: try (intros c'; unfold FUFH_USE_DEC; try destruct c; destruct c'; cbn in *;
            rewrite ?i32_in_range by lia; reflexivity).
  all: split; [reflexivity | intros c'; try destruct c; destruct c'; split; reflexivity].
Qed.

Lemma close_flush (c : fufh_type) (fflag : Z) (w : world) (fv : fuse_vnode_data) :
  dead (w_data w) = false ->
  fflag <> IO_NDELAY ->
  open_class vp fflag = Some c ->
  w_nodes w !! v_fsnode vp = Some fv ->
  1 < open_count (fufh fv c) < 2 ^ 31 ->
  let pushed := close_pushes vp (w_data w) in
  let a := k_daemon K (List.length (w_trace w ++ pushed)) (flush_request fv c) in
  returns
    (fun e w' =>
       e = (if close_flushes vp (w_data w) && negb (ans_err a =? ENOSYS)
            then ans_err a else 0)
       /\ w_trace w'
          = w_trace w ++ pushed
            ++ (if close_flushes vp (w_data w)
                then ev_wait_answer (flush_request fv c)
                     :: (if nz (ans_err a) then [] else [ev_ticket_drop])
                else []))
    (vfs_call K (vnop_close vp fflag context) w).
Proof.
  intros Hlive Hflag Hclass Hnode Hcount pushed a.
  assert (Hvalid : FUFH_IS_VALID (fufh fv c) = true).
  { unfold FUFH_IS_VALID. apply Z.ltb_lt. lia. }
  assert (Hdec : FUFH_IS_VALID (FUFH_USE_DEC (fufh fv c)) = true).
  { unfold FUFH_IS_VALID, FUFH_USE_DEC; cbn. rewrite i32_in_range by lia.
    apply Z.ltb_lt. lia. }
  apply Z.eqb_neq in Hflag.
  subst pushed a. unfold close_pushes, close_flushes, flush_request.
  unfold vfs_call, fuse_vnode_operation_entries, fuse_vnop_close.
  unfold open_class in Hclass.
  unfold_prims; unfold_monad. xsimpl. rewrite Hlive, Hflag. xsimpl.
  destruct (vnode_isdir vp);
    [injection Hclass as <-; cbn [fufh] in * | rewrite Hclass]; xsimpl;
    rewrite ?Hvalid; xsimpl.
  - split; [reflexivity | rewrite app_nil_r; reflexivity].
  - destruct (v_hasdirtyblks vp); destruct (no_synconclose (w_data w)); xsimpl;
      rewrite ?app_nil_r;
      destruct (fuse_implemented (w_data w) (FSESS_NOIMPLBIT FUSE_FLUSH)); xsimpl.
    all: repeat step.
    all: rewrite ?app_nil_r in *.
    all: rewrite ?negb_true_iff, ?negb_false_iff in *; xsimpl.
    all: repeat match goal with
                | H : (_ =? ENOSYS) = _ |- _ => rewrite H; clear H
                end; cbn.
    all: try (match goal with
              | H : nz _ = false |- _ => apply nz_false_iff in H; rewrite H
              end; cbn).
    all: (split; [reflexivity | rewrite <- ?app_assoc; reflexivity]).
Qed.

Lemma close_idle (fflag : Z) (w : world) (fv : fuse_vnode_data) :
  dead (w_data w) = false ->
  w_nodes w !! v_fsnode vp = Some fv ->
  fflag = IO_NDELAY
  \/ (exists c, open_class vp fflag = Some c
                /\ FUFH_IS_VALID (fufh fv c) = false) ->
  vfs_call K (vnop_close vp fflag context) w = (Returned 0, w).
Proof.
  intros Hlive Hnode Hcase.
  unfold vfs_call, fuse_vnode_operation_entries, fuse_vnop_close.
  unfold_prims; unfold_monad. xsimpl. rewrite Hlive. xsimpl.
  destruct (Z.eqb_spec fflag IO_NDELAY) as [E|E]; [reflexivity |].
  destruct Hcase as [E' | (c & Hclass & Hinvalid)]; [contradiction |].
  unfold open_class in Hclass. xsimpl.
  destruct (vnode_isdir vp);
    [injection Hclass as <-; cbn [fufh] in * | rewrite Hclass]; xsimpl;
    reflexivity.
Qed.

Lemma opens_in_use (c : fufh_type) (mode : Z) (k : nat) :
  forall (w : world) (fv : fuse_vnode_data),
    dead (w_data w) = false ->
    open_class vp mode = Some c ->
    w_nodes w !! v_fsnode vp = Some fv ->
    0 < open_count (fufh fv c) ->
    open_count (fufh fv c) + Z.of_nat k < 2 ^ 31 ->
    exists fv',
      dead (w_data (vfs_calls K (repeat (vnop_open vp mode context) k) w)) = false
      /\ w_nodes (vfs_calls K (repeat (vnop_open vp mode context) k) w)
           !! v_fsnode vp = Some fv'
      /\ (forall c', open_count (fufh fv' c')
                     = if fufh_type_eqb c' c
                       then open_count (fufh fv c) + Z.of_nat k
                       else open_count (fufh fv c'))
      /\ quiet w (vfs_calls K (repeat (vnop_open vp mode context) k) w)
      /\ handles_kept fv fv'.
Proof.
  induction k as [|k IH]; intros w fv Hlive Hclass Hnode Hpos Hmax.
  - exists fv. cbn. split; [exact Hlive |]. split; [exact Hnode |].
    split; [| split; [apply quiet_refl | apply handles_kept_refl]].
    intros c'. destruct c, c'; cbn; lia.
  - destruct (open_step c mode w fv Hlive Hclass Hnode ltac:(lia))
      as (w' & fv' & Hcall & Hlive' & Hnode' & Hcount' & Hq & Hk).
    cbn [repeat vfs_calls]. rewrite Hcall. cbn [snd].
    pose proof (Hcount' c) as Hc. replace (fufh_type_eqb c c) with true in Hc
      by (destruct c; reflexivity).
    destruct (IH w' fv' Hlive' Hclass Hnode' ltac:(lia) ltac:(lia))
      as (fv1 & Hl1 & Hn1 & Hc1 & Hq1 & Hk1).
    exists fv1. split; [exact Hl1 |]. split; [exact Hn1 |].
    split; [| split; [exact (quiet_trans _ _ _ Hq Hq1)
                     | exact (handles_kept_trans _ _ _ Hk Hk1)]].
    intros c'. rewrite Hc1. destruct (fufh_type_eqb c' c) eqn:E.
    + rewrite Hc. lia.
    + rewrite (Hcount' c'), E. reflexivity.
Qed.

Lemma closes_in_use (c : fufh_type) (fflag : Z) (k : nat) :
  forall (w : world) (fv : fuse_vnode_data),
    dead (w_data w) = false ->
    fflag <> IO_NDELAY ->
    open_class vp fflag = Some c ->
    w_nodes w !! v_fsnode vp = Some fv ->
    Z.of_nat k < open_count (fufh fv c) < 2 ^ 31 ->
    exists fv',
      dead (w_data (vfs_calls K (repeat (vnop_close vp fflag context) k) w)) = false
      /\ w_nodes (vfs_calls K (repeat (vnop_close vp fflag context) k) w)
           !! v_fsnode vp = Some fv'
      /\ (forall c', open_count (fufh fv' c')
                     = if fufh_type_eqb c' c
                       then open_count (fufh fv c) - Z.of_nat k
                       else open_count (fufh fv c'))
      /\ quiet w (vfs_calls K (repeat (vnop_close vp fflag context) k) w)
      /\ handles_kept fv fv'.
Proof.
  induction k as [|k IH]; intros w fv Hlive Hflag Hclass Hnode Hcount.
  - exists fv. cbn. split; [exact Hlive |]. split; [exact Hnode |].
    split; [| split; [apply quiet_refl | apply handles_kept_refl]].
    intros c'. destruct c, c'; cbn; lia.
  - destruct (close_step c fflag w fv Hlive Hflag Hclass Hnode ltac:(lia))
      as (e & w' & Hcall & Hlive' & (fv' & Hnode' & Hcount' & Hk) & Hq).
    cbn [repeat vfs_calls]. rewrite Hcall. cbn [snd].
    pose proof (Hcount' c) as Hc. replace (fufh_type_eqb c c) with true in Hc
      by (destruct c; reflexivity).
    destruct (IH w' fv' Hlive' Hflag Hclass Hnode' ltac:(lia))
      as (fv1 & Hl1 & Hn1 & Hc1 & Hq1 & Hk1).
    exists fv1. split; [exact Hl1 |]. split; [exact Hn1 |].
    split; [| split; [exact (quiet_trans _ _ _ Hq Hq1)
                     | exact (handles_kept_trans _ _ _ Hk Hk1)]].
    intros c'. rewrite Hc1. destruct (fufh_type_eqb c' c) eqn:E.
    + rewrite Hc. lia.
    + rewrite (Hcount' c'), E. reflexivity.
Qed.


Lemma handle_requests_quiet (w w' : world) :
  quiet w w' <-> handle_requests w w' [].
Proof. reflexivity. Qed.

Lemma handle_requests_trans (w1 w2 w3 : world) (l l' : list event) :
  handle_requests w1 w2 l -> handle_requests w2 w3 l' ->
  handle_requests w1 w3 (l ++ l').
Proof.
  intros (r & H1 & Hl) (r' & H2 & Hl').
  exists (r ++ r'). rewrite H2, H1, <- app_assoc.
  split; [reflexivity |]. rewrite List.filter_app, Hl, Hl'. reflexivity.
Qed.

(** The first open of a class takes the handle: OPEN goes out, and the
    reply is installed with a count of 1. *)
Lemma open_first (c : fufh_type) (mode : Z) (w : world) (fv : fuse_vnode_data) :
  dead (w_data w) = false ->
  open_class vp mode = Some c ->
  w_nodes w !! v_fsnode vp = Some fv ->
  FUFH_IS_VALID (fufh fv c) = false ->
  ans_err (k_daemon K (List.length (w_trace w)) (open_request vp fv c)) = 0 ->
  exists w' fv',
    vfs_call K (vnop_open vp mode context) w = (Returned 0, w')
    /\ dead (w_data w') = false
    /\ w_nodes w' !! v_fsnode vp = Some fv'
    /\ (forall c', open_count (fufh fv' c')
                   = if fufh_type_eqb c' c then 1 else open_count (fufh fv c'))
    /\ nodeid fv' = nodeid fv
    /\ fh_id (fufh fv' c)
       = foo_fh (ans_open (k_daemon K (List.length (w_trace w))
                             (open_request vp fv c)))
    /\ open_flags (fufh fv' c) = fuse_filehandle_xlate_to_oflags c
    /\ handle_requests w w' [ev_wait_answer (open_request vp fv c)].
Proof.
  intros Hlive Hclass Hnode Hinvalid Herr.
  unfold open_request in *.
  unfold vfs_call, fuse_vnode_operation_entries, fuse_vnop_open, fuse_filehandle_get.
  unfold open_class in Hclass.
  unfold_prims; unfold_monad. xsimpl. rewrite Hlive, Hfifo, Hadmit. xsimpl.
  destruct (vnode_isdir vp) eqn:Hdir;
    [injection Hclass as <-; cbn [fufh] in * | rewrite Hclass]; xsimpl;
    rewrite ?Hinvalid; xsimpl; rewrite ?Hdir; cbn in Herr; rewrite Herr; xsimpl.
  all: match goal with
       | |- context [fuse_vnop_open_ok K vp ?t ?W] =>
           pattern (fuse_vnop_open_ok K vp t W);
           eapply open_ok_quiet; [xsimpl; reflexivity |]
       end.
  all: intros w' fv' Hd Hn Hc [Hk1 Hk2] (rest & Htr & Hrest); cbn in Hd, Htr |- *.
  all: exists w', fv'.
  all: split; [reflexivity |]; split; [congruence |]; split; [exact Hn |].
  all: split; [intros c'; rewrite Hc; try destruct c; destruct c'; reflexivity |].
  all: split; [rewrite Hk1; reflexivity |].
  all: destruct (Hk2 FUFH_RDONLY) as [Hr1 Hr2];
    destruct (Hk2 FUFH_WRONLY) as [Hw1 Hw2];
    destruct (Hk2 FUFH_RDWR) as [Hx1 Hx2].
  all: split; [try destruct c; cbn in *; assumption |].
  all: split; [try destruct c; cbn in *; assumption |].
  all: eexists; split; [rewrite Htr, <- !app_assoc; reflexivity |].
  all: cbn; rewrite Hrest; reflexivity.
Qed.

(** The close that gives the last use back gives the handle back: RELEASE
    goes out and the slot is not valid any more. *)
Lemma close_last (c : fufh_type) (fflag : Z) (w : world) (fv : fuse_vnode_data) :
  dead (w_data w) = false ->
  fflag <> IO_NDELAY ->
  open_class vp fflag = Some c ->
  w_nodes w !! v_fsnode vp = Some fv ->
  open_count (fufh fv c) = 1 ->
  exists e w' fv',
    vfs_call K (vnop_close vp fflag context) w = (Returned e, w')
    /\ dead (w_data w') = false
    /\ w_nodes w' !! v_fsnode vp = Some fv'
    /\ (forall c', open_count (fufh fv' c')
                   = if fufh_type_eqb c' c then 0 else open_count (fufh fv c'))
    /\ handle_requests w w'
         [ev_wait_answer (handle_release vp fv (fh_id (fufh fv c))
                            (open_flags (fufh fv c)))].
Proof.
  intros Hlive Hflag Hclass Hnode Hcount.
  assert (Hvalid : FUFH_IS_VALID (fufh fv c) = true).
  { unfold FUFH_IS_VALID. rewrite Hcount. reflexivity. }
  assert (Hdec : FUFH_IS_VALID (FUFH_USE_DEC (fufh fv c)) = false).
  { unfold FUFH_IS_VALID, FUFH_USE_DEC; cbn. rewrite Hcount. reflexivity. }
  apply Z.eqb_neq in Hflag.
  unfold handle_release.
  assert (Hgoal :
    returns (fun e w' =>
      exists fv',
        dead (w_data w') = false
        /\ w_nodes w' !! v_fsnode vp = Some fv'
        /\ (forall c', open_count (fufh fv' c')
                       = if fufh_type_eqb c' c then 0 else open_count (fufh fv c'))
        /\ handle_requests w w'
             [ev_wait_answer
                {| rq_op := if vnode_isdir vp then FUSE_RELEASEDIR else FUSE_RELEASE;
                   rq_nodeid := nodeid fv;
                   rq_in := in_release (fh_id (fufh fv c)) (open_flags (fufh fv c)) |}])
      (vfs_call K (vnop_close vp fflag context) w)).
  { unfold vfs_call, fuse_vnode_operation_entries, fuse_vnop_close,
      fuse_filehandle_put.
    unfold open_class in Hclass.
    unfold_prims; unfold_monad. xsimpl. rewrite Hlive, Hflag. xsimpl.
    destruct (vnode_isdir vp) eqn:Hdir;
      [injection Hclass as <-; cbn [fufh] in * | rewrite Hclass]; xsimpl;
      rewrite ?Hvalid; xsimpl.
    all: repeat step.
    all: eexists.
    all: (split; [exact Hlive |]).
    all: (split; [reflexivity |]).
    all: split;
      [ intros c'; unfold FUFH_USE_DEC, FUFH_USE_RESET;
        try destruct c; destruct c'; cbn in *; reflexivity |].
    all: eexists; split; [cbn; rewrite <- ?app_assoc; reflexivity |].
    all: cbn; try destruct c; reflexivity. }
  destruct (returns_ex _ _ Hgoal) as (e & w' & Hcall & fv' & H1 & H2 & H3 & H4).
  exists e, w', fv'. auto.
Qed.

End OpenClose.

(** X6.  An open of a class whose slot is in use takes the handle that is there:
    on a live session, for a vnode that is no fifo and a caller the
    blanket-denial hook admits, it returns 0, adds one to the count of that
    slot, leaves the other slots as they are and asks the daemon for no
    handle. *)
Theorem open_reuses_valid_slot (K : kernel) (vp : vnode) (mode : Z)
    (context : vfs_context) (c : fufh_type) (w : world) (fv : fuse_vnode_data) :
  dead (w_data w) = false ->
  vnode_isfifo vp = false ->
  k_blanket_deny K vp context = false ->
  open_class vp mode = Some c ->
  w_nodes w !! v_fsnode vp = Some fv ->
  0 < open_count (fufh fv c) < 2 ^ 31 - 1 ->
  let r := vfs_call K (vnop_open vp mode context) w in
  fst r = Returned 0
  /\ (forall c',
        slot_count (snd r) vp c'
        = Some (if fufh_type_eqb c' c then open_count (fufh fv c) + 1
                else open_count (fufh fv c')))
  /\ dead (w_data (snd r)) = false
  /\ quiet w (snd r).
Proof.
  intros Hlive Hfifo Hadmit Hclass Hnode Hcount r. subst r.
  destruct (open_step K vp context Hfifo Hadmit c mode w fv Hlive Hclass Hnode Hcount)
    as (w' & fv' & -> & Hlive' & Hnode' & Hcount' & Hq & _).
  cbn [fst snd]. split; [reflexivity |].
  split; [| split; [exact Hlive' | exact Hq]].
  intros c'. unfold slot_count. rewrite Hnode'. cbn. rewrite Hcount'. reflexivity.
Qed.

Lemma open_reuses_valid_slot_witness :
  let K := mk_kernel finding_daemon false in
  let r := vfs_call K (vnop_open file_vnode (Z.lor FREAD FWRITE) user_context)
             ioctl_world in
  slot_count ioctl_world file_vnode FUFH_RDWR = Some 1
  /\ fst r = Returned 0
  /\ slot_count (snd r) file_vnode FUFH_RDWR = Some 2
  /\ w_trace (snd r) = [].
Proof.
  intros K r. split; [reflexivity |].
  destruct (open_reuses_valid_slot K file_vnode (Z.lor FREAD FWRITE) user_context
              FUFH_RDWR ioctl_world rdwr_node eq_refl eq_refl eq_refl eq_refl
              eq_refl ltac:(cbn; lia)) as (H1 & H2 & _).
  split; [exact H1 |]. split; [exact (H2 FUFH_RDWR) | reflexivity].
Defined.

(** X7.  A close of a class whose slot has more than one user gives one use
    back and keeps the handle.  On a live session, with flags other than
    IO_NDELAY, and a count of the slot above 1: a close of a file first
    pushes the dirty pages, when there are any and the mount does not say
    not to sync on close; then, on a session with the FLUSH capability, it
    sends one FLUSH for the handle of the slot and returns the error of the
    FLUSH, 0 in the place of ENOSYS, and drops the ticket when the FLUSH
    went well.  A close of a directory, and a close on a session without
    the FLUSH capability, send no request and return 0.  One is taken from
    the count of the slot, the other slots are as they were and no RELEASE
    is sent. *)
Theorem close_keeps_handle_in_use (K : kernel) (vp : vnode) (fflag : Z)
    (context : vfs_context) (c : fufh_type) (w : world) (fv : fuse_vnode_data) :
  dead (w_data w) = false ->
  fflag <> IO_NDELAY ->
  open_class vp fflag = Some c ->
  w_nodes w !! v_fsnode vp = Some fv ->
  1 < open_count (fufh fv c) < 2 ^ 31 ->
  let pushed := close_pushes vp (w_data w) in
  let a := k_daemon K (List.length (w_trace w ++ pushed)) (flush_request fv c) in
  let r := vfs_call K (vnop_close vp fflag context) w in
  fst r = Returned (if close_flushes vp (w_data w) && negb (ans_err a =? ENOSYS)
                    then ans_err a else 0)
  /\ w_trace (snd r)
     = w_trace w ++ pushed
       ++ (if close_flushes vp (w_data w)
           then ev_wait_answer (flush_request fv c)
                :: (if nz (ans_err a) then [] else [ev_ticket_drop])
           else [])
  /\ (forall c',
        slot_count (snd r) vp c'
        = Some (if fufh_type_eqb c' c then open_count (fufh fv c) - 1
                else open_count (fufh fv c')))
  /\ dead (w_data (snd r)) = false
  /\ quiet w (snd r).
Proof.
  intros Hlive Hflag Hclass Hnode Hcount pushed a r. subst r.
  pose proof (close_flush K vp context c fflag w fv Hlive Hflag Hclass Hnode Hcount)
    as Hf.
  destruct (close_step K vp context c fflag w fv Hlive Hflag Hclass Hnode Hcount)
    as (e & w' & Hcall & Hlive' & (fv' & Hnode' & Hcount' & _) & Hq).
  cbv zeta in Hf. rewrite Hcall in Hf |- *. unfold returns in Hf.
  destruct Hf as [He Htr]. cbn [fst snd].
  split; [rewrite He; reflexivity |]. split; [exact Htr |].
  split; [| split; [exact Hlive' | exact Hq]].
  intros c'. unfold slot_count. rewrite Hnode'. cbn. rewrite Hcount'. reflexivity.
Qed.

(** A file open twice read-write, on a live session. *)
Lemma close_keeps_handle_in_use_witness :
  let K := mk_kernel finding_daemon false in
  let w := mk_world (mk_data false true capmap_all)
             [(3%N, mk_node 3 false fufh_closed fufh_closed (fufh_open 42 2))] uio0 in
  let r := vfs_call K (vnop_close file_vnode (Z.lor FREAD FWRITE) user_context) w in
  fst r = Returned 0
  /\ w_trace (snd r)
     = [ev_wait_answer {| rq_op := FUSE_FLUSH; rq_nodeid := 3; rq_in := in_flush 42 |};
        ev_ticket_drop]
  /\ slot_count (snd r) file_vnode FUFH_RDWR = Some 1.
Proof.
  intros K w r.
  destruct (close_keeps_handle_in_use K file_vnode (Z.lor FREAD FWRITE) user_context
              FUFH_RDWR w (mk_node 3 false fufh_closed fufh_closed (fufh_open 42 2))
              eq_refl ltac:(discriminate) eq_refl eq_refl ltac:(cbn; lia))
    as (H1 & Htr & H2 & _).
  split; [exact H1 |]. split; [exact Htr | exact (H2 FUFH_RDWR)].
Defined.

(** X8.  A close that has nothing to close does nothing: on a live session, the
    close that vclean makes with IO_NDELAY as its flags, and a close of a
    class whose slot is not valid, return 0 and leave the node, the session
    and the daemon alone. *)
Theorem close_without_handle_is_idle (K : kernel) (vp : vnode) (fflag : Z)
    (context : vfs_context) (w : world) (fv : fuse_vnode_data) :
  dead (w_data w) = false ->
  w_nodes w !! v_fsnode vp = Some fv ->
  fflag = IO_NDELAY
  \/ (exists c, open_class vp fflag = Some c
                /\ FUFH_IS_VALID (fufh fv c) = false) ->
  vfs_call K (vnop_close vp fflag context) w = (Returned 0, w).
Proof. apply close_idle. Qed.

Lemma close_without_handle_is_idle_witness :
  let K := mk_kernel finding_daemon false in
  vfs_call K (vnop_close file_vnode IO_NDELAY user_context) ioctl_world
  = (Returned 0, ioctl_world)
  /\ vfs_call K (vnop_close file_vnode FREAD user_context) ioctl_world
     = (Returned 0, ioctl_world).
Proof.
  intros K. split.
  - apply (close_without_handle_is_idle K file_vnode IO_NDELAY user_context
             ioctl_world rdwr_node eq_refl eq_refl). left; reflexivity.
  - apply (close_without_handle_is_idle K file_vnode FREAD user_context
             ioctl_world rdwr_node eq_refl eq_refl).
    right. exists FUFH_RDONLY. split; reflexivity.
Defined.

(** X9.  Opens and closes of a class whose slot is in use balance: on a live
    session, k opens followed by k closes of the class leave every slot of
    the vnode with the count it had, and neither OPEN nor RELEASE goes to
    the daemon; in between the count of the slot is k more. *)
Theorem open_close_balance (K : kernel) (vp : vnode) (mode fflag : Z)
    (context : vfs_context) (c : fufh_type) (k : nat) (w : world)
    (fv : fuse_vnode_data) :
  dead (w_data w) = false ->
  vnode_isfifo vp = false ->
  k_blanket_deny K vp context = false ->
  open_class vp mode = Some c ->
  open_class vp fflag = Some c ->
  fflag <> IO_NDELAY ->
  w_nodes w !! v_fsnode vp = Some fv ->
  0 < open_count (fufh fv c) ->
  open_count (fufh fv c) + Z.of_nat k < 2 ^ 31 ->
  let w1 := vfs_calls K (repeat (vnop_open vp mode context) k) w in
  let w2 := vfs_calls K (repeat (vnop_close vp fflag context) k) w1 in
  slot_count w1 vp c = Some (open_count (fufh fv c) + Z.of_nat k)
  /\ (forall c', slot_count w2 vp c' = Some (open_count (fufh fv c')))
  /\ dead (w_data w2) = false
  /\ quiet w w2.
Proof.
  intros Hlive Hfifo Hadmit Hmode Hflagc Hflag Hnode Hpos Hmax w1 w2.
  destruct (opens_in_use K vp context Hfifo Hadmit c mode k w fv
              Hlive Hmode Hnode Hpos Hmax)
    as (fv1 & Hl1 & Hn1 & Hc1 & Hq1 & _).
  fold w1 in Hl1, Hn1, Hq1.
  assert (Hcc : fufh_type_eqb c c = true) by (destruct c; reflexivity).
  pose proof (Hc1 c) as Hk. rewrite Hcc in Hk.
  destruct (closes_in_use K vp context c fflag k w1 fv1 Hl1 Hflag Hflagc Hn1
              ltac:(lia))
    as (fv2 & Hl2 & Hn2 & Hc2 & Hq2 & _).
  fold w2 in Hl2, Hn2, Hq2.
  split; [unfold slot_count; rewrite Hn1; cbn; rewrite Hk; reflexivity |].
  split; [| split; [exact Hl2 | exact (quiet_trans _ _ _ Hq1 Hq2)]].
  intros c'. unfold slot_count. rewrite Hn2. cbn. rewrite Hc2.
  destruct (fufh_type_eqb c' c) eqn:E.
  - rewrite Hk. assert (c' = c) by (destruct c, c'; cbn in E; congruence).
    subst c'. f_equal. lia.
  - rewrite (Hc1 c'), E. reflexivity.
Qed.

Lemma open_close_balance_witness :
  let K := mk_kernel finding_daemon false in
  let opens := repeat (vnop_open file_vnode (Z.lor FREAD FWRITE) user_context) 3 in
  let closes := repeat (vnop_close file_vnode (Z.lor FREAD FWRITE) user_context) 3 in
  slot_count (vfs_calls K opens ioctl_world) file_vnode FUFH_RDWR = Some 4
  /\ slot_count (vfs_calls K closes (vfs_calls K opens ioctl_world)) file_vnode
       FUFH_RDWR = Some 1
  /\ List.filter handle_traffic
       (w_trace (vfs_calls K closes (vfs_calls K opens ioctl_world))) = [].
Proof.
  intros K opens closes.
  destruct (open_close_balance K file_vnode (Z.lor FREAD FWRITE)
              (Z.lor FREAD FWRITE) user_context FUFH_RDWR 3 ioctl_world rdwr_node
              eq_refl eq_refl eq_refl eq_refl eq_refl ltac:(discriminate) eq_refl
              ltac:(cbn; lia) ltac:(cbn; lia))
    as (H1 & H2 & _).
  split; [exact H1 |]. split; [exact (H2 FUFH_RDWR) | reflexivity].
Defined.

Lemma vfs_calls_app (K : kernel) (l1 l2 : list vnop_call) (w : world) :
  vfs_calls K (l1 ++ l2) w = vfs_calls K l2 (vfs_calls K l1 w).
Proof.
  revert w. induction l1 as [|c l1 IH]; intros w; cbn; [reflexivity | apply IH].
Qed.

(** C5, as amended.  On a live session, for a vnode that is no fifo and a
    caller the blanket-denial hook admits: k opens of a class, k at least
    1 and below 2^31, from a slot that is not valid, with an OPEN that the
    daemon answers without error, and then k closes of the class with
    flags other than IO_NDELAY.  The first open sends OPEN (OPENDIR for a
    directory) and installs the handle with a count of 1; each further
    open adds one to the count and each close takes one; the closes before
    the last send nothing about handles, and the last one sends RELEASE
    (RELEASEDIR) for the handle that OPEN gave, with the open flags of the
    class.  These two are the only requests about handles; the slot ends
    with a count of 0, not valid, the other slots as they were, the
    session live. *)
Theorem open_close_pairing (K : kernel) (vp : vnode) (mode fflag : Z)
    (context : vfs_context) (c : fufh_type) (k : nat) (w : world)
    (fv : fuse_vnode_data) :
  dead (w_data w) = false ->
  vnode_isfifo vp = false ->
  k_blanket_deny K vp context = false ->
  open_class vp mode = Some c ->
  open_class vp fflag = Some c ->
  fflag <> IO_NDELAY ->
  w_nodes w !! v_fsnode vp = Some fv ->
  FUFH_IS_VALID (fufh fv c) = false ->
  (1 <= k)%nat ->
  Z.of_nat k < 2 ^ 31 ->
  let a := k_daemon K (List.length (w_trace w)) (open_request vp fv c) in
  ans_err a = 0 ->
  let opened i := opens K vp mode context i w in
  let closed i := closes K vp fflag context i (opened k) in
  (forall i, (1 <= i <= k)%nat -> slot_count (opened i) vp c = Some (Z.of_nat i))
  /\ (forall i, (i <= k)%nat ->
        slot_count (closed i) vp c = Some (Z.of_nat (k - i)%nat))
  /\ handle_requests w (opened k) [ev_wait_answer (open_request vp fv c)]
  /\ quiet (opened k) (closed (k - 1)%nat)
  /\ handle_requests w (closed k)
       [ev_wait_answer (open_request vp fv c);
        ev_wait_answer (handle_release vp fv (foo_fh (ans_open a))
                          (fuse_filehandle_xlate_to_oflags c))]
  /\ (forall c', c' <> c ->
        slot_count (closed k) vp c' = Some (open_count (fufh fv c')))
  /\ dead (w_data (closed k)) = false.
Proof.
  intros Hlive Hfifo Hadmit Hmode Hflagc Hflag Hnode Hinvalid Hk Hmax a Herr
    opened closed.
  destruct k as [|j]; [lia |].
  destruct (open_first K vp context Hfifo Hadmit c mode w fv Hlive Hmode Hnode
              Hinvalid Herr)
    as (w1 & fv1 & Hcall1 & Hlive1 & Hnode1 & Hcount1 & Hnid1 & Hfh1 & Hfl1 & Hreq1).
  assert (Hcc : fufh_type_eqb c c = true) by (destruct c; reflexivity).
  pose proof (Hcount1 c) as Hone. rewrite Hcc in Hone.
  assert (Hopened : forall i,
            opened (S i) = vfs_calls K (repeat (vnop_open vp mode context) i) w1).
  { intros i. subst opened. unfold opens. cbn [repeat vfs_calls].
    rewrite Hcall1. reflexivity. }
  assert (Hopens : forall i, (i <= j)%nat ->
            exists fvi,
              dead (w_data (opened (S i))) = false
              /\ w_nodes (opened (S i)) !! v_fsnode vp = Some fvi
              /\ (forall c', open_count (fufh fvi c')
                             = if fufh_type_eqb c' c
                               then open_count (fufh fv1 c) + Z.of_nat i
                               else open_count (fufh fv1 c'))
              /\ quiet w1 (opened (S i))
              /\ handles_kept fv1 fvi).
  { intros i Hi. rewrite Hopened.
    apply (opens_in_use K vp context Hfifo Hadmit c mode i w1 fv1 Hlive1 Hmode
             Hnode1); lia. }
  destruct (Hopens j (le_n _)) as (fvk & Hlivek & Hnodek & Hcountk & Hqk & Hkeptk).
  pose proof (Hcountk c) as Hck. rewrite Hcc, Hone in Hck.
  assert (Hcloses : forall i, (i <= j)%nat ->
            exists fvi,
              dead (w_data (closed i)) = false
              /\ w_nodes (closed i) !! v_fsnode vp = Some fvi
              /\ (forall c', open_count (fufh fvi c')
                             = if fufh_type_eqb c' c
                               then open_count (fufh fvk c) - Z.of_nat i
                               else open_count (fufh fvk c'))
              /\ quiet (opened (S j)) (closed i)
              /\ handles_kept fvk fvi).
  { intros i Hi. subst closed. unfold closes.
    apply (closes_in_use K vp context c fflag i (opened (S j)) fvk Hlivek Hflag
             Hflagc Hnodek). lia. }
  destruct (Hcloses j (le_n _)) as (fvj & Hlivej & Hnodej & Hcountj & Hqj & Hkeptj).
  pose proof (Hcountj c) as Hcj. rewrite Hcc, Hck in Hcj.
  destruct (close_last K vp context c fflag (closed j) fvj Hlivej Hflag Hflagc
              Hnodej ltac:(lia))
    as (e & wend & fvend & Hcallend & Hliveend & Hnodeend & Hcountend & Hreqend).
  assert (Hclosed : closed (S j) = wend).
  { subst closed. unfold closes. cbn [repeat].
    rewrite repeat_cons, vfs_calls_app. cbn [vfs_calls].
    unfold closes in Hcallend. rewrite Hcallend. reflexivity. }
  assert (Hopen_req :
    handle_requests w (opened (S j)) [ev_wait_answer (open_request vp fv c)]).
  { pose proof (handle_requests_trans _ _ _ _ _ Hreq1 Hqk) as H.
    rewrite app_nil_r in H. exact H. }
  split; [| split; [| split; [exact Hopen_req | split; [| split; [| split]]]]].
  - intros [|i] Hi; [lia |].
    destruct (Hopens i ltac:(lia)) as (fvi & _ & Hn & Hc & _).
    unfold slot_count. rewrite Hn. cbn. rewrite Hc, Hcc, Hone. f_equal. lia.
  - intros i Hi. destruct (Nat.eq_dec i (S j)) as [->|Hne].
    + rewrite Hclosed. unfold slot_count. rewrite Hnodeend. cbn.
      rewrite Hcountend, Hcc, Nat.sub_diag. reflexivity.
    + destruct (Hcloses i ltac:(lia)) as (fvi & _ & Hn & Hc & _).
      unfold slot_count. rewrite Hn. cbn. rewrite Hc, Hcc, Hck. f_equal. lia.
  - replace (S j - 1)%nat with j by lia. exact Hqj.
  - rewrite Hclosed.
    pose proof (handle_requests_trans _ _ _ _ _ Hopen_req
                  (handle_requests_trans _ _ _ _ _ Hqj Hreqend)) as H.
    cbn [app] in H.
    destruct Hkeptk as [Hnk Hhk]. destruct Hkeptj as [Hnj Hhj].
    destruct (Hhk c) as [Hfk Hok]. destruct (Hhj c) as [Hfj Hoj].
    unfold handle_release in *.
    rewrite Hnj, Hnk, Hnid1, Hfj, Hfk, Hfh1, Hoj, Hok, Hfl1 in H. exact H.
  - intros c' Hc'. rewrite Hclosed. unfold slot_count. rewrite Hnodeend. cbn.
    assert (E : fufh_type_eqb c' c = false)
      by (destruct c, c'; try reflexivity; contradiction).
    rewrite Hcountend, E, Hcountj, E, Hcountk, E, Hcount1, E. reflexivity.
  - rewrite Hclosed. exact Hliveend.
Qed.

Lemma open_close_pairing_witness :
  let K := mk_kernel finding_daemon false in
  let w3 := opens K file_vnode (Z.lor FREAD FWRITE) user_context 3 live_world in
  let w0 := closes K file_vnode (Z.lor FREAD FWRITE) user_context 3 w3 in
  FUFH_IS_VALID (fufh (closed_node 3) FUFH_RDWR) = false
  /\ slot_count w3 file_vnode FUFH_RDWR = Some 3
  /\ slot_count w0 file_vnode FUFH_RDWR = Some 0
  /\ List.filter handle_traffic (w_trace w0)
     = [ev_wait_answer {| rq_op := FUSE_OPEN; rq_nodeid := 3;
                          rq_in := in_open O_RDWR |};
        ev_wait_answer
          {| rq_op := FUSE_RELEASE; rq_nodeid := 3;
             rq_in := in_release 42 O_RDWR |}].
Proof.
  intros K w3 w0. split; [reflexivity |].
  destruct (open_close_pairing K file_vnode (Z.lor FREAD FWRITE)
              (Z.lor FREAD FWRITE) user_context FUFH_RDWR 3 live_world
              (closed_node 3)
              eq_refl eq_refl eq_refl eq_refl eq_refl ltac:(discriminate)
              eq_refl eq_refl ltac:(lia) ltac:(cbn; lia) eq_refl)
    as (Hup & Hdown & _ & _ & (rest & Htr & Hrest) & _).
  split; [exact (Hup 3%nat ltac:(lia)) |].
  split; [exact (Hdown 3%nat ltac:(lia)) |].
  change (w_trace w0 = w_trace live_world ++ rest) in Htr.
  rewrite Htr. exact Hrest.
Defined.

(** C5 as it is written fails: on a dead session an open returns ENXIO and
    a close 0, and neither OPEN nor RELEASE is sent. *)
Lemma open_close_on_dead_session_sends_nothing :
  ~ open_close_claim_as_stated.
Proof.
  intros H.
  destruct (H (mk_kernel finding_daemon false) file_vnode (Z.lor FREAD FWRITE)
              (Z.lor FREAD FWRITE) user_context FUFH_RDWR 1%nat dead_world
              (closed_node 3) (le_n _) eq_refl eq_refl eq_refl eq_refl)
    as (rest & Htr & Hopen & _).
  vm_compute in Htr. subst rest. vm_compute in Hopen. discriminate Hopen.
Qed.

(** ** read *)

Lemma returns_intro (Q : errno -> world -> Prop) (e : errno) (w : world) :
  Q e w -> returns Q (Returned e, w).
Proof. exact (fun H => H). Qed.

Section ReadLoop.

Variable K : kernel.
Variables (vp : vnode) (t : fufh_type) (fv : fuse_vnode_data).
Variables (d : fuse_data) (nodes : gmap N fuse_vnode_data).

Hypothesis Hnode : nodes !! v_fsnode vp = Some fv.
Hypothesis Hio : 0 < iosize d < 2 ^ 31.

Lemma read_loop_ends (fuel : nat) :
  forall w,
    w_data w = d ->
    w_nodes w = nodes ->
    0 <= uio_resid (m_uio (w_mem w)) < Z.of_nat fuel ->
    uio_resid (m_uio (w_mem w)) < 2 ^ 32 ->
    read_loop_post t fv d nodes w (read_loop K fuel vp t w).
Proof.
  induction fuel as [|fuel IH]; intros w Hd Hn Hresid H32; [lia |].
  cbn [read_loop]. unfold uiomove.
  unfold_prims; unfold_monad. cbn.
  destruct (Z.ltb_spec 0 (uio_resid (m_uio (w_mem w)))) as [Hpos|Hzero].
  2:{ unfold read_loop_post; cbn.
      split; [exists 0; left; reflexivity |].
      split; [exact Hd |]. split; [exact Hn |].
      split; [exists 0%nat; split; [lia | cbn; symmetry; apply app_nil_r] |].
      split; lia. }
  cbn. rewrite Hn, Hnode. cbn. rewrite Hd.
  set (u := m_uio (w_mem w)) in *.
  set (size := Z.min (uio_resid u) (iosize d)).
  assert (Hsize : 0 < size <= uio_resid u /\ size < 2 ^ 31) by (subst size; lia).
  assert (Hu32 : u32 size = size).
  { unfold u32. apply Z.mod_small. lia. }
  rewrite Hu32.
  repeat (rewrite ?Hn, ?Hnode; cbn).
  match goal with |- context [k_daemon K ?n ?r] => set (a := k_daemon K n r) end.
  destruct (nz (ans_err a)) eqn:Herr; cbn.
  { unfold read_loop_post; cbn.
    split; [eexists; right; reflexivity |].
    split; [exact Hd |]. split; [exact Hn |].
    split; [exists 1%nat; split; [lia | reflexivity] |].
    fold u. split; lia. }
  match goal with |- context [k_uiomove K ?n ?x] => set (me := k_uiomove K n x) end.
  destruct (nz me) eqn:Hme; cbn.
  { rewrite Hme. cbn. unfold read_loop_post; cbn.
    split; [eexists; left; reflexivity |].
    split; [exact Hd |]. split; [exact Hn |].
    split; [exists 1%nat; split; [lia | reflexivity] |].
    fold u. split; lia. }
  change (nz 0) with false. cbn.
  destruct (Z.ltb_spec (ans_iosize a) size) as [Hshort|Hfull]; cbn.
  { unfold read_loop_post; cbn.
    split; [eexists; left; reflexivity |].
    split; [exact Hd |]. split; [exact Hn |].
    split; [exists 1%nat; split; [lia | reflexivity] |].
    fold u. split; lia. }
  assert (Hmoved : Z.max 0 (Z.min (i32 (Z.min size (ans_iosize a))) (uio_resid u))
                   = size).
  { rewrite (Z.min_l size) by lia. rewrite i32_in_range by lia. lia. }
  fold u. rewrite Hmoved.
  match goal with |- read_loop_post _ _ _ _ _ (read_loop K fuel vp t ?W) =>
    pose proof (IH W Hd Hn) as Hrec; cbn in Hrec;
    specialize (Hrec ltac:(lia) ltac:(lia));
    destruct Hrec as (He & Hd' & Hn' & (n & _ & Htr) & Hsum & Hres);
    destruct (read_loop K fuel vp t W) as [o w'] eqn:Hloop
  end.
  cbn in *. unfold read_loop_post; cbn.
  split; [exact He |]. split; [exact Hd' |]. split; [exact Hn' |].
  split; [exists (S n); split; [lia | rewrite Htr, <- app_assoc; reflexivity] |].
  fold u. split; lia.
Qed.

(** With a daemon that answers every READ in full and a copy that never
    fails, the loop takes everything. *)
Hypothesis Hfull :
  forall n r fh off size,
    rq_in r = in_read fh off size ->
    ans_err (k_daemon K n r) = 0 /\ ans_iosize (k_daemon K n r) = size.
Hypothesis Hmove : forall n x, k_uiomove K n x = 0.

Lemma read_loop_takes_all (fuel : nat) :
  forall w,
    w_data w = d ->
    w_nodes w = nodes ->
    0 <= uio_resid (m_uio (w_mem w)) < Z.of_nat fuel ->
    uio_resid (m_uio (w_mem w)) < 2 ^ 32 ->
    exists w',
      read_loop K fuel vp t w = (Next 0, w')
      /\ uio_resid (m_uio (w_mem w')) = 0
      /\ w_trace w'
         = w_trace w
           ++ read_chunks
                (Z.to_nat ((uio_resid (m_uio (w_mem w)) + iosize d - 1) / iosize d))
                (nodeid fv) (fh_id (fufh fv t))
                (uio_offset (m_uio (w_mem w))) (uio_resid (m_uio (w_mem w)))
                (iosize d).
Proof.
  induction fuel as [|fuel IH]; intros w Hd Hn Hresid H32; [lia |].
  cbn [read_loop]. unfold uiomove.
  unfold_prims; unfold_monad. cbn.
  destruct (Z.ltb_spec 0 (uio_resid (m_uio (w_mem w)))) as [Hpos|Hzero].
  2:{ exists w. split; [reflexivity |]. split; [lia |].
      replace (uio_resid (m_uio (w_mem w))) with 0 by lia.
      rewrite Z.div_small by lia. cbn. symmetry; apply app_nil_r. }
  cbn. rewrite Hn, Hnode. cbn. rewrite Hd.
  set (u := m_uio (w_mem w)) in *.
  set (size := Z.min (uio_resid u) (iosize d)).
  assert (Hsize : 0 < size <= uio_resid u /\ size < 2 ^ 31) by (subst size; lia).
  assert (Hu32 : u32 size = size).
  { unfold u32. apply Z.mod_small. lia. }
  rewrite Hu32.
  repeat (rewrite ?Hn, ?Hnode; cbn).
  match goal with |- context [k_daemon K ?n ?r] =>
    destruct (Hfull n r _ _ _ eq_refl) as [Herr Hsz]; rewrite Herr, Hsz
  end.
  change (nz 0) with false. cbn. rewrite Hmove. change (nz 0) with false. cbn.
  rewrite Z.ltb_irrefl. cbn.
  assert (Hmoved : Z.max 0 (Z.min (i32 (Z.min size size)) (uio_resid u)) = size).
  { rewrite Z.min_id. rewrite i32_in_range by lia. lia. }
  fold u. rewrite Hmoved. change (nz 0) with false. cbn [orb].
  match goal with |- context [read_loop K fuel vp t ?W] =>
    pose proof (IH W Hd Hn) as Hrec; cbn in Hrec;
    specialize (Hrec ltac:(lia) ltac:(lia));
    destruct Hrec as (w' & Hloop & Hzero & Htr)
  end.
  cbn in Htr. exists w'. split; [exact Hloop |]. split; [exact Hzero |].
  rewrite Htr, <- app_assoc. cbn [app]. f_equal.
  assert (Hn' : Z.to_nat ((uio_resid u + iosize d - 1) / iosize d)
                = S (Z.to_nat ((uio_resid u - size + iosize d - 1) / iosize d))).
  { subst size. destruct (Z.le_gt_cases (uio_resid u) (iosize d)) as [Hle|Hgt].
    - rewrite Z.min_l by lia.
      replace (uio_resid u - uio_resid u + iosize d - 1) with (iosize d - 1) by lia.
      rewrite (Z.div_small (iosize d - 1)) by lia.
      replace (uio_resid u + iosize d - 1)
        with ((uio_resid u - 1) + 1 * iosize d) by lia.
      rewrite Z.div_add by lia. rewrite Z.div_small by lia. reflexivity.
    - rewrite Z.min_r by lia.
      replace (uio_resid u + iosize d - 1)
        with ((uio_resid u - iosize d + iosize d - 1) + 1 * iosize d) by lia.
      rewrite Z.div_add by lia.
      rewrite Z2Nat.inj_add; [| apply Z.div_pos; lia | lia].
      change (Z.to_nat 1) with 1%nat. lia. }
  rewrite Hn'. reflexivity.
Qed.

End ReadLoop.

(** X10.  What read turns away before it reads, on a live session, in the order
    of the checks: a vnode that is no regular file gets EISDIR when it is a
    directory and EPERM otherwise; a read of no bytes returns 0; a negative
    offset is EINVAL; a vnode without node data is EINVAL; and a direct-I/O
    read with neither the read-only nor the read-write slot valid is EIO.
    Nothing is sent and nothing changes. *)
Theorem read_argument_checks (K : kernel) (fuel : nat) (vp : vnode)
    (ioflag : Z) (context : vfs_context) (w : world) :
  dead (w_data w) = false ->
  let u := m_uio (w_mem w) in
  let r := vfs_call K (vnop_read fuel vp ioflag context) w in
  (vnode_isreg vp = false ->
   r = (Returned (if vnode_isdir vp then EISDIR else EPERM), w))
  /\ (vnode_isreg vp = true -> uio_resid u = 0 -> r = (Returned 0, w))
  /\ (vnode_isreg vp = true -> uio_resid u <> 0 -> uio_offset u < 0 ->
      r = (Returned EINVAL, w))
  /\ (vnode_isreg vp = true -> uio_resid u <> 0 -> 0 <= uio_offset u ->
      w_nodes w !! v_fsnode vp = None ->
      r = (Returned EINVAL, w))
  /\ (forall fv,
        vnode_isreg vp = true -> uio_resid u <> 0 -> 0 <= uio_offset u ->
        w_nodes w !! v_fsnode vp = Some fv ->
        direct_io fv = true ->
        direct_read_slot fv = None ->
        r = (Returned EIO, w)).
Proof.
  intros Hlive u r. subst u r.
  unfold vfs_call, fuse_vnode_operation_entries, fuse_vnop_read.
  unfold_prims; unfold_monad. cbn. rewrite Hlive. cbn.
  split; [intros ->; reflexivity |].
  split; [intros -> H0; cbn; rewrite H0; reflexivity |].
  split; [intros -> H0 Hneg; apply Z.eqb_neq in H0; apply Z.ltb_lt in Hneg;
          cbn; rewrite H0; cbn; rewrite Hneg; reflexivity |].
  split.
  - intros -> H0 Hoff Hnone. apply Z.eqb_neq in H0. apply Z.ltb_ge in Hoff.
    cbn. rewrite H0. cbn. rewrite Hoff. cbn. rewrite Hnone. reflexivity.
  - intros fv -> H0 Hoff Hnode Hdio Hslot.
    apply Z.eqb_neq in H0. apply Z.ltb_ge in Hoff.
    cbn. rewrite H0. cbn. rewrite Hoff. cbn. rewrite Hnode. cbn. rewrite Hdio.
    unfold direct_read_slot in Hslot. cbn [fufh] in Hslot.
    destruct (FUFH_IS_VALID (fufh_rdonly fv)); [discriminate |].
    destruct (FUFH_IS_VALID (fufh_rdwr fv)); [discriminate |].
    reflexivity.
Qed.

Lemma read_argument_checks_witness :
  let K := mk_kernel finding_daemon false in
  let w := mk_world (mk_data false true capmap_all)
             [(2%N, closed_node 2); (3%N, mk_node 3 true fufh_closed fufh_closed fufh_closed)]
             {| uio_resid := 100; uio_offset := 0; uio_iovcnt := 1 |} in
  vfs_call K (vnop_read 200 dir_vnode 0 user_context) w = (Returned EISDIR, w)
  /\ vfs_call K (vnop_read 200 file_vnode 0 user_context) w = (Returned EIO, w).
Proof.
  intros K w. split.
  - destruct (read_argument_checks K 200 dir_vnode 0 user_context w eq_refl)
      as (H & _). exact (H eq_refl).
  - destruct (read_argument_checks K 200 file_vnode 0 user_context w eq_refl)
      as (_ & _ & _ & _ & H).
    apply (H (mk_node 3 true fufh_closed fufh_closed fufh_closed));
      try reflexivity; cbn; lia.
Defined.

(** X11.  A direct-I/O read on a live session, of a file with a valid read-only
    or read-write slot, for an I/O size of the session and a request of the
    caller that fit in 31 and 32 bits: the read ends; what it sends are READ
    requests on the handle of the read-only slot, or of the read-write slot
    when that one is not valid, at least one, each for what is left to read
    and at most the I/O size, each where the one before ended; after them
    comes at most the drop of the ticket; and the uio has moved on by what
    was taken, never past what was asked for. *)
Theorem direct_read_requests (K : kernel) (fuel : nat) (vp : vnode)
    (ioflag : Z) (context : vfs_context) (w : world) (fv : fuse_vnode_data)
    (t : fufh_type) :
  dead (w_data w) = false ->
  vnode_isreg vp = true ->
  w_nodes w !! v_fsnode vp = Some fv ->
  direct_io fv = true ->
  direct_read_slot fv = Some t ->
  0 < iosize (w_data w) < 2 ^ 31 ->
  let u := m_uio (w_mem w) in
  0 < uio_resid u < 2 ^ 32 ->
  0 <= uio_offset u ->
  uio_resid u < Z.of_nat fuel ->
  let r := vfs_call K (vnop_read fuel vp ioflag context) w in
  let u' := m_uio (w_mem (snd r)) in
  (exists e, fst r = Returned e)
  /\ (exists n tail,
        (1 <= n)%nat
        /\ (tail = [] \/ tail = [ev_ticket_drop])
        /\ w_trace (snd r)
           = w_trace w
             ++ read_chunks n (nodeid fv) (fh_id (fufh fv t))
                  (uio_offset u) (uio_resid u) (iosize (w_data w))
             ++ tail)
  /\ uio_offset u' + uio_resid u' = uio_offset u + uio_resid u
  /\ 0 <= uio_resid u' <= uio_resid u.
Proof.
  intros Hlive Hreg Hnode Hdio Hslot Hio u Hresid Hoff Hfuel r u'.
  subst r u' u.
  pose proof (read_loop_ends K vp t fv (w_data w) (w_nodes w) Hnode Hio fuel w
                eq_refl eq_refl ltac:(lia) ltac:(lia)) as Hloop.
  unfold vfs_call, fuse_vnode_operation_entries, fuse_vnop_read.
  unfold_prims; unfold_monad. cbn. rewrite Hlive. cbn. rewrite Hreg. cbn.
  replace (uio_resid (m_uio (w_mem w)) =? 0) with false
    by (symmetry; apply Z.eqb_neq; lia).
  replace (uio_offset (m_uio (w_mem w)) <? 0) with false
    by (symmetry; apply Z.ltb_ge; lia).
  cbn. rewrite Hnode. cbn. rewrite Hdio.
  unfold direct_read_slot in Hslot. cbn [fufh] in Hslot.
  assert (Hgo :
    (if FUFH_IS_VALID (fufh_rdonly fv) then Some FUFH_RDONLY
     else if FUFH_IS_VALID (fufh_rdwr fv) then Some FUFH_RDWR else None) = Some t)
    by exact Hslot.
  rewrite Hgo. cbn.
  destruct (read_loop K fuel vp t w) as [o w'].
  destruct Hloop as ([e He] & _ & _ & (n & Hn & Htr) & Hsum & Hres).
  cbn in He, Htr, Hsum, Hres.
  destruct He as [-> | ->]; cbn.
  - split; [exists e; reflexivity |].
    split; [exists n, [ev_ticket_drop]; split; [lia |]; split; [right; reflexivity |];
            rewrite Htr, <- app_assoc; reflexivity |].
    split; lia.
  - split; [exists e; reflexivity |].
    split; [exists n, []; split; [lia |]; split; [left; reflexivity |];
            rewrite Htr, app_nil_r; reflexivity |].
    split; lia.
Qed.

Lemma direct_read_requests_witness :
  let K := mk_kernel short_daemon false in
  let r := vfs_call K (vnop_read (Z.to_nat 9001) file_vnode 0 user_context)
             (direct_world 9000 0) in
  direct_read_slot direct_node = Some FUFH_RDONLY
  /\ fst r = Returned 0
  /\ w_trace (snd r)
     = read_chunks 2 3 42 0 9000 4096 ++ [ev_ticket_drop]
  /\ uio_offset (m_uio (w_mem (snd r))) = 4596
  /\ uio_resid (m_uio (w_mem (snd r))) = 4404
  /\ uio_offset (m_uio (w_mem (snd r))) + uio_resid (m_uio (w_mem (snd r)))
     = 0 + 9000.
Proof.
  intros K r. split; [reflexivity |].
  destruct (direct_read_requests K (Z.to_nat 9001) file_vnode 0 user_context
              (direct_world 9000 0) direct_node FUFH_RDONLY
              eq_refl eq_refl eq_refl eq_refl eq_refl
              ltac:(cbn; lia) ltac:(cbn; lia) ltac:(cbn; lia) ltac:(cbn [direct_world mk_world w_mem m_uio mem_set_uio uio_resid]; lia))
    as (_ & _ & Hsum & _).
  split; [vm_compute; reflexivity |].
  split; [vm_compute; reflexivity |].
  split; [vm_compute; reflexivity |].
  split; [vm_compute; reflexivity |].
  exact Hsum.
Defined.

(** X12.  With a daemon that answers every READ in full and a copy to the caller
    that does not fail, such a direct-I/O read takes all it was asked for:
    it returns 0, the uio is left with nothing to read at the end of the
    range, and what went out are the READ requests for the whole range,
    one for each I/O size or part of it, and then the drop of the ticket. *)
Theorem direct_read_takes_all (K : kernel) (fuel : nat) (vp : vnode)
    (ioflag : Z) (context : vfs_context) (w : world) (fv : fuse_vnode_data)
    (t : fufh_type) :
  (forall n r fh off size,
     rq_in r = in_read fh off size ->
     ans_err (k_daemon K n r) = 0 /\ ans_iosize (k_daemon K n r) = size) ->
  (forall n x, k_uiomove K n x = 0) ->
  dead (w_data w) = false ->
  vnode_isreg vp = true ->
  w_nodes w !! v_fsnode vp = Some fv ->
  direct_io fv = true ->
  direct_read_slot fv = Some t ->
  0 < iosize (w_data w) < 2 ^ 31 ->
  let u := m_uio (w_mem w) in
  0 < uio_resid u < 2 ^ 32 ->
  0 <= uio_offset u ->
  uio_resid u < Z.of_nat fuel ->
  let r := vfs_call K (vnop_read fuel vp ioflag context) w in
  let u' := m_uio (w_mem (snd r)) in
  fst r = Returned 0
  /\ uio_resid u' = 0
  /\ uio_offset u' = uio_offset u + uio_resid u
  /\ w_trace (snd r)
     = w_trace w
       ++ read_chunks
            (Z.to_nat ((uio_resid u + iosize (w_data w) - 1) / iosize (w_data w)))
            (nodeid fv) (fh_id (fufh fv t))
            (uio_offset u) (uio_resid u) (iosize (w_data w))
       ++ [ev_ticket_drop].
Proof.
  intros Hfull Hmove Hlive Hreg Hnode Hdio Hslot Hio u Hresid Hoff Hfuel r u'.
  subst r u' u.
  pose proof (read_loop_ends K vp t fv (w_data w) (w_nodes w) Hnode Hio fuel w
                eq_refl eq_refl ltac:(lia) ltac:(lia)) as Hloop.
  destruct (read_loop_takes_all K vp t fv (w_data w) (w_nodes w) Hnode Hio
              Hfull Hmove fuel w eq_refl eq_refl ltac:(lia) ltac:(lia))
    as (w' & Hrun & Hzero & Htr).
  rewrite Hrun in Hloop.
  destruct Hloop as (_ & _ & _ & _ & Hsum & _). cbn in Hsum.
  unfold vfs_call, fuse_vnode_operation_entries, fuse_vnop_read.
  unfold_prims; unfold_monad. cbn. rewrite Hlive. cbn. rewrite Hreg. cbn.
  replace (uio_resid (m_uio (w_mem w)) =? 0) with false
    by (symmetry; apply Z.eqb_neq; lia).
  replace (uio_offset (m_uio (w_mem w)) <? 0) with false
    by (symmetry; apply Z.ltb_ge; lia).
  cbn. rewrite Hnode. cbn. rewrite Hdio.
  unfold direct_read_slot in Hslot. cbn [fufh] in Hslot.
  assert (Hgo :
    (if FUFH_IS_VALID (fufh_rdonly fv) then Some FUFH_RDONLY
     else if FUFH_IS_VALID (fufh_rdwr fv) then Some FUFH_RDWR else None) = Some t)
    by exact Hslot.
  rewrite Hgo. cbn. rewrite Hrun. cbn.
  split; [reflexivity |]. split; [exact Hzero |]. split; [lia |].
  rewrite Htr, <- app_assoc. reflexivity.
Qed.

Lemma direct_read_takes_all_witness :
  let K := mk_kernel full_daemon false in
  let r := vfs_call K (vnop_read (Z.to_nat 9001) file_vnode 0 user_context)
             (direct_world 9000 0) in
  fst r = Returned 0
  /\ uio_resid (m_uio (w_mem (snd r))) = 0
  /\ uio_offset (m_uio (w_mem (snd r))) = 9000
  /\ w_trace (snd r)
     = [ev_wait_answer {| rq_op := FUSE_READ; rq_nodeid := 3;
                          rq_in := in_read 42 0 4096 |};
        ev_wait_answer {| rq_op := FUSE_READ; rq_nodeid := 3;
                          rq_in := in_read 42 4096 4096 |};
        ev_wait_answer {| rq_op := FUSE_READ; rq_nodeid := 3;
                          rq_in := in_read 42 8192 808 |};
        ev_ticket_drop].
Proof.
  intros K r.
  assert (Hfull : forall n r fh off size,
            rq_in r = in_read fh off size ->
            ans_err (k_daemon K n r) = 0 /\ ans_iosize (k_daemon K n r) = size).
  { intros n q fh off size Hq. cbn. unfold full_daemon. rewrite Hq.
    split; reflexivity. }
  exact (direct_read_takes_all K (Z.to_nat 9001) file_vnode 0 user_context
           (direct_world 9000 0) direct_node FUFH_RDONLY Hfull
           (fun _ _ => eq_refl) eq_refl eq_refl eq_refl eq_refl eq_refl
           ltac:(cbn; lia) ltac:(cbn; lia) ltac:(cbn; lia) ltac:(cbn [direct_world mk_world w_mem m_uio mem_set_uio uio_resid]; lia)).
Defined.

(** ** The loop of a direct-I/O read, reply by reply *)

Lemma read_request_shift (nid fh off resid ios : Z) (i : nat) :
  read_request nid fh (off + ios) (resid - ios) ios i
  = read_request nid fh off resid ios (S i).
Proof.
  unfold read_request, read_size. rewrite Nat2Z.inj_succ.
  f_equal. f_equal; [lia | f_equal; lia].
Qed.

Lemma read_request_first (nid fh off resid ios : Z) :
  read_request nid fh off resid ios 0
  = {| rq_op := FUSE_READ; rq_nodeid := nid;
       rq_in := in_read fh off (Z.min resid ios) |}.
Proof.
  unfold read_request, read_size. cbn [Z.of_nat].
  f_equal. f_equal; [lia | f_equal; lia].
Qed.

Lemma read_requests_cons (nid fh off resid ios : Z) (n : nat) :
  map (fun i => ev_wait_answer (read_request nid fh off resid ios i)) (seq 0 (S n))
  = ev_wait_answer (read_request nid fh off resid ios 0)
    :: map (fun i => ev_wait_answer
                       (read_request nid fh (off + ios) (resid - ios) ios i))
         (seq 0 n).
Proof.
  cbn [seq map]. f_equal. rewrite <- seq_shift, map_map.
  apply List.map_ext. intros i. rewrite read_request_shift. reflexivity.
Qed.

Section ReadRun.

Variable K : kernel.
Variables (vp : vnode) (t : fufh_type) (fv : fuse_vnode_data).
Variables (d : fuse_data) (nodes : gmap N fuse_vnode_data).

Hypothesis Hnode : nodes !! v_fsnode vp = Some fv.
Hypothesis Hio : 0 < iosize d < 2 ^ 31.
Hypothesis Hmove : forall n x, k_uiomove K n x = 0.

Let rq (off resid : Z) (i : nat) : request :=
  read_request (nodeid fv) (fh_id (fufh fv t)) off resid (iosize d) i.

(** The replies before the [k]-th are without error and of the size asked
    for, the [k]-th is without error and short, or is the reply to the
    last request of the range: the loop ends there. *)
Lemma read_loop_run (k : nat) :
  forall fuel w,
    w_data w = d ->
    w_nodes w = nodes ->
    let off := uio_offset (m_uio (w_mem w)) in
    let resid := uio_resid (m_uio (w_mem w)) in
    let a i := k_daemon K (List.length (w_trace w) + i) (rq off resid i) in
    Z.of_nat k * iosize d < resid ->
    resid < 2 ^ 32 ->
    resid < Z.of_nat fuel ->
    (forall i, (i <= k)%nat -> ans_err (a i) = 0) ->
    (forall i, (i < k)%nat -> ans_iosize (a i) = read_size resid (iosize d) i) ->
    0 <= ans_iosize (a k) <= read_size resid (iosize d) k ->
    ans_iosize (a k) < read_size resid (iosize d) k
    \/ resid <= (Z.of_nat k + 1) * iosize d ->
    exists w',
      read_loop K fuel vp t w = (Next 0, w')
      /\ w_trace w'
         = w_trace w ++ map (fun i => ev_wait_answer (rq off resid i)) (seq 0 (S k))
      /\ uio_resid (m_uio (w_mem w'))
         = resid - (Z.of_nat k * iosize d + ans_iosize (a k))
      /\ uio_offset (m_uio (w_mem w'))
         = off + (Z.of_nat k * iosize d + ans_iosize (a k)).
Proof.
  induction k as [|k IH];
    intros fuel w Hd Hn off resid a Hk H32 Hfuel Herr Hfull Hlast Hend.
  - (* the first request is where the loop ends *)
    destruct fuel as [|fuel]; [lia |].
    subst a. cbn beta in *. unfold rq in *.
    remember (map _ (seq 0 1)) as reqs eqn:Hreqs.
    pose proof (Herr 0%nat ltac:(lia)) as Herr0.
    rewrite read_request_first, Nat.add_0_r in Herr0, Hlast, Hend |- *.
    unfold read_size in Hlast, Hend. cbn [Z.of_nat] in Hlast, Hend, Hk.
    rewrite Z.mul_0_l, Z.sub_0_r in Hlast, Hend.
    cbn [read_loop]. unfold uiomove.
    unfold_prims; unfold_monad. cbn.
    fold off resid.
    replace (0 <? resid) with true by (symmetry; apply Z.ltb_lt; lia).
    cbn. rewrite Hn, Hnode. cbn. rewrite Hd.
    set (size := Z.min resid (iosize d)) in *.
    assert (Hsize : 0 < size <= resid /\ size < 2 ^ 31) by (subst size; lia).
    assert (Hu32 : u32 size = size).
    { unfold u32. apply Z.mod_small. lia. }
    rewrite Hu32.
    repeat (rewrite ?Hn, ?Hnode; cbn).
    set (a0 := k_daemon K (List.length (w_trace w))
                 {| rq_op := FUSE_READ; rq_nodeid := nodeid fv;
                    rq_in := in_read (fh_id (fufh fv t)) off size |}) in *.
    rewrite Herr0. change (nz 0) with false. cbn.
    rewrite Hmove. change (nz 0) with false. cbn.
    assert (Hmoved : Z.max 0 (Z.min (i32 (Z.min size (ans_iosize a0))) resid)
                     = ans_iosize a0).
    { rewrite (Z.min_r size) by lia. rewrite i32_in_range by lia. lia. }
    fold resid. rewrite Hmoved.
    destruct (Z.ltb_spec (ans_iosize a0) size) as [Hshort|Hwhole]; cbn.
    + eexists. split; [reflexivity |]. subst reqs. cbn.
      rewrite read_request_first. fold size.
      split; [reflexivity |]. fold off resid. split; lia.
    + assert (Hall : ans_iosize a0 = resid) by (subst size; lia).
      destruct fuel as [|fuel]; [lia |].
      cbn [read_loop]. unfold_prims; unfold_monad. cbn.
      fold resid. rewrite Hall, Z.sub_diag. cbn.
      eexists. split; [reflexivity |]. subst reqs. cbn.
      rewrite read_request_first. fold size.
      split; [reflexivity |]. fold off resid. split; lia.
  - (* the first request is answered in full and the loop goes on *)
    destruct fuel as [|fuel]; [lia |].
    assert (Hbig : iosize d < resid).
    { rewrite Nat2Z.inj_succ in Hk. nia. }
    pose proof (Herr 0%nat ltac:(lia)) as Herr0.
    pose proof (Hfull 0%nat ltac:(lia)) as Hfull0.
    subst a. cbn beta in *. unfold rq in *.
    remember (map _ (seq 0 (S (S k)))) as reqs eqn:Hreqs.
    rewrite read_request_first, Nat.add_0_r in Herr0, Hfull0.
    unfold read_size in Hfull0. cbn [Z.of_nat] in Hfull0.
    rewrite Z.mul_0_l, Z.sub_0_r in Hfull0.
    cbn [read_loop]. unfold uiomove.
    unfold_prims; unfold_monad. cbn.
    fold off resid.
    replace (0 <? resid) with true by (symmetry; apply Z.ltb_lt; lia).
    cbn. rewrite Hn, Hnode. cbn. rewrite Hd.
    set (size := Z.min resid (iosize d)) in *.
    assert (Hsize : size = iosize d) by (subst size; lia).
    assert (Hu32 : u32 size = size).
    { unfold u32. apply Z.mod_small. lia. }
    rewrite Hu32.
    repeat (rewrite ?Hn, ?Hnode; cbn).
    set (a0 := k_daemon K (List.length (w_trace w))
                 {| rq_op := FUSE_READ; rq_nodeid := nodeid fv;
                    rq_in := in_read (fh_id (fufh fv t)) off size |}) in *.
    rewrite Herr0. change (nz 0) with false. cbn.
    rewrite Hmove. change (nz 0) with false. cbn.
    rewrite Hfull0, Z.ltb_irrefl. cbn.
    assert (Hmoved : Z.max 0 (Z.min (i32 (Z.min size size)) resid) = iosize d).
    { rewrite Z.min_id. rewrite i32_in_range by lia. lia. }
    fold resid. rewrite Hmoved. change (nz 0) with false. cbn [orb].
    match goal with |- context [read_loop K fuel vp t ?W] =>
      pose proof (IH fuel W Hd Hn) as Hrec
    end.
    remember (map _ (seq 0 (S k))) as reqs' eqn:Hreqs' in Hrec.
    cbn in Hrec. fold off resid in Hrec.
    cbn [w_mem with_mem with_trace m_uio mem_set_uio uio_resid uio_offset]
      in Hreqs'.
    fold off resid in Hreqs'.
    assert (Hidx : forall i, (List.length (w_trace w ++ [ev_wait_answer
                       {| rq_op := FUSE_READ; rq_nodeid := nodeid fv;
                          rq_in := in_read (fh_id (fufh fv t)) off size |}]) + i
                    = List.length (w_trace w) + S i)%nat).
    { intros i. rewrite length_app. cbn. lia. }
    rewrite Nat2Z.inj_succ in Hk, Hend |- *.
    destruct Hrec as (w' & Hloop & Htr & Hres & Hoff).
    + lia.
    + lia.
    + lia.
    + intros i Hi. rewrite Hidx, read_request_shift. apply Herr. lia.
    + intros i Hi. rewrite Hidx, read_request_shift.
      rewrite (Hfull (S i)) by lia. unfold read_size.
      rewrite Nat2Z.inj_succ. f_equal. lia.
    + rewrite Hidx, read_request_shift. unfold read_size in *.
      rewrite Nat2Z.inj_succ in Hlast.
      replace (resid - iosize d - Z.of_nat k * iosize d)
        with (resid - Z.succ (Z.of_nat k) * iosize d) by lia.
      exact Hlast.
    + rewrite Hidx, read_request_shift. unfold read_size in *.
      rewrite Nat2Z.inj_succ in Hend.
      replace (resid - iosize d - Z.of_nat k * iosize d)
        with (resid - Z.succ (Z.of_nat k) * iosize d) by lia.
      destruct Hend as [Hshort|Hl]; [left; exact Hshort | right; lia].
    + rewrite Hidx, read_request_shift in Hres, Hoff.
      exists w'. split; [exact Hloop |].
      split; [| split; lia].
      rewrite Htr, <- app_assoc. cbn [app]. f_equal. subst reqs reqs'.
      rewrite (read_requests_cons _ _ off resid _ (S k)), read_request_first.
      reflexivity.
Qed.

End ReadRun.

(** The requests of the loop, one by one. *)
Lemma read_chunks_requests (nid fh ios : Z) (n : nat) :
  0 < ios ->
  forall off resid,
    Z.of_nat n * ios < resid + ios ->
    read_chunks n nid fh off resid ios
    = map (fun i => ev_wait_answer (read_request nid fh off resid ios i)) (seq 0 n).
Proof.
  intros Hios. induction n as [|n IH]; intros off resid Hn; [reflexivity |].
  rewrite read_requests_cons, read_request_first. cbn [read_chunks].
  f_equal. destruct n as [|n]; [reflexivity |].
  rewrite !Nat2Z.inj_succ in Hn.
  rewrite (Z.min_r resid ios) by nia.
  apply IH. rewrite Nat2Z.inj_succ. nia.
Qed.

(** C1, as amended.  A read of a regular file whose node is direct-I/O, on a
    live session with an I/O size that fits in 31 bits, of more than 0 and
    less than 2^32 bytes at an offset that is not negative.  With neither
    the read-only nor the read-write slot valid it returns EIO and sends
    nothing.  Otherwise it uses the handle of the read-only slot, or of
    the read-write slot when that one is not valid; the read ends; what it
    sends are READ requests on that handle, at least one, each for what is
    left to read and at most the I/O size, where the one before ended, and
    after them at most the drop of the ticket.  When the replies before
    the k-th (from 0) are without error and of the size asked for, the
    k-th reply is without error and the copy to the caller does not fail,
    a k-th reply that is shorter than asked for, or that answers the last
    request of the range, ends the loop when its bytes are copied: the read
    returns 0, the k+1 requests and the drop of the ticket are all that
    went out, and the caller has the k full chunks and the bytes of the
    k-th reply. *)
Theorem direct_read_loop (K : kernel) (fuel : nat) (vp : vnode)
    (ioflag : Z) (context : vfs_context) (w : world) (fv : fuse_vnode_data) :
  dead (w_data w) = false ->
  vnode_isreg vp = true ->
  w_nodes w !! v_fsnode vp = Some fv ->
  direct_io fv = true ->
  0 < iosize (w_data w) < 2 ^ 31 ->
  let u := m_uio (w_mem w) in
  0 < uio_resid u < 2 ^ 32 ->
  0 <= uio_offset u ->
  uio_resid u < Z.of_nat fuel ->
  let r := vfs_call K (vnop_read fuel vp ioflag context) w in
  let u' := m_uio (w_mem (snd r)) in
  (direct_read_slot fv = None -> r = (Returned EIO, w))
  /\ (forall t,
        direct_read_slot fv = Some t ->
        let chunks n :=
          read_chunks n (nodeid fv) (fh_id (fufh fv t))
            (uio_offset u) (uio_resid u) (iosize (w_data w)) in
        let rq :=
          read_request (nodeid fv) (fh_id (fufh fv t))
            (uio_offset u) (uio_resid u) (iosize (w_data w)) in
        let size := read_size (uio_resid u) (iosize (w_data w)) in
        let a i := k_daemon K (List.length (w_trace w) + i) (rq i) in
        (exists e, fst r = Returned e)
        /\ (exists n tail,
              (1 <= n)%nat
              /\ (tail = [] \/ tail = [ev_ticket_drop])
              /\ w_trace (snd r) = w_trace w ++ chunks n ++ tail)
        /\ (forall k : nat,
              Z.of_nat k * iosize (w_data w) < uio_resid u ->
              (forall n x, k_uiomove K n x = 0) ->
              (forall i, (i <= k)%nat -> ans_err (a i) = 0) ->
              (forall i, (i < k)%nat -> ans_iosize (a i) = size i) ->
              0 <= ans_iosize (a k) <= size k ->
              ans_iosize (a k) < size k
              \/ uio_resid u <= (Z.of_nat k + 1) * iosize (w_data w) ->
              fst r = Returned 0
              /\ w_trace (snd r) = w_trace w ++ chunks (S k) ++ [ev_ticket_drop]
              /\ chunks (S k) = map (fun i => ev_wait_answer (rq i)) (seq 0 (S k))
              /\ uio_resid u'
                 = uio_resid u
                   - (Z.of_nat k * iosize (w_data w) + ans_iosize (a k))
              /\ uio_offset u'
                 = uio_offset u
                   + (Z.of_nat k * iosize (w_data w) + ans_iosize (a k)))).
Proof.
  intros Hlive Hreg Hnode Hdio Hio u Hresid Hoff Hfuel r u'.
  assert (Hstart : forall t,
    direct_read_slot fv = Some t ->
    r = (let (o, w') := read_loop K fuel vp t w in
         match o with
         | Next e => (Returned e, with_trace w' (w_trace w' ++ [ev_ticket_drop]))
         | Return e => (Returned e, w')
         | Panic => (Panicked, w')
         | Hang => (Hung, w')
         end)).
  { intros t Hslot. subst r u.
    unfold vfs_call, fuse_vnode_operation_entries, fuse_vnop_read.
    unfold_prims; unfold_monad. cbn. rewrite Hlive. cbn. rewrite Hreg. cbn.
    replace (uio_resid (m_uio (w_mem w)) =? 0) with false
      by (symmetry; apply Z.eqb_neq; lia).
    replace (uio_offset (m_uio (w_mem w)) <? 0) with false
      by (symmetry; apply Z.ltb_ge; lia).
    cbn. rewrite Hnode. cbn. rewrite Hdio.
    unfold direct_read_slot in Hslot. cbn [fufh] in Hslot.
    assert (Hgo :
      (if FUFH_IS_VALID (fufh_rdonly fv) then Some FUFH_RDONLY
       else if FUFH_IS_VALID (fufh_rdwr fv) then Some FUFH_RDWR else None) = Some t)
      by exact Hslot.
    rewrite Hgo. cbn.
    destruct (read_loop K fuel vp t w) as [[e|e| |] w']; reflexivity. }
  split.
  - intros Hslot. subst r u.
    unfold vfs_call, fuse_vnode_operation_entries, fuse_vnop_read.
    unfold_prims; unfold_monad. cbn. rewrite Hlive. cbn. rewrite Hreg. cbn.
    replace (uio_resid (m_uio (w_mem w)) =? 0) with false
      by (symmetry; apply Z.eqb_neq; lia).
    replace (uio_offset (m_uio (w_mem w)) <? 0) with false
      by (symmetry; apply Z.ltb_ge; lia).
    cbn. rewrite Hnode. cbn. rewrite Hdio.
    unfold direct_read_slot in Hslot. cbn [fufh] in Hslot.
    destruct (FUFH_IS_VALID (fufh_rdonly fv)); [discriminate |].
    destruct (FUFH_IS_VALID (fufh_rdwr fv)); [discriminate |].
    reflexivity.
  - intros t Hslot chunks rq size a.
    pose proof (Hstart t Hslot) as Hr.
    pose proof (read_loop_ends K vp t fv (w_data w) (w_nodes w) Hnode Hio fuel w
                  eq_refl eq_refl ltac:(subst u; lia) ltac:(subst u; lia)) as Hloop.
    split; [| split].
    + destruct (read_loop K fuel vp t w) as [o w'].
      destruct Hloop as ([e He] & _). cbn in He.
      destruct He as [-> | ->]; rewrite Hr; exists e; reflexivity.
    + destruct (read_loop K fuel vp t w) as [o w'].
      destruct Hloop as ([e He] & _ & _ & (n & Hn & Htr) & _).
      cbn in He, Htr.
      destruct He as [-> | ->]; rewrite Hr; cbn.
      * exists n, [ev_ticket_drop]. split; [subst u; lia |].
        split; [right; reflexivity |].
        rewrite Htr, <- app_assoc. reflexivity.
      * exists n, []. split; [subst u; lia |].
        split; [left; reflexivity |].
        rewrite Htr, app_nil_r. reflexivity.
    + intros k Hk Hmove Herr Hfull Hlast Hend.
      destruct (read_loop_run K vp t fv (w_data w) (w_nodes w) Hnode Hio Hmove
                  k fuel w eq_refl eq_refl Hk ltac:(subst u; lia) Hfuel
                  Herr Hfull Hlast Hend)
        as (w' & Hrun & Htr & Hres & Hoff').
      assert (Hchunks :
        chunks (S k) = map (fun i => ev_wait_answer (rq i)) (seq 0 (S k))).
      { subst chunks rq. cbn beta. apply read_chunks_requests; [lia |].
        rewrite Nat2Z.inj_succ. lia. }
      rewrite Hr, Hrun. cbn [fst snd w_trace with_trace].
      split; [reflexivity |].
      split; [rewrite Htr, Hchunks, <- app_assoc; reflexivity |].
      split; [exact Hchunks |].
      subst u'. rewrite Hr, Hrun. cbn. split; [exact Hres | exact Hoff'].
Qed.

Lemma direct_read_loop_witness :
  let r := vfs_call (mk_kernel full_daemon false)
             (vnop_read (Z.to_nat 9001) file_vnode 0 user_context)
             (direct_world 9000 0) in
  let r' := vfs_call (mk_kernel short_daemon false)
              (vnop_read (Z.to_nat 9001) file_vnode 0 user_context)
              (direct_world 9000 0) in
  w_trace (snd r)
  = [ev_wait_answer {| rq_op := FUSE_READ; rq_nodeid := 3;
                       rq_in := in_read 42 0 4096 |};
     ev_wait_answer {| rq_op := FUSE_READ; rq_nodeid := 3;
                       rq_in := in_read 42 4096 4096 |};
     ev_wait_answer {| rq_op := FUSE_READ; rq_nodeid := 3;
                       rq_in := in_read 42 8192 808 |};
     ev_ticket_drop]
  /\ fst r' = Returned 0
  /\ w_trace (snd r')
     = [ev_wait_answer {| rq_op := FUSE_READ; rq_nodeid := 3;
                          rq_in := in_read 42 0 4096 |};
        ev_wait_answer {| rq_op := FUSE_READ; rq_nodeid := 3;
                          rq_in := in_read 42 4096 4096 |};
        ev_ticket_drop]
  /\ uio_offset (m_uio (w_mem (snd r'))) = 4596
  /\ uio_resid (m_uio (w_mem (snd r'))) = 9000 - 4596.
Proof.
  intros r r'.
  assert (Hfuel : 9000 < Z.of_nat (Z.to_nat 9001)) by (rewrite Z2Nat.id; lia).
  destruct (direct_read_loop (mk_kernel full_daemon false) (Z.to_nat 9001)
              file_vnode 0 user_context (direct_world 9000 0) direct_node
              eq_refl eq_refl eq_refl eq_refl ltac:(cbn; lia) ltac:(cbn; lia)
              ltac:(cbn; lia) Hfuel) as [_ Hfull].
  destruct (Hfull FUFH_RDONLY eq_refl) as (_ & _ & Hrun).
  destruct (Hrun 2%nat ltac:(cbn; lia) ltac:(reflexivity)
              ltac:(intros i Hi; reflexivity)
              ltac:(intros [|[|i]] Hi; [reflexivity | reflexivity | lia])
              ltac:(vm_compute; split; discriminate)
              ltac:(right; cbn; lia))
    as (_ & Htr & _).
  destruct (direct_read_loop (mk_kernel short_daemon false) (Z.to_nat 9001)
              file_vnode 0 user_context (direct_world 9000 0) direct_node
              eq_refl eq_refl eq_refl eq_refl ltac:(cbn; lia) ltac:(cbn; lia)
              ltac:(cbn; lia) Hfuel) as [_ Hshort].
  destruct (Hshort FUFH_RDONLY eq_refl) as (_ & _ & Hrun').
  destruct (Hrun' 1%nat ltac:(cbn; lia) ltac:(reflexivity)
              ltac:(intros i Hi; reflexivity)
              ltac:(intros [|i] Hi; [reflexivity | lia])
              ltac:(vm_compute; split; discriminate)
              ltac:(left; vm_compute; reflexivity))
    as (Hres & Htr' & _ & Hleft & Hoff).
  split; [exact Htr |]. split; [exact Hres |]. split; [exact Htr' |].
  split; [exact Hoff | exact Hleft].
Defined.

(** C1 as it is written fails: on a dead session the read returns ENXIO and
    no READ is sent. *)
Lemma read_on_dead_session_sends_nothing :
  ~ read_claim_as_stated.
Proof.
  intros H.
  destruct (H (mk_kernel full_daemon false) (Z.to_nat 9001) file_vnode 0
              user_context (dead_direct_world 9000 0) direct_node FUFH_RDONLY
              eq_refl eq_refl eq_refl ltac:(vm_compute; reflexivity)
              ltac:(vm_compute; discriminate) ltac:(vm_compute; reflexivity))
    as [rest Hrest].
  vm_compute in Hrest. discriminate Hrest.
Qed.

(** ** write *)

Section WriteLoop.

Variable K : kernel.
Variables (vp : vnode) (t : fufh_type) (fv : fuse_vnode_data).
Variables (d : fuse_data) (nodes : gmap N fuse_vnode_data).

Hypothesis Hnode : nodes !! v_fsnode vp = Some fv.
Hypothesis Hio : 0 < iosize d < 2 ^ 31.
Hypothesis Hmove : forall n x, k_uiomove K n x = 0.

Ltac write_iteration w Hd Hn :=
  cbn [write_loop]; unfold uiomove;
  unfold_prims; unfold_monad; cbn;
  destruct (Z.ltb_spec 0 (uio_resid (m_uio (w_mem w)))) as [Hpos|Hzero];
  [ cbn; rewrite Hn, Hnode; cbn; rewrite Hd;
    repeat (rewrite ?Hn, ?Hnode; cbn);
    rewrite Hmove; change (nz 0) with false; cbn | ].

(** A daemon that takes every WRITE in full. *)
Lemma write_loop_takes_all (fuel : nat) :
  (forall n r fh off size,
     rq_in r = in_write fh off size ->
     ans_err (k_daemon K n r) = 0 /\ ans_size (k_daemon K n r) = size) ->
  forall w,
    w_data w = d ->
    w_nodes w = nodes ->
    0 <= uio_resid (m_uio (w_mem w)) < Z.of_nat fuel ->
    uio_resid (m_uio (w_mem w)) < 2 ^ 32 ->
    exists w',
      write_loop K fuel vp t w = (Next 0, w')
      /\ w_data w' = d
      /\ w_nodes w' = nodes
      /\ uio_resid (m_uio (w_mem w')) = 0
      /\ uio_offset (m_uio (w_mem w'))
         = uio_offset (m_uio (w_mem w)) + uio_resid (m_uio (w_mem w))
      /\ w_trace w'
         = w_trace w
           ++ write_chunks
                (Z.to_nat ((uio_resid (m_uio (w_mem w)) + iosize d - 1) / iosize d))
                (nodeid fv) (fh_id (fufh fv t))
                (uio_offset (m_uio (w_mem w))) (uio_resid (m_uio (w_mem w)))
                (iosize d).
Proof.
  intros Hfull.
  induction fuel as [|fuel IH]; intros w Hd Hn Hresid H32; [lia |].
  write_iteration w Hd Hn.
  2:{ exists w. split; [reflexivity |]. split; [exact Hd |]. split; [exact Hn |].
      split; [lia |]. split; [lia |].
      replace (uio_resid (m_uio (w_mem w))) with 0 by lia.
      rewrite Z.div_small by lia. cbn. symmetry; apply app_nil_r. }
  set (u := m_uio (w_mem w)) in *.
  set (size := Z.min (uio_resid u) (iosize d)).
  assert (Hsize : 0 < size <= uio_resid u /\ size < 2 ^ 31) by (subst size; lia).
  assert (Hu32 : u32 size = size).
  { unfold u32. apply Z.mod_small. lia. }
  assert (Hmoved : Z.max 0 (Z.min (i32 size) (uio_resid u)) = size).
  { rewrite i32_in_range by lia. lia. }
  rewrite Hu32, Hmoved. change (nz 0) with false. cbn.
  match goal with |- context [k_daemon K ?n ?r] =>
    destruct (Hfull n r _ _ _ eq_refl) as [Herr Hsz]; rewrite Herr, Hsz
  end.
  change (nz 0) with false. cbn. rewrite Z.sub_diag. cbn.
  match goal with |- context [write_loop K fuel vp t ?W] =>
    pose proof (IH W Hd Hn) as Hrec; cbn in Hrec;
    specialize (Hrec ltac:(lia) ltac:(lia));
    destruct Hrec as (w' & Hloop & Hd' & Hn' & Hzero & Hoff & Htr)
  end.
  cbn in Htr. exists w'. split; [exact Hloop |].
  split; [exact Hd' |]. split; [exact Hn' |].
  split; [exact Hzero |]. split; [fold u; lia |].
  rewrite Htr, <- app_assoc. cbn [app]. f_equal.
  rewrite !Z.add_0_r, !Z.sub_0_r.
  assert (Hn'' : Z.to_nat ((uio_resid u + iosize d - 1) / iosize d)
                = S (Z.to_nat ((uio_resid u - size + iosize d - 1) / iosize d))).
  { subst size. destruct (Z.le_gt_cases (uio_resid u) (iosize d)) as [Hle|Hgt].
    - rewrite Z.min_l by lia.
      replace (uio_resid u - uio_resid u + iosize d - 1) with (iosize d - 1) by lia.
      rewrite (Z.div_small (iosize d - 1)) by lia.
      replace (uio_resid u + iosize d - 1)
        with ((uio_resid u - 1) + 1 * iosize d) by lia.
      rewrite Z.div_add by lia. rewrite Z.div_small by lia. reflexivity.
    - rewrite Z.min_r by lia.
      replace (uio_resid u + iosize d - 1)
        with ((uio_resid u - iosize d + iosize d - 1) + 1 * iosize d) by lia.
      rewrite Z.div_add by lia.
      rewrite Z2Nat.inj_add; [| apply Z.div_pos; lia | lia].
      change (Z.to_nat 1) with 1%nat. lia. }
  fold u. rewrite Hn''. reflexivity.
Qed.

(** A daemon that takes nothing of any WRITE, and reports no error: the
    uio is put back where it was, and the loop goes round again. *)
Lemma write_loop_spins (fuel : nat) :
  (forall n r, ans_err (k_daemon K n r) = 0 /\ ans_size (k_daemon K n r) = 0) ->
  forall w,
    w_data w = d ->
    w_nodes w = nodes ->
    0 < uio_resid (m_uio (w_mem w)) < 2 ^ 32 ->
    fst (write_loop K fuel vp t w) = Hang.
Proof.
  intros Hidle.
  induction fuel as [|fuel IH]; intros w Hd Hn Hresid; [reflexivity |].
  write_iteration w Hd Hn; [| lia].
  set (u := m_uio (w_mem w)) in *.
  set (size := Z.min (uio_resid u) (iosize d)).
  assert (Hsize : 0 < size <= uio_resid u /\ size < 2 ^ 31) by (subst size; lia).
  assert (Hmoved : Z.max 0 (Z.min (i32 size) (uio_resid u)) = size).
  { rewrite i32_in_range by lia. lia. }
  rewrite Hmoved. change (nz 0) with false. cbn.
  match goal with |- context [k_daemon K ?n ?r] =>
    destruct (Hidle n r) as [Herr Hsz]; rewrite Herr, Hsz
  end.
  change (nz 0) with false. cbn.
  replace (size - 0 <? 0) with false by (symmetry; apply Z.ltb_ge; lia).
  apply IH; [exact Hd | exact Hn |]. cbn. fold u. lia.
Qed.

End WriteLoop.

Ltac write_start Hlive Hreg Hnode Hdio Hslot :=
  unfold vfs_call, fuse_vnode_operation_entries, fuse_vnop_write;
  unfold_prims; unfold_monad; cbn; rewrite Hlive; cbn; rewrite Hreg; cbn;
  match goal with
  | |- context [uio_resid ?u =? 0] =>
      replace (uio_resid u =? 0) with false by (symmetry; apply Z.eqb_neq; lia)
  end;
  match goal with
  | |- context [uio_offset ?u <? 0] =>
      replace (uio_offset u <? 0) with false by (symmetry; apply Z.ltb_ge; lia)
  end;
  cbn; rewrite Hnode; cbn; rewrite Hdio;
  unfold direct_write_slot in Hslot; cbn [fufh] in Hslot;
  match type of Hslot with ?s = Some ?t => change s with s; rewrite Hslot end;
  cbn.

(** X13.  With a daemon that takes every WRITE in full and a copy from the caller
    that does not fail, a direct-I/O write on a live session, of a file with
    a valid write-only or read-write slot, writes all it was asked to: it
    returns 0, the uio is left with nothing to write at the end of the
    range, what went out are the WRITE requests for the whole range on the
    handle of the slot, one for each I/O size or part of it, and then the
    drop of the ticket; and the cached attributes of the file are no longer
    valid. *)
Theorem direct_write_takes_all (K : kernel) (fuel : nat) (vp : vnode)
    (ioflag : Z) (context : vfs_context) (w : world) (fv : fuse_vnode_data)
    (t : fufh_type) :
  (forall n r fh off size,
     rq_in r = in_write fh off size ->
     ans_err (k_daemon K n r) = 0 /\ ans_size (k_daemon K n r) = size) ->
  (forall n x, k_uiomove K n x = 0) ->
  dead (w_data w) = false ->
  v_type vp = VREG ->
  w_nodes w !! v_fsnode vp = Some fv ->
  direct_io fv = true ->
  direct_write_slot fv = Some t ->
  0 < iosize (w_data w) < 2 ^ 31 ->
  let u := m_uio (w_mem w) in
  0 < uio_resid u < 2 ^ 32 ->
  0 <= uio_offset u ->
  uio_resid u < Z.of_nat fuel ->
  let r := vfs_call K (vnop_write fuel vp ioflag context) w in
  let u' := m_uio (w_mem (snd r)) in
  fst r = Returned 0
  /\ uio_resid u' = 0
  /\ uio_offset u' = uio_offset u + uio_resid u
  /\ w_trace (snd r)
     = w_trace w
       ++ write_chunks
            (Z.to_nat ((uio_resid u + iosize (w_data w) - 1) / iosize (w_data w)))
            (nodeid fv) (fh_id (fufh fv t))
            (uio_offset u) (uio_resid u) (iosize (w_data w))
       ++ [ev_ticket_drop]
  /\ attr_valid <$> (w_nodes (snd r) !! v_fsnode vp) = Some 0.
Proof.
  intros Hfull Hmove Hlive Hreg Hnode Hdio Hslot Hio u Hresid Hoff Hfuel r u'.
  subst r u' u.
  destruct (write_loop_takes_all K vp t fv (w_data w) (w_nodes w) Hnode Hio
              Hmove fuel Hfull w eq_refl eq_refl ltac:(lia) ltac:(lia))
    as (w' & Hrun & Hd' & Hn' & Hzero & Hsum & Htr).
  write_start Hlive Hreg Hnode Hdio Hslot.
  rewrite Hrun. cbn. change (nz 0) with false. cbn. rewrite Hn', Hnode. cbn.
  split; [reflexivity |]. split; [exact Hzero |]. split; [exact Hsum |].
  split; [rewrite Htr, <- app_assoc; reflexivity |].
  rewrite lookup_insert_eq. reflexivity.
Qed.

Lemma direct_write_takes_all_witness :
  let K := mk_kernel taking_daemon false in
  let r := vfs_call K (vnop_write (Z.to_nat 9001) file_vnode 0 user_context)
             (direct_write_world 9000 100) in
  fst r = Returned 0
  /\ uio_resid (m_uio (w_mem (snd r))) = 0
  /\ uio_offset (m_uio (w_mem (snd r))) = 9100
  /\ w_trace (snd r)
     = [ev_wait_answer {| rq_op := FUSE_WRITE; rq_nodeid := 3;
                          rq_in := in_write 43 100 4096 |};
        ev_wait_answer {| rq_op := FUSE_WRITE; rq_nodeid := 3;
                          rq_in := in_write 43 4196 4096 |};
        ev_wait_answer {| rq_op := FUSE_WRITE; rq_nodeid := 3;
                          rq_in := in_write 43 8292 808 |};
        ev_ticket_drop].
Proof.
  intros K r.
  assert (Hfull : forall n r fh off size,
            rq_in r = in_write fh off size ->
            ans_err (k_daemon K n r) = 0 /\ ans_size (k_daemon K n r) = size).
  { intros n q fh off size Hq. cbn. unfold taking_daemon. rewrite Hq.
    split; reflexivity. }
  destruct (direct_write_takes_all K (Z.to_nat 9001) file_vnode 0 user_context
           (direct_write_world 9000 100) direct_write_node FUFH_WRONLY Hfull
           (fun _ _ => eq_refl) eq_refl eq_refl eq_refl eq_refl eq_refl
           ltac:(cbn; lia) ltac:(cbn; lia) ltac:(cbn; lia)
           ltac:(cbn [direct_write_world mk_world w_mem m_uio mem_set_uio uio_resid]; lia))
    as (H1 & H2 & H3 & H4 & _).
  split; [exact H1 |]. split; [exact H2 |]. split; [exact H3 | exact H4].
Defined.

(** X14.  A daemon that answers every WRITE without an error and with nothing
    written keeps a direct-I/O write going round for ever: the loop puts the
    uio back where it was and sends the same WRITE again.  However many
    rounds the write is given, it does not return. *)
Theorem direct_write_spins_on_no_progress (K : kernel) (vp : vnode)
    (ioflag : Z) (context : vfs_context) (w : world) (fv : fuse_vnode_data)
    (t : fufh_type) :
  (forall n r, ans_err (k_daemon K n r) = 0 /\ ans_size (k_daemon K n r) = 0) ->
  (forall n x, k_uiomove K n x = 0) ->
  dead (w_data w) = false ->
  v_type vp = VREG ->
  w_nodes w !! v_fsnode vp = Some fv ->
  direct_io fv = true ->
  direct_write_slot fv = Some t ->
  0 < iosize (w_data w) < 2 ^ 31 ->
  0 < uio_resid (m_uio (w_mem w)) < 2 ^ 32 ->
  0 <= uio_offset (m_uio (w_mem w)) ->
  forall fuel, fst (vfs_call K (vnop_write fuel vp ioflag context) w) = Hung.
Proof.
  intros Hidle Hmove Hlive Hreg Hnode Hdio Hslot Hio Hresid Hoff fuel.
  pose proof (write_loop_spins K vp t fv (w_data w) (w_nodes w) Hnode Hio
                Hmove fuel Hidle w eq_refl eq_refl Hresid) as Hspin.
  write_start Hlive Hreg Hnode Hdio Hslot.
  destruct (write_loop K fuel vp t w) as [o w']. cbn in Hspin. subst o.
  reflexivity.
Qed.

Lemma direct_write_spins_on_no_progress_witness :
  let K := mk_kernel idle_daemon false in
  fst (vfs_call K (vnop_write (Z.to_nat 100000) file_vnode 0 user_context)
         (direct_write_world 9000 100)) = Hung.
Proof.
  intros K.
  exact (direct_write_spins_on_no_progress K file_vnode 0 user_context
           (direct_write_world 9000 100) direct_write_node FUFH_WRONLY
           (fun _ _ => conj eq_refl eq_refl) (fun _ _ => eq_refl)
           eq_refl eq_refl eq_refl eq_refl eq_refl
           ltac:(cbn; lia) ltac:(cbn; lia) ltac:(cbn; lia) (Z.to_nat 100000)).
Defined.

(** ** Requests the daemon does not implement *)

Lemma skipn_length_app {A} (l r : list A) : skipn (List.length l) (l ++ r) = r.
Proof. induction l; simpl; auto. Qed.

Lemma implemented_clear_same (d : fuse_data) (b : Z) :
  fuse_implemented (fuse_clear_implemented d b) b = false.
Proof.
  unfold fuse_implemented, fuse_clear_implemented. destruct d; cbn.
  apply Z.clearbit_eq.
Qed.

Lemma sent_since_app (p : event -> bool) (w w' : world) (rest : list event) :
  w_trace w' = w_trace w ++ rest ->
  sent_since p w w' = List.length (List.filter p rest).
Proof. intros H. unfold sent_since. rewrite H, skipn_length_app. reflexivity. Qed.

Section Negotiation.

Variable K : kernel.

Ltac lacks_contradiction Hlacks :=
  exfalso;
  match goal with
  | H : context [ans_err (k_daemon K ?n ?q)] |- _ =>
      rewrite (Hlacks n q eq_refl) in H; vm_compute in H; discriminate H
  end.

Ltac budget_leaf :=
  unfold within_budget, budget; cbn;
  rewrite ?implemented_clear_same;
  first
    [ exists []; split; [symmetry; apply app_nil_r |];
      cbn; repeat match goal with |- context [if ?b then _ else _] => destruct b end;
      cbn; lia
    | eexists; split; [rewrite <- ?app_assoc; reflexivity |];
      cbn; repeat match goal with |- context [if ?b then _ else _] => destruct b end;
      cbn; lia ].

Lemma call_within_budget (op : fuse_opcode) (c : vnop_call) (w : world) :
  daemon_lacks K op ->
  negotiated_opcode c = Some op ->
  within_budget op w (vfs_call K c w).
Proof.
  intros Hlacks Hop.
  destruct c; cbn in Hop; try discriminate Hop; injection Hop as <-.
  - unfold vfs_call, fuse_vnode_operation_entries, fuse_vnop_create,
      FSNodeGetOrCreateFileVNodeByID, fuse_internal_checkentry.
    unfold_prims; unfold_monad; unfold modify_data.
    repeat step.
    all: first [lacks_contradiction Hlacks | budget_leaf].
  - unfold vfs_call, fuse_vnode_operation_entries, fuse_vnop_getxattr,
      xattr_copyout, uiomove.
    unfold_prims; unfold_monad; unfold modify_data.
    repeat step.
    all: first [lacks_contradiction Hlacks | budget_leaf].
  - unfold vfs_call, fuse_vnode_operation_entries, fuse_vnop_ioctl.
    unfold_prims; unfold_monad; unfold modify_data.
    repeat step.
    all: first [lacks_contradiction Hlacks | budget_leaf].
  - unfold vfs_call, fuse_vnode_operation_entries, fuse_vnop_listxattr,
      xattr_copyout, uiomove.
    unfold_prims; unfold_monad; unfold modify_data.
    repeat step.
    all: first [lacks_contradiction Hlacks | budget_leaf].
  - unfold vfs_call, fuse_vnode_operation_entries, fuse_vnop_removexattr.
    unfold_prims; unfold_monad; unfold modify_data.
    repeat step.
    all: first [lacks_contradiction Hlacks | budget_leaf].
  - unfold vfs_call, fuse_vnode_operation_entries, fuse_vnop_setxattr, uiomove.
    unfold_prims; unfold_monad; unfold modify_data.
    repeat step.
    all: first [lacks_contradiction Hlacks | budget_leaf].
Qed.

End Negotiation.

Lemma calls_within_budget (K : kernel) (op : fuse_opcode)
    (calls : list vnop_call) :
  daemon_lacks K op ->
  Forall (fun c => negotiated_opcode c = Some op) calls ->
  forall w, within_budget op w (Returned 0, vfs_calls K calls w).
Proof.
  intros Hlacks Hcalls. induction Hcalls as [|c calls Hc _ IH]; intros w.
  - exists []. split; [symmetry; apply app_nil_r | cbn; lia].
  - destruct (call_within_budget K op c w Hlacks Hc) as (l1 & H1 & Hb1).
    destruct (IH (snd (vfs_call K c w))) as (l2 & H2 & Hb2).
    cbn [snd] in H2, Hb2.
    exists (l1 ++ l2). cbn [vfs_calls snd].
    split; [rewrite H2, H1, <- app_assoc; reflexivity |].
    rewrite List.filter_app, length_app. lia.
Qed.

(** X15.  A daemon that does not implement CREATE, IOCTL or one of the
    extended-attribute requests is asked at most once: over any sequence of
    calls of that operation, on whatever vnodes and arguments, at most one
    request of the opcode goes out (the one that is answered with ENOSYS and
    clears the capability bit), and none at all when the bit is clear at
    the start. *)
Theorem unimplemented_request_asked_once (K : kernel) (op : fuse_opcode)
    (calls : list vnop_call) (w : world) :
  daemon_lacks K op ->
  Forall (fun c => negotiated_opcode c = Some op) calls ->
  (sent_since (sends op) w (vfs_calls K calls w) <= 1)%nat
  /\ (fuse_implemented (w_data w) (FSESS_NOIMPLBIT op) = false ->
      sent_since (sends op) w (vfs_calls K calls w) = 0%nat)
  /\ (sent_since (sends op) w (vfs_calls K calls w) = 1%nat ->
      fuse_implemented (w_data (vfs_calls K calls w)) (FSESS_NOIMPLBIT op) = false).
Proof.
  intros Hlacks Hcalls.
  destruct (calls_within_budget K op calls Hlacks Hcalls w)
    as (rest & Htr & Hb).
  cbn [snd] in *. rewrite (sent_since_app _ _ _ _ Htr).
  unfold budget in Hb.
  destruct (fuse_implemented (w_data w) (FSESS_NOIMPLBIT op));
    destruct (fuse_implemented (w_data (vfs_calls K calls w)) (FSESS_NOIMPLBIT op));
    repeat split; intros; try lia; try discriminate; reflexivity.
Qed.

Lemma unimplemented_request_asked_once_witness :
  let K := mk_kernel bare_daemon false in
  let calls := [vnop_listxattr file_vnode false user_context;
                vnop_listxattr dir_vnode true user_context;
                vnop_listxattr file_vnode false user_context] in
  sent_since (sends FUSE_LISTXATTR) live_world (vfs_calls K calls live_world)
  = 1%nat
  /\ fuse_implemented (w_data (vfs_calls K calls live_world))
       (FSESS_NOIMPLBIT FUSE_LISTXATTR) = false.
Proof.
  intros K calls.
  destruct (unimplemented_request_asked_once K FUSE_LISTXATTR calls live_world
              (fun _ _ _ => eq_refl) ltac:(repeat constructor)) as (_ & _ & H).
  assert (H1 : sent_since (sends FUSE_LISTXATTR) live_world
                 (vfs_calls K calls live_world) = 1%nat)
    by (vm_compute; reflexivity).
  split; [exact H1 | exact (H H1)].
Defined.

(** ** lookup *)

Section Lookup.

Variable K : kernel.
Variables (dvp : vnode) (cnp : componentname) (context : vfs_context).
Variables (w : world) (fvd : fuse_vnode_data).

Hypothesis Hlive : dead (w_data w) = false.
Hypothesis Hname :
  k_skip_apple_double K (v_mount dvp) (cn_nameptr cnp) (cn_namelen cnp) = false.
Hypothesis Hdir : vnode_isdir dvp = true.
Hypothesis Hrw : mnt_rdonly (v_mount dvp) = false.
Hypothesis Hlen : 1 < cn_namelen cnp <= FUSE_MAXNAMLEN.
Hypothesis Hdotdot : Z.land (cn_flags cnp) ISDOTDOT = 0.
Hypothesis Hnode : w_nodes w !! v_fsnode dvp = Some fvd.

Ltac lookup_start :=
  unfold vfs_call, fuse_vnode_operation_entries, fuse_vnop_lookup;
  unfold_prims; unfold_monad; unfold modify_mem; cbn;
  rewrite Hlive, Hname, Hdir, Hrw, Hdotdot; cbn;
  rewrite ?andb_false_r; cbn;
  replace (FUSE_MAXNAMLEN <? cn_namelen cnp) with false
    by (symmetry; apply Z.ltb_ge; lia);
  replace (cn_namelen cnp =? 1) with false
    by (symmetry; apply Z.eqb_neq; lia);
  cbn; rewrite ?andb_false_r; cbn.

Lemma lookup_cached (e : errno) (hit : option vnode) :
  no_vncache (w_data w) = false ->
  k_vncache_lookup K dvp cnp = (e, hit) ->
  e <> 0 ->
  vfs_call K (vnop_lookup dvp cnp context) w
  = (Returned (if e =? -1 then 0 else e),
     with_mem w (mem_set_vpp (w_mem w) hit)).
Proof.
  intros Hcache Hhit He. apply Z.eqb_neq in He.
  lookup_start. rewrite Hcache, Hhit. cbn.
  destruct (e =? -1) eqn:E1; cbn; [reflexivity |].
  rewrite He. reflexivity.
Qed.

Let req : request :=
  {| rq_op := FUSE_LOOKUP; rq_nodeid := nodeid fvd; rq_in := in_name (cn_name cnp) |}.

Lemma lookup_missing :
  no_vncache (w_data w) = true \/ fst (k_vncache_lookup K dvp cnp) = 0 ->
  (ans_err (k_daemon K (List.length (w_trace w)) req) = ENOENT
   /\ ans_errno (k_daemon K (List.length (w_trace w)) req) <> 0)
  \/ (ans_err (k_daemon K (List.length (w_trace w)) req) = 0
      /\ feo_nodeid (ans_entry (k_daemon K (List.length (w_trace w)) req)) = 0) ->
  let creating :=
    (nameiop_eqb (cn_nameiop cnp) CREATE || nameiop_eqb (cn_nameiop cnp) RENAME)
    && nz (Z.land (cn_flags cnp) ISLASTCN) in
  returns
    (fun e w' =>
       e = (if creating then EJUSTRETURN else ENOENT)
       /\ w_trace w'
          = w_trace w
            ++ ev_wait_answer req
               :: (if negb creating && nz (Z.land (cn_flags cnp) MAKEENTRY)
                      && negb (nameiop_eqb (cn_nameiop cnp) CREATE)
                   then [ev_vncache_enter dvp (cn_name cnp)] else []))
    (vfs_call K (vnop_lookup dvp cnp context) w).
Proof.
  intros Hcache Hmiss creating. subst creating req.
  lookup_start. change (nz 0) with false. cbn.
  unfold lookup_answered, lookup_out.
  unfold_prims; unfold_monad; unfold modify_mem.
  assert (Hpath :
    no_vncache (w_data w) = true
    \/ (no_vncache (w_data w) = false /\ fst (k_vncache_lookup K dvp cnp) = 0)).
  { destruct (no_vncache (w_data w)); [left; reflexivity |].
    destruct Hcache as [H|H]; [discriminate | right; split; [reflexivity | exact H]]. }
  destruct Hpath as [Hno | [Hno Hzero]]; rewrite Hno; cbn.
  2: destruct (k_vncache_lookup K dvp cnp) as [e hit]; cbn in Hzero; subst e; cbn.
  all: rewrite Hnode; cbn; rewrite Hdotdot; cbn.
  all: replace (cn_namelen cnp =? 1) with false
         by (symmetry; apply Z.eqb_neq; lia).
  all: rewrite ?andb_false_r; cbn.
  all: destruct Hmiss as [[Herr Hno'] | [Herr Hnid]]; rewrite Herr;
         [apply nz_true_iff in Hno' | rewrite Hnid];
         change (nz ENOENT) with true; change (nz 0) with false; cbn;
         rewrite ?Hno'; cbn.
  all: destruct (nameiop_eqb (cn_nameiop cnp) CREATE);
         destruct (nameiop_eqb (cn_nameiop cnp) RENAME);
         destruct (nz (Z.land (cn_flags cnp) ISLASTCN));
         destruct (nz (Z.land (cn_flags cnp) MAKEENTRY)); cbn.
  all: split; [reflexivity | cbn; rewrite <- ?app_assoc; reflexivity].
Qed.

End Lookup.

(** X16.  A lookup that the name cache answers does not go to the daemon: on a
    live session, for a name of 2 to 255 bytes in a directory on a mount
    that is not read-only, with the name cache in use, a positive match
    returns 0 with the vnode of the cache and a negative match (or an error
    of the cache) returns it; nothing is sent and only the place for the
    result is written. *)
Theorem lookup_answered_by_name_cache (K : kernel) (dvp : vnode)
    (cnp : componentname) (context : vfs_context) (w : world)
    (e : errno) (hit : option vnode) :
  dead (w_data w) = false ->
  k_skip_apple_double K (v_mount dvp) (cn_nameptr cnp) (cn_namelen cnp) = false ->
  vnode_isdir dvp = true ->
  mnt_rdonly (v_mount dvp) = false ->
  1 < cn_namelen cnp <= FUSE_MAXNAMLEN ->
  Z.land (cn_flags cnp) ISDOTDOT = 0 ->
  no_vncache (w_data w) = false ->
  k_vncache_lookup K dvp cnp = (e, hit) ->
  e <> 0 ->
  vfs_call K (vnop_lookup dvp cnp context) w
  = (Returned (if e =? -1 then 0 else e),
     with_mem w (mem_set_vpp (w_mem w) hit)).
Proof.
  intros Hlive Hname Hdir Hrw Hlen Hdd Hcache Hhit He.
  exact (lookup_cached K dvp cnp context w Hlive Hname Hdir Hrw Hlen Hdd
           e hit Hcache Hhit He).
Qed.

Lemma lookup_answered_by_name_cache_witness :
  let K := with_vncache (mk_kernel empty_daemon false)
             (fun _ _ => (-1, Some file_vnode)) in
  let r := vfs_call K (vnop_lookup dir_vnode (cn "file" LOOKUP ISLASTCN) user_context)
             live_world in
  fst r = Returned 0
  /\ m_vpp (w_mem (snd r)) = Some file_vnode
  /\ w_trace (snd r) = [].
Proof.
  intros K r. subst r.
  rewrite (lookup_answered_by_name_cache K dir_vnode (cn "file" LOOKUP ISLASTCN)
             user_context live_world (-1) (Some file_vnode)
             eq_refl eq_refl eq_refl eq_refl
              ltac:(vm_compute; split; [reflexivity | discriminate]) eq_refl eq_refl
             eq_refl ltac:(discriminate)).
  split; [reflexivity |]. split; reflexivity.
Defined.

(** X17.  A lookup of a name the daemon does not have: on a live session, for a
    name of 2 to 255 bytes that is not filtered as an Apple-double file and
    is not "..", in a directory with node data on a mount that is not
    read-only, when the name cache is off or has no match, a LOOKUP is sent
    for the name under the node of the directory; when the answer is
    ENOENT, or an entry with node id 0, the lookup returns EJUSTRETURN for
    the last component of a CREATE or a RENAME and ENOENT otherwise, and in
    the second case a negative entry goes into the name cache when
    MAKEENTRY is set and the operation is not CREATE.  Nothing else is
    sent. *)
Theorem lookup_of_missing_name (K : kernel) (dvp : vnode)
    (cnp : componentname) (context : vfs_context) (w : world)
    (fvd : fuse_vnode_data) :
  dead (w_data w) = false ->
  k_skip_apple_double K (v_mount dvp) (cn_nameptr cnp) (cn_namelen cnp) = false ->
  vnode_isdir dvp = true ->
  mnt_rdonly (v_mount dvp) = false ->
  1 < cn_namelen cnp <= FUSE_MAXNAMLEN ->
  Z.land (cn_flags cnp) ISDOTDOT = 0 ->
  w_nodes w !! v_fsnode dvp = Some fvd ->
  no_vncache (w_data w) = true \/ fst (k_vncache_lookup K dvp cnp) = 0 ->
  let req := {| rq_op := FUSE_LOOKUP; rq_nodeid := nodeid fvd;
                rq_in := in_name (cn_name cnp) |} in
  let a := k_daemon K (List.length (w_trace w)) req in
  (ans_err a = ENOENT /\ ans_errno a <> 0)
  \/ (ans_err a = 0 /\ feo_nodeid (ans_entry a) = 0) ->
  let creating :=
    (nameiop_eqb (cn_nameiop cnp) CREATE || nameiop_eqb (cn_nameiop cnp) RENAME)
    && nz (Z.land (cn_flags cnp) ISLASTCN) in
  let r := vfs_call K (vnop_lookup dvp cnp context) w in
  fst r = Returned (if creating then EJUSTRETURN else ENOENT)
  /\ w_trace (snd r)
     = w_trace w
       ++ ev_wait_answer req
          :: (if negb creating && nz (Z.land (cn_flags cnp) MAKEENTRY)
                 && negb (nameiop_eqb (cn_nameiop cnp) CREATE)
              then [ev_vncache_enter dvp (cn_name cnp)] else []).
Proof.
  intros Hlive Hname Hdir Hrw Hlen Hdd Hnode Hcache req a Hmiss creating r.
  destruct (returns_ex _ _
              (lookup_missing K dvp cnp context w fvd Hlive Hname Hdir Hrw Hlen
                 Hdd Hnode Hcache Hmiss))
    as (e & w' & Hcall & He & Htr).
  subst r. rewrite Hcall. cbn [fst snd]. split; [rewrite He; reflexivity | exact Htr].
Qed.

Lemma lookup_of_missing_name_witness :
  let K := mk_kernel empty_daemon false in
  let r := vfs_call K (vnop_lookup dir_vnode (cn "newfile" CREATE ISLASTCN)
                         user_context) live_world in
  let r' := vfs_call K (vnop_lookup dir_vnode
                          (cn "nofile" LOOKUP (Z.lor ISLASTCN MAKEENTRY))
                          user_context) live_world in
  fst r = Returned EJUSTRETURN
  /\ fst r' = Returned ENOENT
  /\ w_trace (snd r')
     = [ev_wait_answer {| rq_op := FUSE_LOOKUP; rq_nodeid := 2;
                          rq_in := in_name "nofile" |};
        ev_vncache_enter dir_vnode "nofile"].
Proof.
  intros K r r'.
  assert (Hlen : forall name op fl,
            (1 < String.length name <= 255)%nat ->
            1 < cn_namelen (cn name op fl) <= FUSE_MAXNAMLEN).
  { intros name op fl H. unfold FUSE_MAXNAMLEN. cbn. lia. }
  assert (Hmiss : forall q,
            (ans_err (k_daemon K (List.length (w_trace live_world)) q) = ENOENT
             /\ ans_errno (k_daemon K (List.length (w_trace live_world)) q) <> 0)
            \/ (ans_err (k_daemon K (List.length (w_trace live_world)) q) = 0
                /\ feo_nodeid
                     (ans_entry (k_daemon K (List.length (w_trace live_world)) q))
                   = 0)).
  { intros q. left. split; [reflexivity | discriminate]. }
  pose proof (lookup_of_missing_name K dir_vnode (cn "newfile" CREATE ISLASTCN)
                user_context live_world (closed_node 2)
                eq_refl eq_refl eq_refl eq_refl
                (Hlen "nofile"%string LOOKUP (Z.lor ISLASTCN MAKEENTRY)
                   ltac:(cbn; lia))
                eq_refl eq_refl (or_intror eq_refl) (Hmiss _)) as [H1 _].
  pose proof (lookup_of_missing_name K dir_vnode
                (cn "nofile" LOOKUP (Z.lor ISLASTCN MAKEENTRY))
                user_context live_world (closed_node 2)
                eq_refl eq_refl eq_refl eq_refl
                (Hlen "nofile"%string LOOKUP (Z.lor ISLASTCN MAKEENTRY)
                   ltac:(cbn; lia))
                eq_refl eq_refl (or_intror eq_refl) (Hmiss _)) as [H2 H3].
  split; [exact H1 |]. split; [exact H2 | exact H3].
Defined.

(** ** readdir and fsync *)

(** X18.  A readdir on a directory whose read-only slot is in use borrows the
    handle: on a live session, for a caller the blanket-denial hook admits,
    without the flags for cookies, and with one buffer of at least the size
    of a directory entry, it returns what [fuse_internal_readdir] returns,
    leaves the counts of all slots as they were, asks the daemon for no
    handle and gives none back, and leaves the cached attributes of the
    directory invalid. *)
Theorem readdir_borrows_handle (K : kernel) (vp : vnode) (flags : Z)
    (context : vfs_context) (w : world) (fv : fuse_vnode_data) :
  dead (w_data w) = false ->
  k_blanket_deny K vp context = false ->
  Z.land flags (Z.lor VNODE_READDIR_REQSEEKOFF VNODE_READDIR_EXTENDED) = 0 ->
  uio_iovcnt (m_uio (w_mem w)) <= 1 ->
  sizeof_fuse_dirent <= uio_resid (m_uio (w_mem w)) ->
  w_nodes w !! v_fsnode vp = Some fv ->
  0 < open_count (fufh fv FUFH_RDONLY) < 2 ^ 31 - 1 ->
  let r := vfs_call K (vnop_readdir vp flags context) w in
  fst r
  = Returned (h_err (k_helper K (List.length (w_trace w))
                       (fuse_internal_readdir vp (fh_id (fufh fv FUFH_RDONLY)))
                       (m_uio (w_mem w))))
  /\ (forall c, slot_count (snd r) vp c = Some (open_count (fufh fv c)))
  /\ attr_valid <$> (w_nodes (snd r) !! v_fsnode vp) = Some 0
  /\ quiet w (snd r).
Proof.
  intros Hlive Hadmit Hflags Hiov Hresid Hnode Hcount r. subst r.
  assert (Hvalid : FUFH_IS_VALID (fufh fv FUFH_RDONLY) = true).
  { unfold FUFH_IS_VALID. apply Z.ltb_lt. lia. }
  assert (Hdec : FUFH_IS_VALID (FUFH_USE_DEC (FUFH_USE_INC (fufh fv FUFH_RDONLY)))
                 = true).
  { unfold FUFH_IS_VALID, FUFH_USE_DEC, FUFH_USE_INC; cbn.
    rewrite (i32_in_range (open_count (fufh_rdonly fv) + 1)) by (cbn in Hcount; lia).
    rewrite i32_in_range by (cbn in Hcount; lia).
    apply Z.ltb_lt. cbn in Hcount. lia. }
  cbn [fufh] in *.
  unfold vfs_call, fuse_vnode_operation_entries, fuse_vnop_readdir, call.
  unfold_prims; unfold_monad; unfold modify_mem. cbn.
  rewrite Hlive, Hadmit, Hflags. change (nz 0) with false. cbn.
  replace (1 <? uio_iovcnt (m_uio (w_mem w))) with false
    by (symmetry; apply Z.ltb_ge; lia).
  replace (uio_resid (m_uio (w_mem w)) <? sizeof_fuse_dirent) with false
    by (symmetry; apply Z.ltb_ge; lia).
  cbn. rewrite Hnode. cbn. rewrite Hvalid. xsimpl.
  split; [reflexivity |]. split; [| split; [reflexivity | quiet_trace]].
  intros c. unfold slot_count. cbn. rewrite lookup_insert_eq. cbn.
  unfold FUFH_USE_DEC, FUFH_USE_INC. destruct c; cbn; try reflexivity.
  rewrite (i32_in_range (open_count (fufh_rdonly fv) + 1)) by lia.
  rewrite i32_in_range by lia. f_equal. lia.
Qed.

Lemma readdir_borrows_handle_witness :
  let K := mk_kernel finding_daemon false in
  let w := mk_world (mk_data false true capmap_all)
             [(2%N, mk_node 2 false (fufh_open 7 1) fufh_closed fufh_closed)]
             {| uio_resid := 4096; uio_offset := 0; uio_iovcnt := 1 |} in
  let r := vfs_call K (vnop_readdir dir_vnode 0 user_context) w in
  fst r = Returned 0
  /\ slot_count (snd r) dir_vnode FUFH_RDONLY = Some 1
  /\ w_trace (snd r) = [ev_call (fuse_internal_readdir dir_vnode 7)].
Proof.
  intros K w r.
  destruct (readdir_borrows_handle K dir_vnode 0 user_context w
              (mk_node 2 false (fufh_open 7 1) fufh_closed fufh_closed)
              eq_refl eq_refl eq_refl ltac:(vm_compute; discriminate)
              ltac:(vm_compute; discriminate) eq_refl
              ltac:(vm_compute; split; reflexivity)) as (H1 & H2 & _).
  split; [exact H1 |]. split; [exact (H2 FUFH_RDONLY) | reflexivity].
Defined.

Lemma fsync_returns (K : kernel) (vp : vnode) (waitfor : Z)
    (context : vfs_context) (w : world) (fv : fuse_vnode_data) :
  dead (w_data w) = false ->
  w_nodes w !! v_fsnode vp = Some fv ->
  returns
    (fun e w' =>
       (e = ENOSYS -> no_syncwrites (w_data w') = true)
       /\ exists rest,
            w_trace w' = w_trace w ++ ev_cluster_push vp 0 :: rest
            /\ List.filter is_fsync_call rest = rest
            /\ rest
               = (if fuse_implemented (w_data w)
                       (if vnode_isdir vp then FSESS_NOIMPLBIT FUSE_FSYNCDIR
                        else FSESS_NOIMPLBIT FUSE_FSYNC)
                  then map (fun t => ev_call (fuse_internal_fsync vp
                                                (fh_id (fufh fv t))))
                         (List.filter (fun t => FUFH_IS_VALID (fufh fv t))
                            FUFH_MAXTYPE)
                  else []))
    (vfs_call K (vnop_fsync vp waitfor context) w).
Proof.
  intros Hlive Hnode.
  unfold vfs_call, fuse_vnode_operation_entries, fuse_vnop_fsync, call.
  unfold_prims; unfold_monad; unfold modify_mem. cbn.
  rewrite Hlive. cbn.
  destruct (fuse_implemented (w_data w) _) eqn:Hcap; cbn.
  2:{ change (ENOSYS =? ENOSYS) with true. cbn.
      destruct (no_syncwrites (w_data w)) eqn:Hns; cbn.
      - split; [intros _; exact Hns |].
        exists []. repeat split; reflexivity.
      - split; [discriminate |].
        exists []. repeat split; reflexivity. }
  unfold call. unfold_prims; unfold_monad.
  repeat step.
  all: split;
    [ try discriminate;
      try (intros He;
           match goal with
           | H : (_ =? ENOSYS) && negb ?x = false |- ?x = true =>
               rewrite He in H; change (ENOSYS =? ENOSYS) with true in H;
               cbn in H; apply negb_false_iff in H; exact H
           end)
    | eexists; split; [cbn; rewrite <- ?app_assoc; reflexivity |];
      split; [reflexivity |];
      unfold FUFH_MAXTYPE; cbn [List.filter map fufh];
      repeat match goal with
             | H : FUFH_IS_VALID ?f = _ |- context [FUFH_IS_VALID ?f] => rewrite H
             end;
      reflexivity ].
Qed.

(** X19.  fsync on a live session pushes the dirty pages and then syncs each
    slot that is valid, in the order of the slots, once, through
    [fuse_internal_fsync] with the handle of the slot; with no valid slot,
    or without the FSYNC capability (FSYNCDIR for a directory), nothing is
    synced.  Its result is never ENOSYS unless the mount has synchronous
    writes off. *)
Theorem fsync_syncs_valid_handles (K : kernel) (vp : vnode) (waitfor : Z)
    (context : vfs_context) (w : world) (fv : fuse_vnode_data) :
  dead (w_data w) = false ->
  w_nodes w !! v_fsnode vp = Some fv ->
  let r := vfs_call K (vnop_fsync vp waitfor context) w in
  let capable :=
    fuse_implemented (w_data w)
      (if vnode_isdir vp then FSESS_NOIMPLBIT FUSE_FSYNCDIR
       else FSESS_NOIMPLBIT FUSE_FSYNC) in
  (exists e, fst r = Returned e
             /\ (e = ENOSYS -> no_syncwrites (w_data (snd r)) = true))
  /\ exists rest,
       w_trace (snd r) = w_trace w ++ ev_cluster_push vp 0 :: rest
       /\ List.filter is_fsync_call rest = rest
       /\ rest
          = (if capable
             then map (fun t => ev_call (fuse_internal_fsync vp (fh_id (fufh fv t))))
                    (List.filter (fun t => FUFH_IS_VALID (fufh fv t)) FUFH_MAXTYPE)
             else []).
Proof.
  intros Hlive Hnode r capable. subst r capable.
  destruct (returns_ex _ _ (fsync_returns K vp waitfor context w fv Hlive Hnode))
    as (e & w' & Hcall & He & Hrest).
  rewrite Hcall. cbn [fst snd].
  split; [exists e; split; [reflexivity | exact He] | exact Hrest].
Qed.

Lemma fsync_syncs_valid_handles_witness :
  let K := mk_kernel finding_daemon false in
  let r := vfs_call K (vnop_fsync file_vnode 0 user_context) ioctl_world in
  fst r = Returned 0
  /\ w_trace (snd r)
     = [ev_cluster_push file_vnode 0; ev_call (fuse_internal_fsync file_vnode 42)].
Proof.
  intros K r.
  destruct (fsync_syncs_valid_handles K file_vnode 0 user_context ioctl_world
              rdwr_node eq_refl eq_refl) as [_ (rest & Htr & _ & Hrest)].
  split; [reflexivity |]. fold r in Htr. rewrite Htr, Hrest. reflexivity.
Defined.
